(** * Godseye: agent trust and ingestion core

    A shallow embedding of the Supabase Edge Functions of the Godseye fleet
    monitor (enroll, ingest, offline-detector, rollup-builder, nonce-cleanup)
    together with the part of the Postgres schema they rely on, and the
    properties of the specification stated over that embedding.

    Layout:
    - JSON values and the zod validators of [_shared/schema.ts];
    - the tables, the statements the functions send through supabase-js,
      and what the database answers ([exec]);
    - the handlers as programs over those statements ([prog]), run one at a
      time ([run]) or interleaved ([interleave]);
    - the properties, general first, then at concrete requests. *)

From Stdlib Require Import List String Ascii ZArith QArith Bool Lia.
Import ListNotations.

Local Set Warnings "-register-all".
Local Close Scope Q_scope.
Local Open Scope string_scope.
Local Open Scope list_scope.

(* ===================================================================== *)
(** ** JSON values, as [JSON.parse] produces them *)
(* ===================================================================== *)

(** Numbers are finite doubles in the source; rationals cover them and keep
    the order and the integrality test exact.  The members of an object are
    kept in an association list whose first binding of a key is the one
    that is visible. *)
Inductive json : Type :=
| JNull
| JBool (b : bool)
| JNum (n : Q)
| JStr (s : string)
| JArr (items : list json)
| JObj (members : list (string * json)).

Fixpoint assoc {A : Type} (k : string) (l : list (string * A)) : option A :=
  match l with
  | [] => None
  | (k', v) :: l' => if String.eqb k k' then Some v else assoc k l'
  end.

(** [Number.isInteger] on a rational. *)
Definition Q_is_integer (x : Q) : bool :=
  Z.eqb (Zpos (Qden (Qred x))) 1.

Definition Q_to_Z (x : Q) : Z := Qnum (Qred x).

(* ===================================================================== *)
(** ** zod (v3.22) validators *)
(* ===================================================================== *)

Module Zod.

Inductive ZodIssueCode : Type :=
| invalid_type | too_small | too_big | invalid_string.

Inductive PathSeg : Type :=
| PKey (k : string)
| PIndex (i : nat).

Record ZodIssue : Type := mkIssue { code : ZodIssueCode; path : list PathSeg }.

(** What [_parse] returns: the issues added to the context and the value,
    [None] when parsing aborted.  A failed check leaves the value in place
    (status "dirty") and adds its issue. *)
Definition ParseReturn (A : Type) : Type := (list ZodIssue * option A)%type.

(** A schema reads the input found at a path; [None] is [undefined]
    (an absent key). *)
Definition ZodType (A : Type) : Type :=
  list PathSeg -> option json -> ParseReturn A.

Definition pr_pure {A} (a : A) : ParseReturn A := ([], Some a).

Definition pr_ap {A B} (f : ParseReturn (A -> B)) (x : ParseReturn A)
  : ParseReturn B :=
  (fst f ++ fst x,
   match snd f, snd x with
   | Some g, Some a => Some (g a)
   | _, _ => None
   end).

Definition pr_map {A B} (g : A -> B) (x : ParseReturn A) : ParseReturn B :=
  (fst x, option_map g (snd x)).

Definition pr_invalid {A} (p : list PathSeg) : ParseReturn A :=
  ([mkIssue invalid_type p], None).

Notation "f <*> x" := (pr_ap f x) (at level 51, left associativity).

(** *** Strings *)
Inductive StrCheck : Type :=
| sk_min (n : nat)
| sk_regex (matches : string -> bool).   (* uuid(), datetime() *)

Definition str_check_issue (c : StrCheck) (s : string) : option ZodIssueCode :=
  match c with
  | sk_min n => if Nat.ltb (String.length s) n then Some too_small else None
  | sk_regex m => if m s then None else Some invalid_string
  end.

Definition check_issues {A C} (f : C -> A -> option ZodIssueCode)
           (cs : list C) (p : list PathSeg) (a : A) : list ZodIssue :=
  flat_map (fun c => match f c a with
                     | Some k => [mkIssue k p]
                     | None => []
                     end) cs.

Definition z_string (cs : list StrCheck) : ZodType string :=
  fun p i =>
    match i with
    | Some (JStr s) => (check_issues str_check_issue cs p s, Some s)
    | _ => pr_invalid p
    end.

(** *** Numbers *)
Inductive NumCheck : Type :=
| nk_int
| nk_min (v : Q) (inclusive : bool)
| nk_max (v : Q) (inclusive : bool).

Definition num_check_issue (c : NumCheck) (x : Q) : option ZodIssueCode :=
  match c with
  | nk_int => if Q_is_integer x then None else Some invalid_type
  | nk_min v incl =>
      let small := if incl then negb (Qle_bool v x) else Qle_bool x v in
      if small then Some too_small else None
  | nk_max v incl =>
      let big := if incl then negb (Qle_bool x v) else Qle_bool v x in
      if big then Some too_big else None
  end.

Definition nk_positive : NumCheck := nk_min 0 false.
Definition nk_nonnegative : NumCheck := nk_min 0 true.

Definition z_number (cs : list NumCheck) : ZodType Q :=
  fun p i =>
    match i with
    | Some (JNum x) => (check_issues num_check_issue cs p x, Some x)
    | _ => pr_invalid p
    end.

(** [z.number().int()...]: the value is handed on as an integer. *)
Definition z_int (cs : list NumCheck) : ZodType Z :=
  fun p i => pr_map Q_to_Z (z_number (nk_int :: cs) p i).

(** *** Arrays: the length check first, then every element *)
Fixpoint parse_items {A} (elem : ZodType A) (p : list PathSeg) (i : nat)
         (l : list json) : ParseReturn (list A) :=
  match l with
  | [] => pr_pure []
  | x :: l' =>
      pr_pure cons <*> elem (p ++ [PIndex i]) (Some x)
                   <*> parse_items elem p (S i) l'
  end.

Definition z_array {A} (elem : ZodType A) (max : option nat)
  : ZodType (list A) :=
  fun p i =>
    match i with
    | Some (JArr l) =>
        let len_issues :=
          match max with
          | Some m => if Nat.ltb m (List.length l)
                      then [mkIssue too_big p] else []
          | None => []
          end in
        let r := parse_items elem p 0 l in
        (len_issues ++ fst r, snd r)
    | _ => pr_invalid p
    end.

(** *** optional(), default(), record(z.unknown()) *)
Definition z_optional {A} (t : ZodType A) : ZodType (option A) :=
  fun p i =>
    match i with
    | None => pr_pure None
    | Some _ => pr_map Some (t p i)
    end.

(** [t.optional().default(d)] where [d] is accepted by [t]. *)
Definition z_default {A} (t : ZodType A) (d : A) : ZodType A :=
  fun p i =>
    match i with
    | None => pr_pure d
    | Some _ => t p i
    end.

Definition z_record_unknown : ZodType json :=
  fun p i =>
    match i with
    | Some (JObj m) => pr_pure (JObj m)
    | _ => pr_invalid p
    end.

(** *** Objects: every key of the shape is parsed, issues accumulate *)
Definition z_object {A} (p : list PathSeg) (i : option json)
           (shape : list (string * json) -> ParseReturn A) : ParseReturn A :=
  match i with
  | Some (JObj m) => shape m
  | _ => pr_invalid p
  end.

Definition field {A} (p : list PathSeg) (m : list (string * json))
           (k : string) (t : ZodType A) : ParseReturn A :=
  t (p ++ [PKey k]) (assoc k m).

(** *** safeParse *)
Inductive SafeParseReturn (A : Type) : Type :=
| SafeParseSuccess (data : A)
| SafeParseError (issues : list ZodIssue).
Arguments SafeParseSuccess {A} data.
Arguments SafeParseError {A} issues.

Definition safeParse {A} (t : ZodType A) (j : json) : SafeParseReturn A :=
  match t [] (Some j) with
  | ([], Some d) => SafeParseSuccess d
  | (issues, _) => SafeParseError issues
  end.

End Zod.
Import Zod.

(* ===================================================================== *)
(** ** What lies outside the repository *)
(* ===================================================================== *)

(** The claims of an agent token ([createAgentJWT]). *)
Record JwtPayload : Type := mkJwtPayload {
  sub : string;
  jwt_org_id : string;
  iss : string;
  aud : string;
  exp : option Z;              (* seconds *)
  iat : option Z;
}.


(** Web Crypto, the gzip stream, [JSON.parse], the [Date] parser, zod's two
    regular expressions and the SQL functions of Postgres are not code of
    the repository.  Handlers and statements are defined over any
    implementation of them. *)
Class Platform : Type := {
  (** [hex(SHA-256(s))], used by [hashBody] and [hashSecret] *)
  sha256_hex : string -> string;
  (** [hex(HMAC-SHA-256(key, message))], [computeHMAC] *)
  hmac_sha256_hex : string -> string -> string;
  (** [new Date(s).getTime()] in milliseconds; [None] is [NaN] *)
  Date_parse : string -> option Z;
  (** [JSON.parse]; [None] is a [SyntaxError] *)
  JSON_parse : string -> option json;
  (** the gzip [DecompressionStream]; [None] when it throws *)
  gunzip : string -> option string;
  (** the token codec: [jwt_decode key token] is the payload of a token in
      three parts whose HS256 signature verifies under [key] and whose
      payload parses; [jwt_create] is djwt's [create] *)
  jwt_decode : string -> string -> option JwtPayload;
  jwt_create : string -> JwtPayload -> string;
  (** zod's [uuid()] and [datetime()] patterns *)
  is_uuid : string -> bool;
  is_datetime : string -> bool;
  (** the input function of [timestamptz], in milliseconds *)
  pg_timestamptz : string -> option Z;
  (** [AVG], [PERCENTILE_CONT(f) WITHIN GROUP (ORDER BY ...)] and [MAX]
      over the values of a group, in table order *)
  (** how a [timestamptz] column reads in a query result *)
  pg_show_timestamptz : Z -> string;
  pg_avg : list Q -> Q;
  pg_percentile_cont : Q -> list Q -> Q;
  pg_max : list Q -> Q;
}.

(* ===================================================================== *)
(** ** [_shared/schema.ts] *)
(* ===================================================================== *)

Record OsInfo : Type := mkOs { os_name : string; os_version : string }.
Record CpuInfo : Type := mkCpu { cpu_model : string; cpu_cores : Z }.

(** [ServerIdentitySchema.omit({ agent_id: true })] *)
Record HostFacts : Type := mkHostFacts {
  hostname : string;
  machine_id : string;
  os : OsInfo;
  kernel : string;
  cpu : CpuInfo;
  mem_bytes : Z;
  agent_version : string;
  tags : json;
}.

Record ServerIdentity : Type := mkServerIdentity {
  si_agent_id : option string;
  si_facts : HostFacts;
}.

Record LoadAvg : Type := mkLoad { m1 : Q; m5 : Q; m15 : Q }.
Record MemInfo : Type := mkMem { mem_used : Z; mem_free : Z; swap_used : Z }.

Record Heartbeat : Type := mkHeartbeat {
  hb_ts : string;
  uptime_s : Z;
  load : LoadAvg;
  cpu_pct : Q;
  mem : MemInfo;
}.

Record Disk : Type := mkDisk {
  mount : string;
  fs : string;
  size_bytes : Z;
  used_bytes : Z;
  inodes_used : option Z;
}.

Record NetworkInterface : Type := mkIface {
  if_name : string;
  mac : option string;
  ipv4 : list string;
  ipv6 : list string;
  rx_bytes : Z;
  tx_bytes : Z;
}.

Record Process : Type := mkProcess {
  pid : Z;
  cmd : string;
  proc_cpu_pct : Q;
  proc_mem_bytes : Z;
  usr : string;
}.

Record Package : Type := mkPackage {
  pkg_name : string;
  pkg_version : string;
  pkg_status : option string;
}.

Record Updates : Type := mkUpdates {
  security_updates_count : Z;
  regular_updates_count : Z;
  details : list json;
}.

Record Log : Type := mkLog {
  log_ts : string;
  source : string;
  level : string;
  message : string;
  raw : json;
}.

Record IngestPayload : Type := mkIngestPayload {
  server : ServerIdentity;
  heartbeat : Heartbeat;
  disks : list Disk;
  network_ifaces : list NetworkInterface;
  processes : list Process;
  packages : list Package;
  updates : option Updates;
  logs : list Log;
}.

Record EnrollRequest : Type := mkEnrollRequest {
  org_enroll_secret : string;
  host_facts : HostFacts;
}.

Section Schemas.
Context {PF : Platform}.

Definition OsSchema : ZodType OsInfo := fun p i =>
  z_object p i (fun m =>
    pr_pure mkOs <*> field p m "name" (z_string [])
                 <*> field p m "version" (z_string [])).

Definition CpuSchema : ZodType CpuInfo := fun p i =>
  z_object p i (fun m =>
    pr_pure mkCpu <*> field p m "model" (z_string [])
                  <*> field p m "cores" (z_int [nk_positive])).

(** The keys of [ServerIdentitySchema] after [agent_id], in shape order. *)
Definition host_facts_shape (p : list PathSeg) (m : list (string * json))
  : ParseReturn HostFacts :=
  pr_pure mkHostFacts
    <*> field p m "hostname" (z_string [sk_min 1])
    <*> field p m "machine_id" (z_string [sk_min 1])
    <*> field p m "os" OsSchema
    <*> field p m "kernel" (z_string [])
    <*> field p m "cpu" CpuSchema
    <*> field p m "mem_bytes" (z_int [nk_positive])
    <*> field p m "agent_version" (z_string [])
    <*> field p m "tags" (z_default z_record_unknown (JObj [])).

Definition ServerIdentitySchema : ZodType ServerIdentity := fun p i =>
  z_object p i (fun m =>
    pr_pure mkServerIdentity
      <*> field p m "agent_id" (z_optional (z_string [sk_regex is_uuid]))
      <*> host_facts_shape p m).

Definition HostFactsSchema : ZodType HostFacts := fun p i =>
  z_object p i (host_facts_shape p).

Definition LoadSchema : ZodType LoadAvg := fun p i =>
  z_object p i (fun m =>
    pr_pure mkLoad <*> field p m "m1" (z_number [nk_nonnegative])
                   <*> field p m "m5" (z_number [nk_nonnegative])
                   <*> field p m "m15" (z_number [nk_nonnegative])).

Definition MemSchema : ZodType MemInfo := fun p i =>
  z_object p i (fun m =>
    pr_pure mkMem <*> field p m "used" (z_int [nk_nonnegative])
                  <*> field p m "free" (z_int [nk_nonnegative])
                  <*> field p m "swap_used" (z_int [nk_nonnegative])).

Definition HeartbeatSchema : ZodType Heartbeat := fun p i =>
  z_object p i (fun m =>
    pr_pure mkHeartbeat
      <*> field p m "ts" (z_string [sk_regex is_datetime])
      <*> field p m "uptime_s" (z_int [nk_nonnegative])
      <*> field p m "load" LoadSchema
      <*> field p m "cpu_pct" (z_number [nk_min 0 true; nk_max 100 true])
      <*> field p m "mem" MemSchema).

Definition DiskSchema : ZodType Disk := fun p i =>
  z_object p i (fun m =>
    pr_pure mkDisk
      <*> field p m "mount" (z_string [])
      <*> field p m "fs" (z_string [])
      <*> field p m "size_bytes" (z_int [nk_nonnegative])
      <*> field p m "used_bytes" (z_int [nk_nonnegative])
      <*> field p m "inodes_used" (z_optional (z_int [nk_nonnegative]))).

Definition NetworkInterfaceSchema : ZodType NetworkInterface := fun p i =>
  z_object p i (fun m =>
    pr_pure mkIface
      <*> field p m "name" (z_string [])
      <*> field p m "mac" (z_optional (z_string []))
      <*> field p m "ipv4" (z_default (z_array (z_string []) None) [])
      <*> field p m "ipv6" (z_default (z_array (z_string []) None) [])
      <*> field p m "rx_bytes" (z_int [nk_nonnegative])
      <*> field p m "tx_bytes" (z_int [nk_nonnegative])).

Definition ProcessSchema : ZodType Process := fun p i =>
  z_object p i (fun m =>
    pr_pure mkProcess
      <*> field p m "pid" (z_int [nk_positive])
      <*> field p m "cmd" (z_string [])
      <*> field p m "cpu_pct" (z_number [nk_nonnegative])
      <*> field p m "mem_bytes" (z_int [nk_nonnegative])
      <*> field p m "usr" (z_string [])).

Definition PackageSchema : ZodType Package := fun p i =>
  z_object p i (fun m =>
    pr_pure mkPackage
      <*> field p m "name" (z_string [])
      <*> field p m "version" (z_string [])
      <*> field p m "status" (z_optional (z_string []))).

Definition UpdatesSchema : ZodType Updates := fun p i =>
  z_object p i (fun m =>
    pr_pure mkUpdates
      <*> field p m "security_updates_count" (z_int [nk_nonnegative])
      <*> field p m "regular_updates_count" (z_int [nk_nonnegative])
      <*> field p m "details" (z_default (z_array z_record_unknown None) [])).

Definition LogSchema : ZodType Log := fun p i =>
  z_object p i (fun m =>
    pr_pure mkLog
      <*> field p m "ts" (z_string [sk_regex is_datetime])
      <*> field p m "source" (z_string [])
      <*> field p m "level" (z_string [])
      <*> field p m "message" (z_string [])
      <*> field p m "raw" (z_default z_record_unknown (JObj []))).

Definition IngestPayloadSchema : ZodType IngestPayload := fun p i =>
  z_object p i (fun m =>
    pr_pure mkIngestPayload
      <*> field p m "server" ServerIdentitySchema
      <*> field p m "heartbeat" HeartbeatSchema
      <*> field p m "disks" (z_default (z_array DiskSchema None) [])
      <*> field p m "network_ifaces"
            (z_default (z_array NetworkInterfaceSchema None) [])
      <*> field p m "processes"
            (z_default (z_array ProcessSchema (Some 50)) [])   (* Cap at 50 *)
      <*> field p m "packages" (z_default (z_array PackageSchema None) [])
      <*> field p m "updates" (z_optional UpdatesSchema)
      <*> field p m "logs"
            (z_default (z_array LogSchema (Some 200)) [])).    (* Cap at 200 *)

Definition EnrollRequestSchema : ZodType EnrollRequest := fun p i =>
  z_object p i (fun m =>
    pr_pure mkEnrollRequest
      <*> field p m "org_enroll_secret" (z_string [sk_min 32])
      <*> field p m "host_facts" HostFactsSchema).

End Schemas.

(* ===================================================================== *)
(** ** The database *)
(* ===================================================================== *)

(** Server clocks are milliseconds since the epoch ([Date.now()]); a
    [toISOString()] value is kept as that number. *)
Definition Millis : Type := Z.
Bind Scope Z_scope with Millis.

Definition fits_int4 (v : Z) : bool := ((- 2147483648 <=? v) && (v <=? 2147483647))%Z.
Definition fits_int8 (v : Z) : bool :=
  ((- 9223372036854775808 <=? v) && (v <=? 9223372036854775807))%Z.
Definition fits_opt (f : Z -> bool) (v : option Z) : bool :=
  match v with Some z => f z | None => true end.

(** *** Rows *)

Record OrgRow : Type := mkOrgRow {
  org_id : string;
  org_name : string;
  enroll_secret_hash : string;
}.

(** [servers]: [id] is generated by the database, [agent_id] is unique,
    [(org_id, machine_id)] is unique, [cores int], [mem_bytes bigint]. *)
Record ServerRow : Type := mkServerRow {
  srv_id : nat;
  srv_org_id : string;
  srv_agent_id : string;
  srv_facts : HostFacts;
  srv_hmac_secret : string;
  srv_refresh_token : string;
  srv_first_seen : Millis;
  srv_last_seen : Millis;
}.

(** [api_nonces]: [(org_id, agent_id, nonce)] is unique. *)
Record NonceRow : Type := mkNonceRow {
  n_org_id : string;
  n_agent_id : string;
  n_nonce : string;
  n_ts : Millis;
}.

(** A [ts] sent to the database: a client string, or an ISO rendering of a
    server clock value. *)
Inductive TsArg : Type :=
| TsText (s : string)
| TsIso (ms : Millis).

(** A telemetry row: the three tagging columns and the table's own. *)
Record Row (T A : Type) : Type := mkRow {
  row_org_id : string;
  row_server_id : nat;
  row_ts : T;
  row_cols : A;
}.
Arguments mkRow {T A} _ _ _ _.
Arguments row_org_id {T A} _.
Arguments row_server_id {T A} _.
Arguments row_ts {T A} _.
Arguments row_cols {T A} _.

Record ProcessCols : Type := mkProcessCols {
  pc_pid : Z;
  pc_cmd : string;
  pc_cpu_pct : Q;
  pc_mem_bytes : Z;
  pc_usr : option string;
}.

Record AlertRow : Type := mkAlertRow {
  al_id : nat;
  al_org_id : string;
  al_server_id : nat;
  al_ts : Millis;
  al_type : string;
  al_severity : string;
  al_message : string;
  al_status : string;
}.

Record RollupValues : Type := mkRollupValues {
  cpu_avg : Q;
  cpu_p95 : Q;
  cpu_max : option Q;          (* 1h table only *)
  load1_avg : Q;
  load5_avg : Q;
  load15_avg : Q;
  mem_used_avg : Q;
  mem_free_avg : Q;
  swap_used_avg : Q;
  sample_count : nat;
}.

(** [heartbeats_rollup_*]: primary key [(server_id, bucket)]. *)
Record RollupRow : Type := mkRollupRow {
  ru_bucket : Millis;
  ru_org_id : string;
  ru_server_id : nat;
  ru_values : RollupValues;
}.

Record Store : Type := mkStore {
  tbl_orgs : list OrgRow;
  tbl_servers : list ServerRow;
  tbl_api_nonces : list NonceRow;
  tbl_heartbeats : list (Row Millis Heartbeat);
  tbl_disks : list (Row Millis Disk);
  tbl_network_ifaces : list (Row Millis NetworkInterface);
  tbl_processes : list (Row Millis ProcessCols);
  tbl_packages : list (Row Millis Package);
  tbl_updates : list (Row Millis Updates);
  tbl_logs : list (Row Millis Log);
  tbl_alerts : list AlertRow;
  tbl_rollup_1m : list RollupRow;
  tbl_rollup_1h : list RollupRow;
  next_id : nat;               (* source of generated ids *)
}.

Definition empty_store : Store :=
  mkStore [] [] [] [] [] [] [] [] [] [] [] [] [] 0.

Definition set_servers (v : list ServerRow) (s : Store) : Store :=
  mkStore (tbl_orgs s) v (tbl_api_nonces s) (tbl_heartbeats s) (tbl_disks s)
    (tbl_network_ifaces s) (tbl_processes s) (tbl_packages s) (tbl_updates s)
    (tbl_logs s) (tbl_alerts s) (tbl_rollup_1m s) (tbl_rollup_1h s) (next_id s).
Definition set_api_nonces (v : list NonceRow) (s : Store) : Store :=
  mkStore (tbl_orgs s) (tbl_servers s) v (tbl_heartbeats s) (tbl_disks s)
    (tbl_network_ifaces s) (tbl_processes s) (tbl_packages s) (tbl_updates s)
    (tbl_logs s) (tbl_alerts s) (tbl_rollup_1m s) (tbl_rollup_1h s) (next_id s).
Definition set_heartbeats (v : list (Row Millis Heartbeat)) (s : Store) : Store :=
  mkStore (tbl_orgs s) (tbl_servers s) (tbl_api_nonces s) v (tbl_disks s)
    (tbl_network_ifaces s) (tbl_processes s) (tbl_packages s) (tbl_updates s)
    (tbl_logs s) (tbl_alerts s) (tbl_rollup_1m s) (tbl_rollup_1h s) (next_id s).
Definition set_disks (v : list (Row Millis Disk)) (s : Store) : Store :=
  mkStore (tbl_orgs s) (tbl_servers s) (tbl_api_nonces s) (tbl_heartbeats s) v
    (tbl_network_ifaces s) (tbl_processes s) (tbl_packages s) (tbl_updates s)
    (tbl_logs s) (tbl_alerts s) (tbl_rollup_1m s) (tbl_rollup_1h s) (next_id s).
Definition set_network_ifaces (v : list (Row Millis NetworkInterface)) (s : Store)
  : Store :=
  mkStore (tbl_orgs s) (tbl_servers s) (tbl_api_nonces s) (tbl_heartbeats s)
    (tbl_disks s) v (tbl_processes s) (tbl_packages s) (tbl_updates s)
    (tbl_logs s) (tbl_alerts s) (tbl_rollup_1m s) (tbl_rollup_1h s) (next_id s).
Definition set_processes (v : list (Row Millis ProcessCols)) (s : Store) : Store :=
  mkStore (tbl_orgs s) (tbl_servers s) (tbl_api_nonces s) (tbl_heartbeats s)
    (tbl_disks s) (tbl_network_ifaces s) v (tbl_packages s) (tbl_updates s)
    (tbl_logs s) (tbl_alerts s) (tbl_rollup_1m s) (tbl_rollup_1h s) (next_id s).
Definition set_packages (v : list (Row Millis Package)) (s : Store) : Store :=
  mkStore (tbl_orgs s) (tbl_servers s) (tbl_api_nonces s) (tbl_heartbeats s)
    (tbl_disks s) (tbl_network_ifaces s) (tbl_processes s) v (tbl_updates s)
    (tbl_logs s) (tbl_alerts s) (tbl_rollup_1m s) (tbl_rollup_1h s) (next_id s).
Definition set_updates (v : list (Row Millis Updates)) (s : Store) : Store :=
  mkStore (tbl_orgs s) (tbl_servers s) (tbl_api_nonces s) (tbl_heartbeats s)
    (tbl_disks s) (tbl_network_ifaces s) (tbl_processes s) (tbl_packages s) v
    (tbl_logs s) (tbl_alerts s) (tbl_rollup_1m s) (tbl_rollup_1h s) (next_id s).
Definition set_logs (v : list (Row Millis Log)) (s : Store) : Store :=
  mkStore (tbl_orgs s) (tbl_servers s) (tbl_api_nonces s) (tbl_heartbeats s)
    (tbl_disks s) (tbl_network_ifaces s) (tbl_processes s) (tbl_packages s)
    (tbl_updates s) v (tbl_alerts s) (tbl_rollup_1m s) (tbl_rollup_1h s)
    (next_id s).
Definition set_alerts (v : list AlertRow) (s : Store) : Store :=
  mkStore (tbl_orgs s) (tbl_servers s) (tbl_api_nonces s) (tbl_heartbeats s)
    (tbl_disks s) (tbl_network_ifaces s) (tbl_processes s) (tbl_packages s)
    (tbl_updates s) (tbl_logs s) v (tbl_rollup_1m s) (tbl_rollup_1h s)
    (next_id s).
Definition set_rollup_1m (v : list RollupRow) (s : Store) : Store :=
  mkStore (tbl_orgs s) (tbl_servers s) (tbl_api_nonces s) (tbl_heartbeats s)
    (tbl_disks s) (tbl_network_ifaces s) (tbl_processes s) (tbl_packages s)
    (tbl_updates s) (tbl_logs s) (tbl_alerts s) v (tbl_rollup_1h s) (next_id s).
Definition set_rollup_1h (v : list RollupRow) (s : Store) : Store :=
  mkStore (tbl_orgs s) (tbl_servers s) (tbl_api_nonces s) (tbl_heartbeats s)
    (tbl_disks s) (tbl_network_ifaces s) (tbl_processes s) (tbl_packages s)
    (tbl_updates s) (tbl_logs s) (tbl_alerts s) (tbl_rollup_1m s) v (next_id s).
Definition bump_id (s : Store) : Store :=
  mkStore (tbl_orgs s) (tbl_servers s) (tbl_api_nonces s) (tbl_heartbeats s)
    (tbl_disks s) (tbl_network_ifaces s) (tbl_processes s) (tbl_packages s)
    (tbl_updates s) (tbl_logs s) (tbl_alerts s) (tbl_rollup_1m s)
    (tbl_rollup_1h s) (S (next_id s)).

(** The rows of one telemetry batch live in these seven tables. *)
Record Telemetry : Type := mkTelemetry {
  t_heartbeats : list (Row Millis Heartbeat);
  t_disks : list (Row Millis Disk);
  t_network_ifaces : list (Row Millis NetworkInterface);
  t_processes : list (Row Millis ProcessCols);
  t_packages : list (Row Millis Package);
  t_updates : list (Row Millis Updates);
  t_logs : list (Row Millis Log);
}.

Definition telemetry (s : Store) : Telemetry :=
  mkTelemetry (tbl_heartbeats s) (tbl_disks s) (tbl_network_ifaces s)
    (tbl_processes s) (tbl_packages s) (tbl_updates s) (tbl_logs s).

(** *** What PostgREST answers *)

Record PostgrestError : Type := mkPgError { pg_code : string }.

Record PostgrestResponse (A : Type) : Type := mkPgResponse {
  data : option A;
  error : option PostgrestError;
  count : option nat;
}.
Arguments mkPgResponse {A} _ _ _.
Arguments data {A} _.
Arguments error {A} _.
Arguments count {A} _.

Definition pg_rows {A} (d : A) : PostgrestResponse A := mkPgResponse (Some d) None None.
Definition pg_done {A} : PostgrestResponse A := mkPgResponse None None None.
Definition pg_fail {A} (c : string) : PostgrestResponse A :=
  mkPgResponse None (Some (mkPgError c)) None.

(** [.single()]: exactly one row, otherwise error [PGRST116] and no data. *)
Definition single {A} (rows : list A) : PostgrestResponse A :=
  match rows with
  | [r] => pg_rows r
  | _ => pg_fail "PGRST116"
  end.

(** *** Statements *)

Record NewServer : Type := mkNewServer {
  ns_org_id : string;
  ns_agent_id : string;
  ns_facts : HostFacts;
  ns_hmac_secret : string;
  ns_refresh_token : string;
  ns_first_seen : Millis;
  ns_last_seen : Millis;
}.

Record NewAlert : Type := mkNewAlert {
  na_org_id : string;
  na_server_id : nat;
  na_ts : Millis;
  na_type : string;
  na_severity : string;
  na_message : string;
  na_status : string;
}.

(** The two SQL texts built by the rollup builder. *)
Inductive SqlText : Type :=
| rollup1mQuery
| rollup1hQuery.

(** One constructor per query the functions send through supabase-js,
    indexed by the type of the [data] it resolves to. *)
Inductive dbE : Type -> Type :=
(* api_nonces *)
| SelectNonce (org agent nonce : string) : dbE (PostgrestResponse NonceRow)
| InsertNonce (org agent nonce : string) (ts : Millis) : dbE (PostgrestResponse unit)
| DeleteNoncesLt (cutoff : Millis) : dbE (PostgrestResponse unit)
(* orgs, servers *)
| SelectOrgBySecretHash (h : string) : dbE (PostgrestResponse OrgRow)
| SelectServerByAgentId (agent : string) : dbE (PostgrestResponse ServerRow)
| SelectServerByMachineId (org machine : string) : dbE (PostgrestResponse ServerRow)
| UpdateServerFacts (agent : string) (f : HostFacts) (last_seen : Millis)
  : dbE (PostgrestResponse unit)
| InsertServer (r : NewServer) : dbE (PostgrestResponse unit)
| SelectServersLastSeenLt (cutoff : Millis) : dbE (PostgrestResponse (list ServerRow))
| SelectServersLastSeenGte (cutoff : Millis) : dbE (PostgrestResponse (list ServerRow))
(* telemetry *)
| InsertHeartbeat (r : Row TsArg Heartbeat) : dbE (PostgrestResponse unit)
| InsertDisks (rs : list (Row TsArg Disk)) : dbE (PostgrestResponse unit)
| InsertNetworkIfaces (rs : list (Row TsArg NetworkInterface))
  : dbE (PostgrestResponse unit)
| InsertProcesses (rs : list (Row TsArg ProcessCols)) : dbE (PostgrestResponse unit)
| InsertPackages (rs : list (Row TsArg Package)) : dbE (PostgrestResponse unit)
| InsertUpdates (r : Row TsArg Updates) : dbE (PostgrestResponse unit)
| InsertLogs (rs : list (Row TsArg Log)) : dbE (PostgrestResponse unit)
(* alerts *)
| SelectAlert (server_id : nat) (type status : string) : dbE (PostgrestResponse AlertRow)
| InsertAlert (a : NewAlert) : dbE (PostgrestResponse unit)
| UpdateAlertStatus (id : nat) (status : string) : dbE (PostgrestResponse unit)
(* rpc *)
| RpcExecSql (fn : string) (sql : SqlText) (params : list Millis)
  : dbE (PostgrestResponse unit).

Section Postgres.
Context {PF : Platform}.

Definition resolve_ts (t : TsArg) : option Millis :=
  match t with
  | TsText s => pg_timestamptz s
  | TsIso ms => Some ms
  end.

(** A multi-row [INSERT] is one statement: every row is stored or none. *)
Fixpoint stored_rows {A} (fits : A -> bool) (rs : list (Row TsArg A))
  : option (list (Row Millis A)) :=
  match rs with
  | [] => Some []
  | r :: rs' =>
      match resolve_ts (row_ts r), stored_rows fits rs' with
      | Some ms, Some out =>
          if fits (row_cols r)
          then Some (mkRow (row_org_id r) (row_server_id r) ms (row_cols r) :: out)
          else None
      | _, _ => None
      end
  end.

Definition insert_rows {A} (fits : A -> bool) (rs : list (Row TsArg A))
           (tbl : list (Row Millis A)) (put : list (Row Millis A) -> Store -> Store)
           (s : Store) : PostgrestResponse unit * Store :=
  match stored_rows fits rs with
  | Some out => (pg_done, put (tbl ++ out) s)
  | None => (pg_fail "22003", s)
  end.

(** Column types of the DDL. *)
Definition fits_facts (f : HostFacts) : bool :=
  fits_int4 (cpu_cores (cpu f)) && fits_int8 (mem_bytes f).
Definition fits_heartbeat (h : Heartbeat) : bool :=
  fits_int8 (uptime_s h) && fits_int8 (mem_used (mem h))
  && fits_int8 (mem_free (mem h)) && fits_int8 (swap_used (mem h)).
Definition fits_disk (d : Disk) : bool :=
  fits_int8 (size_bytes d) && fits_int8 (used_bytes d)
  && fits_opt fits_int8 (inodes_used d).
Definition fits_iface (n : NetworkInterface) : bool :=
  fits_int8 (rx_bytes n) && fits_int8 (tx_bytes n).
Definition fits_process (p : ProcessCols) : bool :=
  fits_int4 (pc_pid p) && fits_int8 (pc_mem_bytes p).
Definition fits_updates (u : Updates) : bool :=
  fits_int4 (security_updates_count u) && fits_int4 (regular_updates_count u).

Definition nonce_matches (org agent nonce : string) (r : NonceRow) : bool :=
  String.eqb (n_org_id r) org && String.eqb (n_agent_id r) agent
  && String.eqb (n_nonce r) nonce.

Definition alert_matches (server_id : nat) (type status : string) (a : AlertRow)
  : bool :=
  Nat.eqb (al_server_id a) server_id && String.eqb (al_type a) type
  && String.eqb (al_status a) status.

(** [update servers set hostname = .., .., last_seen = .. where agent_id = ..]:
    every fact column but [machine_id]. *)
Definition with_facts (f : HostFacts) (last_seen : Millis) (r : ServerRow)
  : ServerRow :=
  mkServerRow (srv_id r) (srv_org_id r) (srv_agent_id r)
    (mkHostFacts (hostname f) (machine_id (srv_facts r)) (os f) (kernel f)
                 (cpu f) (mem_bytes f) (agent_version f) (tags f))
    (srv_hmac_secret r) (srv_refresh_token r) (srv_first_seen r) last_seen.

Definition with_status (status : string) (a : AlertRow) : AlertRow :=
  mkAlertRow (al_id a) (al_org_id a) (al_server_id a) (al_ts a) (al_type a)
    (al_severity a) (al_message a) status.

Definition status_allowed (st : string) : bool :=
  String.eqb st "open" || String.eqb st "cleared".
Definition severity_allowed (sv : string) : bool :=
  String.eqb sv "info" || String.eqb sv "warning" || String.eqb sv "critical".

(** *** The rollup statements

    [INSERT INTO heartbeats_rollup_W (...) SELECT date_trunc(W, ts), org_id,
    server_id, AVG(..), .. FROM heartbeats WHERE ts >= $1 AND ts < $2
    GROUP BY date_trunc(W, ts), org_id, server_id
    ON CONFLICT (server_id, bucket) DO UPDATE SET <every aggregate>]. *)

Definition GroupKey : Type := (Millis * string * nat)%type.

Definition group_key (width : Z) (r : Row Millis Heartbeat) : GroupKey :=
  ((row_ts r / width * width)%Z, row_org_id r, row_server_id r).

Definition group_key_eqb (a b : GroupKey) : bool :=
  let '(ba, oa, sa) := a in
  let '(bb, ob, sb) := b in
  Z.eqb ba bb && String.eqb oa ob && Nat.eqb sa sb.

Fixpoint distinct_keys (seen : list GroupKey) (ks : list GroupKey) : list GroupKey :=
  match ks with
  | [] => []
  | k :: ks' =>
      if existsb (group_key_eqb k) seen then distinct_keys seen ks'
      else k :: distinct_keys (k :: seen) ks'
  end.

Definition aggregate (with_max : bool) (g : list (Row Millis Heartbeat))
  : RollupValues :=
  let col (f : Heartbeat -> Q) := map (fun r => f (row_cols r)) g in
  let icol (f : Heartbeat -> Z) := map (fun r => inject_Z (f (row_cols r))) g in
  mkRollupValues
    (pg_avg (col cpu_pct))
    (pg_percentile_cont (95 # 100) (col cpu_pct))
    (if with_max then Some (pg_max (col cpu_pct)) else None)
    (pg_avg (col (fun h => m1 (load h))))
    (pg_avg (col (fun h => m5 (load h))))
    (pg_avg (col (fun h => m15 (load h))))
    (pg_avg (icol (fun h => mem_used (mem h))))
    (pg_avg (icol (fun h => mem_free (mem h))))
    (pg_avg (icol (fun h => swap_used (mem h))))
    (List.length g).

Definition rollup_select (width : Z) (with_max : bool) (lo hi : Millis)
           (hbs : list (Row Millis Heartbeat)) : list RollupRow :=
  let window := filter (fun r => (lo <=? row_ts r)%Z && (row_ts r <? hi)%Z) hbs in
  map (fun k : GroupKey =>
         let '(b, o, sv) := k in
         mkRollupRow b o sv
           (aggregate with_max
              (filter (fun r => group_key_eqb (group_key width r) k) window)))
      (distinct_keys [] (map (group_key width) window)).

Definition same_bucket (a b : RollupRow) : bool :=
  Nat.eqb (ru_server_id a) (ru_server_id b) && Z.eqb (ru_bucket a) (ru_bucket b).

(** [ON CONFLICT (server_id, bucket) DO UPDATE SET ...]: the aggregates of
    the existing row are overwritten, its other columns stay. *)
Definition overwrite (new old : RollupRow) : RollupRow :=
  mkRollupRow (ru_bucket old) (ru_org_id old) (ru_server_id old) (ru_values new).

Definition upsert (r : RollupRow) (tbl : list RollupRow) : list RollupRow :=
  if existsb (same_bucket r) tbl
  then map (fun x => if same_bucket r x then overwrite r x else x) tbl
  else tbl ++ [r].

Fixpoint conflict_free (rs : list RollupRow) : bool :=
  match rs with
  | [] => true
  | r :: rs' => negb (existsb (same_bucket r) rs') && conflict_free rs'
  end.

(** Postgres refuses a statement whose rows would hit one conflict target
    twice; otherwise the rows are upserted one after the other. *)
Definition upsert_all (rs : list RollupRow) (tbl : list RollupRow)
  : option (list RollupRow) :=
  if conflict_free rs then Some (fold_left (fun t r => upsert r t) rs tbl)
  else None.

Definition run_sql (sql : SqlText) (params : list Millis) (s : Store)
  : PostgrestResponse unit * Store :=
  match params with
  | [lo; hi] =>
      match sql with
      | rollup1mQuery =>
          match upsert_all (rollup_select 60000 false lo hi (tbl_heartbeats s))
                           (tbl_rollup_1m s) with
          | Some t => (pg_done, set_rollup_1m t s)
          | None => (pg_fail "21000", s)
          end
      | rollup1hQuery =>
          match upsert_all (rollup_select 3600000 true lo hi (tbl_heartbeats s))
                           (tbl_rollup_1h s) with
          | Some t => (pg_done, set_rollup_1h t s)
          | None => (pg_fail "21000", s)
          end
      end
  | _ => (pg_fail "08P01", s)
  end.

(** *** What each statement does to the store *)

Definition exec {X : Type} (e : dbE X) (s : Store) : X * Store :=
  match e in dbE X return X * Store with
  | SelectNonce org agent nonce =>
      (single (filter (nonce_matches org agent nonce) (tbl_api_nonces s)), s)
  | InsertNonce org agent nonce ts =>
      if existsb (nonce_matches org agent nonce) (tbl_api_nonces s)
      then (pg_fail "23505", s)
      else (pg_done,
            set_api_nonces (tbl_api_nonces s ++ [mkNonceRow org agent nonce ts]) s)
  | DeleteNoncesLt cutoff =>
      (pg_done,
       set_api_nonces
         (filter (fun r => negb (n_ts r <? cutoff)%Z) (tbl_api_nonces s)) s)
  | SelectOrgBySecretHash h =>
      (single (filter (fun o => String.eqb (enroll_secret_hash o) h) (tbl_orgs s)), s)
  | SelectServerByAgentId agent =>
      (single (filter (fun r => String.eqb (srv_agent_id r) agent) (tbl_servers s)), s)
  | SelectServerByMachineId org machine =>
      (single (filter (fun r => String.eqb (srv_org_id r) org
                                && String.eqb (machine_id (srv_facts r)) machine)
                      (tbl_servers s)), s)
  | UpdateServerFacts agent f last_seen =>
      if fits_facts f
      then (pg_done,
            set_servers
              (map (fun r => if String.eqb (srv_agent_id r) agent
                             then with_facts f last_seen r else r)
                   (tbl_servers s)) s)
      else (pg_fail "22003", s)
  | InsertServer r =>
      if negb (fits_facts (ns_facts r)) then (pg_fail "22003", s)
      else if existsb (fun x => String.eqb (srv_agent_id x) (ns_agent_id r)
                                || (String.eqb (srv_org_id x) (ns_org_id r)
                                    && String.eqb (machine_id (srv_facts x))
                                                  (machine_id (ns_facts r))))
                      (tbl_servers s)
      then (pg_fail "23505", s)
      else if negb (existsb (fun o => String.eqb (org_id o) (ns_org_id r))
                            (tbl_orgs s))
      then (pg_fail "23503", s)
      else (pg_done,
            bump_id
              (set_servers
                 (tbl_servers s ++
                  [mkServerRow (next_id s) (ns_org_id r) (ns_agent_id r)
                     (ns_facts r) (ns_hmac_secret r) (ns_refresh_token r)
                     (ns_first_seen r) (ns_last_seen r)]) s))
  | SelectServersLastSeenLt cutoff =>
      (pg_rows (filter (fun r => (srv_last_seen r <? cutoff)%Z) (tbl_servers s)), s)
  | SelectServersLastSeenGte cutoff =>
      (pg_rows (filter (fun r => (cutoff <=? srv_last_seen r)%Z) (tbl_servers s)), s)
  | InsertHeartbeat r =>
      insert_rows fits_heartbeat [r] (tbl_heartbeats s) set_heartbeats s
  | InsertDisks rs => insert_rows fits_disk rs (tbl_disks s) set_disks s
  | InsertNetworkIfaces rs =>
      insert_rows fits_iface rs (tbl_network_ifaces s) set_network_ifaces s
  | InsertProcesses rs =>
      insert_rows fits_process rs (tbl_processes s) set_processes s
  | InsertPackages rs =>
      insert_rows (fun _ => true) rs (tbl_packages s) set_packages s
  | InsertUpdates r =>
      insert_rows fits_updates [r] (tbl_updates s) set_updates s
  | InsertLogs rs => insert_rows (fun _ => true) rs (tbl_logs s) set_logs s
  | SelectAlert server_id type status =>
      (single (filter (alert_matches server_id type status) (tbl_alerts s)), s)
  | InsertAlert a =>
      if status_allowed (na_status a) && severity_allowed (na_severity a)
      then (pg_done,
            bump_id
              (set_alerts
                 (tbl_alerts s ++
                  [mkAlertRow (next_id s) (na_org_id a) (na_server_id a) (na_ts a)
                     (na_type a) (na_severity a) (na_message a) (na_status a)]) s))
      else (pg_fail "23514", s)
  | UpdateAlertStatus id status =>
      if status_allowed status
      then (pg_done,
            set_alerts
              (map (fun a => if Nat.eqb (al_id a) id then with_status status a
                             else a) (tbl_alerts s)) s)
      else (pg_fail "23514", s)
  | RpcExecSql fn sql params =>
      if String.eqb fn "exec_sql" then run_sql sql params s
      else (pg_fail "PGRST202", s)
  end.

End Postgres.

(* ===================================================================== *)
(** ** Handlers as programs over statements *)
(* ===================================================================== *)

(** A handler is a tree of awaited queries: what it sends, and how it goes
    on with each answer. *)
Inductive prog (A : Type) : Type :=
| Ret (a : A)
| Vis {X : Type} (e : dbE X) (k : X -> prog A).
Arguments Ret {A} a.
Arguments Vis {A X} e k.

Fixpoint bind {A B} (m : prog A) (f : A -> prog B) : prog B :=
  match m with
  | Ret a => f a
  | Vis e k => Vis e (fun x => bind (k x) f)
  end.

Definition query {X} (e : dbE X) : prog X := Vis e Ret.

Notation "x <- m ;; k" := (bind m (fun x => k))
  (at level 61, m at next level, right associativity).
Notation "m ;;; k" := (bind m (fun _ => k))
  (at level 61, right associativity).

(** Sequential execution: one request at a time. *)
Fixpoint run {PF : Platform} {A} (p : prog A) (s : Store) : A * Store :=
  match p with
  | Ret a => (a, s)
  | Vis e k => let (x, s') := exec e s in run (k x) s'
  end.

(* ===================================================================== *)
(** ** HTTP, environment, [_shared/response.ts] *)
(* ===================================================================== *)

Record Request : Type := mkRequest {
  method : string;
  authorization : option string;        (* req.headers.get(..): null or a string *)
  x_timestamp : option string;
  x_nonce : option string;
  x_signature : option string;
  content_encoding : option string;
  body : string;
}.

Inductive ResponseBody : Type :=
| BNull
| BError (msg : string)
| BValidation (issues : list ZodIssue)
| BIngest (received_at : Millis)
| BEnroll (agent_id agent_jwt refresh_token hmac_secret org : string)
| BOfflineDetector (timestamp : Millis)
                   (offline_servers alerts_created alerts_cleared : nat)
| BNonceCleanup (timestamp : Millis) (nonces_deleted : nat)
| BRollup (timestamp : Millis) (msg : string) (bucket_1m bucket_1h : Millis).

Record Response : Type := mkResponse { status : nat; payload : ResponseBody }.

Definition jsonResponse (d : ResponseBody) (st : nat) : Response := mkResponse st d.
Definition errorResponse (msg : string) (st : nat) : Response :=
  jsonResponse (BError msg) st.
(** [parsed.error.format()] rearranges the issues by path and drops none. *)
Definition validationErrorResponse (errors : list ZodIssue) : Response :=
  jsonResponse (BValidation errors) 422.
Definition handleCORS : Response := mkResponse 204 BNull.

(** [Deno.env] *)
Record Env : Type := mkEnv {
  CRON_SECRET : option string;
  JWT_SECRET : option string;
  SUPABASE_URL : option string;
  SUPABASE_SERVICE_ROLE_KEY : option string;
}.

(** A string-or-null in a condition. *)
Definition truthy (o : option string) : bool :=
  match o with
  | Some s => negb (String.eqb s "")
  | None => false
  end.

Definition or_empty (o : option string) : string :=
  match o with Some s => s | None => "" end.

(** How an [async] helper completes. *)
Inductive completion (A : Type) : Type :=
| Normal (a : A)
| Throw (message : string).
Arguments Normal {A} a.
Arguments Throw {A} message.

(** The [catch] of every handler. *)
Definition internal_error (message : string) : Response :=
  errorResponse ("Internal server error: " ++ message)%string 500.

Notation "x <-! m ;; k" :=
  (bind m (fun c => match c with
                    | Normal x => k
                    | Throw message => Ret (internal_error message)
                    end))
  (at level 61, m at next level, right associativity).

(* ===================================================================== *)
(** ** [_shared/db.ts] *)
(* ===================================================================== *)

Definition createServiceClient (env : Env) : completion unit :=
  if negb (truthy (SUPABASE_URL env)) || negb (truthy (SUPABASE_SERVICE_ROLE_KEY env))
  then Throw "Missing SUPABASE_URL or SUPABASE_SERVICE_ROLE_KEY"
  else Normal tt.

Definition is_PGRST116 (e : PostgrestError) : bool := String.eqb (pg_code e) "PGRST116".

Definition isSome {A} (o : option A) : bool :=
  match o with Some _ => true | None => false end.

Definition isNonceUsed (orgId agentId nonce : string) : prog (completion bool) :=
  r <- query (SelectNonce orgId agentId nonce) ;;
  match error r with
  | Some e => if is_PGRST116 e then Ret (Normal (isSome (data r)))
              else Ret (Throw (pg_code e))
  | None => Ret (Normal (isSome (data r)))
  end.

Definition storeNonce (now : Millis) (orgId agentId nonce : string)
  : prog (completion unit) :=
  r <- query (InsertNonce orgId agentId nonce now) ;;
  match error r with
  | Some e => Ret (Throw (pg_code e))
  | None => Ret (Normal tt)
  end.

Definition cleanupOldNonces (now : Millis) (minutesOld : Z) : prog (completion nat) :=
  let cutoff := (now - minutesOld * 60 * 1000)%Z in
  r <- query (DeleteNoncesLt cutoff) ;;
  match error r with
  | Some e => Ret (Throw (pg_code e))
  | None => Ret (Normal (match count r with Some n => n | None => 0 end))
  end.

Definition getOrgBySecretHash (secretHash : string)
  : prog (completion (option OrgRow)) :=
  r <- query (SelectOrgBySecretHash secretHash) ;;
  match error r with
  | Some e => if is_PGRST116 e then Ret (Normal None) else Ret (Throw (pg_code e))
  | None => Ret (Normal (data r))
  end.

Definition getServerByAgentId (agentId : string)
  : prog (completion (option ServerRow)) :=
  r <- query (SelectServerByAgentId agentId) ;;
  match error r with
  | Some e => if is_PGRST116 e then Ret (Normal None) else Ret (Throw (pg_code e))
  | None => Ret (Normal (data r))
  end.

(* ===================================================================== *)
(** ** [_shared/auth.ts] *)
(* ===================================================================== *)

Definition JWT_ISSUER : string := "godseye".
Definition JWT_AUDIENCE : string := "agent".
Definition JWT_TTL_MINUTES : Z := 60.

Definition newline : string := String (ascii_of_nat 10) EmptyString.

Section Auth.
Context {PF : Platform}.

Definition computeHMAC (secret message : string) : string :=
  hmac_sha256_hex secret message.

Definition verifyHMAC (hmacSecret timestamp nonce bodyHash providedSignature : string)
  : bool :=
  let canonicalMessage :=
    (timestamp ++ newline ++ nonce ++ newline ++ bodyHash)%string in
  let expectedSignature := computeHMAC hmacSecret canonicalMessage in
  String.eqb expectedSignature providedSignature.

Definition hashBody (b : string) : string := sha256_hex b.
Definition hashSecret (secret : string) : string := sha256_hex secret.

(** [getNumericDate(sec)]: [Math.round(Date.now() / 1000 + sec)]. *)
Definition getNumericDate (now : Millis) (sec : Z) : Z :=
  ((now + 500) / 1000 + sec)%Z.

Definition createAgentJWT (env : Env) (now : Millis) (agentId orgId : string)
  : completion string :=
  if negb (truthy (JWT_SECRET env))
  then Throw "JWT_SECRET environment variable not set"
  else Normal (jwt_create (or_empty (JWT_SECRET env))
                 (mkJwtPayload agentId orgId JWT_ISSUER JWT_AUDIENCE
                    (Some (getNumericDate now (JWT_TTL_MINUTES * 60)))
                    (Some (getNumericDate now 0)))).

(** [payload.exp && payload.exp < Date.now() / 1000] *)
Definition jwt_expired (now : Millis) (p : JwtPayload) : bool :=
  match exp p with
  | Some e => negb (e =? 0)%Z && (e * 1000 <? now)%Z
  | None => false
  end.

Definition verifyAgentJWT (env : Env) (now : Millis) (token : string)
  : completion (string * string) :=
  if negb (truthy (JWT_SECRET env))
  then Throw "JWT_SECRET environment variable not set"
  else
    match jwt_decode (or_empty (JWT_SECRET env)) token with
    | None => Throw "JWT verification failed: Invalid JWT signature"
    | Some p =>
        if jwt_expired now p then Throw "JWT verification failed: JWT expired"
        else if negb (String.eqb (iss p) JWT_ISSUER)
                || negb (String.eqb (aud p) JWT_AUDIENCE)
        then Throw "JWT verification failed: Invalid JWT issuer or audience"
        else Normal (sub p, jwt_org_id p)
    end.

(** [Math.abs(now - ts) / (1000 * 60) <= 5]; a [NaN] compares false. *)
Definition validateTimestamp (now : Millis) (timestamp : string) : bool :=
  match Date_parse timestamp with
  | Some ts =>
      let diffMinutes := (inject_Z (Z.abs (now - ts)) / inject_Z (1000 * 60))%Q in
      Qle_bool diffMinutes 5
  | None => false
  end.

End Auth.

(** [authHeader.replace(/^Bearer\s+/i, "")].  A header value is a byte
    string: of its 256 characters [\s] matches tab, line feed, vertical
    tab, form feed, carriage return (9 to 13), space (32) and the no-break
    space (160); [/i] folds the letters A to Z only. *)
Definition is_space (c : ascii) : bool :=
  let n := nat_of_ascii c in
  (Nat.leb 9 n && Nat.leb n 13) || Nat.eqb n 32 || Nat.eqb n 160.

Definition lower (c : ascii) : ascii :=
  let n := nat_of_ascii c in
  if Nat.leb 65 n && Nat.leb n 90 then ascii_of_nat (n + 32) else c.

Fixpoint lower_string (s : string) : string :=
  match s with
  | EmptyString => EmptyString
  | String c s' => String (lower c) (lower_string s')
  end.

Fixpoint drop_spaces (s : string) : string :=
  match s with
  | String c s' => if is_space c then drop_spaces s' else s
  | EmptyString => s
  end.

Definition strip_bearer (authHeader : string) : string :=
  let rest := substring 6 (String.length authHeader - 6) authHeader in
  if String.eqb (lower_string (substring 0 6 authHeader)) "bearer"
     && match rest with String c _ => is_space c | EmptyString => false end
  then drop_spaces rest
  else authHeader.

(* ===================================================================== *)
(** ** [ingest/index.ts]: POST /ingest *)
(* ===================================================================== *)

(** What the checks hand over to the writes: the verified ids, the server
    row that was read, and the body text. *)
Record Verified : Type := mkVerified {
  v_orgId : string;
  v_agentId : string;
  v_server : ServerRow;
  v_bodyText : string;
}.

Notation "x <-? m ;; k" :=
  (bind m (fun c => match c with
                    | Normal x => k
                    | Throw message => Ret (inl (internal_error message))
                    end))
  (at level 61, m at next level, right associativity).

Section Ingest.
Context {PF : Platform}.

(** The handler from its first line up to and including [storeNonce]:
    either the response it returns early, or what it goes on with. *)
Definition ingest_verify (env : Env) (now : Millis) (req : Request)
  : prog (Response + Verified) :=
  if String.eqb (method req) "OPTIONS" then Ret (inl handleCORS)
  else if negb (String.eqb (method req) "POST")
  then Ret (inl (errorResponse "Method not allowed" 405))
  else
    (* Extract headers *)
    if negb (truthy (authorization req)) || negb (truthy (x_timestamp req))
       || negb (truthy (x_nonce req)) || negb (truthy (x_signature req))
    then Ret (inl (errorResponse "Missing required headers" 400))
    else
      let authHeader := or_empty (authorization req) in
      let timestamp := or_empty (x_timestamp req) in
      let nonce := or_empty (x_nonce req) in
      let signature := or_empty (x_signature req) in
      (* Validate timestamp (+-5 minutes) *)
      if negb (validateTimestamp now timestamp)
      then Ret (inl (errorResponse "Invalid or expired timestamp" 401))
      else
        (* Verify JWT *)
        let token := strip_bearer authHeader in
        match verifyAgentJWT env now token with
        | Throw message =>
            Ret (inl (errorResponse ("JWT verification failed: " ++ message)%string 401))
        | Normal (agentId, orgId) =>
            (* Get server details (to retrieve HMAC secret) *)
            match createServiceClient env with
            | Throw message => Ret (inl (internal_error message))
            | Normal _ =>
                srv <-? getServerByAgentId agentId ;;
                match srv with
                | None => Ret (inl (errorResponse "Server not found" 403))
                | Some server =>
                    if negb (String.eqb (srv_org_id server) orgId)
                    then Ret (inl (errorResponse "Organization mismatch" 403))
                    else
                      (* Check nonce (replay protection) *)
                      used <-? isNonceUsed orgId agentId nonce ;;
                      if (used : bool)
                      then Ret (inl (errorResponse
                                       "Nonce already used (replay detected)" 409))
                      else
                        (* Read and decompress body *)
                        let decoded :=
                          match content_encoding req with
                          | Some enc => if String.eqb enc "gzip"
                                        then gunzip (body req) else Some (body req)
                          | None => Some (body req)
                          end in
                        match decoded with
                        | None => Ret (inl (internal_error "gzip"))
                        | Some bodyText =>
                            (* Verify HMAC signature *)
                            let bodyHash := hashBody bodyText in
                            if negb (verifyHMAC (srv_hmac_secret server) timestamp
                                                nonce bodyHash signature)
                            then Ret (inl (errorResponse "Invalid HMAC signature" 403))
                            else
                              (* Store nonce to prevent replay *)
                              _ <-? storeNonce now orgId agentId nonce ;;
                              Ret (inr (mkVerified orgId agentId server bodyText))
                        end
                end
            end
        end.

Definition tag {A} (orgId : string) (server : ServerRow) (ts : TsArg) (cols : A)
  : Row TsArg A :=
  mkRow orgId (srv_id server) ts cols.

(** [await client.from(t).insert(rows)] guarded by [rows.length > 0]; the
    answer is not looked at. *)
Definition insert_if_any {A} (rows : list A) (stmt : dbE (PostgrestResponse unit))
  : prog unit :=
  match rows with
  | [] => Ret tt
  | _ :: _ => query stmt ;;; Ret tt
  end.

(** The eight writes ("transaction-like operations"), each awaited in turn
    and none of their answers inspected. *)
Definition ingest_commit (now : Millis) (orgId agentId : string)
           (serverRow : ServerRow) (d : IngestPayload) : prog Response :=
  let tag {A} := @tag A orgId serverRow in
  (* 1. Upsert server identity (update last_seen and any changed facts) *)
  query (UpdateServerFacts agentId (si_facts (server d)) now) ;;;
  (* 2. Insert heartbeat *)
  query (InsertHeartbeat
           (tag (TsText (hb_ts (heartbeat d))) (heartbeat d))) ;;;
  (* 3. Insert disks (if any) *)
  insert_if_any (disks d)
    (InsertDisks (map (tag (TsIso now)) (disks d))) ;;;
  (* 4. Insert network interfaces (if any) *)
  insert_if_any (network_ifaces d)
    (InsertNetworkIfaces (map (tag (TsIso now)) (network_ifaces d))) ;;;
  (* 5. Insert processes (if any); [usr: proc.user] reads a key the schema
        does not have *)
  insert_if_any (processes d)
    (InsertProcesses
       (map (fun proc => tag (TsIso now)
                           (mkProcessCols (pid proc) (cmd proc) (proc_cpu_pct proc)
                                          (proc_mem_bytes proc) None))
            (processes d))) ;;;
  (* 6. Insert packages (if any) *)
  insert_if_any (packages d)
    (InsertPackages (map (tag (TsIso now)) (packages d))) ;;;
  (* 7. Insert updates summary (if provided) *)
  match updates d with
  | Some u => query (InsertUpdates (tag (TsIso now) u)) ;;; Ret tt
  | None => Ret tt
  end ;;;
  (* 8. Insert logs (if any) *)
  insert_if_any (logs d)
    (InsertLogs (map (fun l => tag (TsText (log_ts l)) l) (logs d))) ;;;
  Ret (jsonResponse (BIngest now) 200).

(** From [JSON.parse] to the response. *)
Definition ingest_process (now : Millis) (v : Verified) : prog Response :=
  match JSON_parse (v_bodyText v) with
  | None => Ret (internal_error "SyntaxError")
  | Some j =>
      match safeParse IngestPayloadSchema j with
      | SafeParseError issues => Ret (validationErrorResponse issues)
      | SafeParseSuccess d =>
          ingest_commit now (v_orgId v) (v_agentId v) (v_server v) d
      end
  end.

Definition ingest (env : Env) (now : Millis) (req : Request) : prog Response :=
  r <- ingest_verify env now req ;;
  match r with
  | inl response => Ret response
  | inr v => ingest_process now v
  end.

End Ingest.

(* ===================================================================== *)
(** ** [enroll/index.ts]: POST /enroll *)
(* ===================================================================== *)

(** What [crypto.randomUUID()], [generateSecret(32)] and
    [generateSecret(64)] return in one invocation. *)
Record Entropy : Type := mkEntropy {
  randomUUID : string;
  secret32 : string;
  secret64 : string;
}.

Section Enroll.
Context {PF : Platform}.

Definition enroll (env : Env) (now : Millis) (rnd : Entropy) (req : Request)
  : prog Response :=
  if String.eqb (method req) "OPTIONS" then Ret handleCORS
  else if negb (String.eqb (method req) "POST")
  then Ret (errorResponse "Method not allowed" 405)
  else
    (* Parse and validate request body *)
    match JSON_parse (body req) with
    | None => Ret (internal_error "SyntaxError")
    | Some j =>
        match safeParse EnrollRequestSchema j with
        | SafeParseError issues => Ret (validationErrorResponse issues)
        | SafeParseSuccess parsed =>
            let facts := host_facts parsed in
            (* Hash the provided secret to look up org *)
            let secretHash := hashSecret (org_enroll_secret parsed) in
            match createServiceClient env with
            | Throw message => Ret (internal_error message)
            | Normal _ =>
                (* Find org by secret hash *)
                o <-! getOrgBySecretHash secretHash ;;
                match o with
                | None => Ret (errorResponse "Invalid enrollment secret" 403)
                | Some org =>
                    (* Check if server already exists by machine_id
                       (idempotent enrollment) *)
                    existing <- query (SelectServerByMachineId (org_id org)
                                                               (machine_id facts)) ;;
                    creds <-
                      match data existing with
                      | Some existingServer =>
                          (* Re-enrollment: return existing credentials *)
                          query (UpdateServerFacts (srv_agent_id existingServer)
                                                   facts now) ;;;
                          Ret (srv_agent_id existingServer,
                               srv_hmac_secret existingServer,
                               srv_refresh_token existingServer)
                      | None =>
                          (* New enrollment: create server *)
                          query (InsertServer
                                   (mkNewServer (org_id org) (randomUUID rnd) facts
                                      (secret32 rnd) (secret64 rnd) now now)) ;;;
                          Ret (randomUUID rnd, secret32 rnd, secret64 rnd)
                      end ;;
                    let '(agentId, hmacSecret, refreshToken) := creds in
                    (* Generate JWT *)
                    match createAgentJWT env now agentId (org_id org) with
                    | Throw message => Ret (internal_error message)
                    | Normal agentJwt =>
                        Ret (jsonResponse
                               (BEnroll agentId agentJwt refreshToken hmacSecret
                                        (org_id org)) 200)
                    end
                end
            end
        end
    end.

End Enroll.

(* ===================================================================== *)
(** ** Scheduled functions *)
(* ===================================================================== *)

(** [cronSecret && authHeader !== `Bearer ${cronSecret}`] *)
Definition cron_rejected (env : Env) (req : Request) : bool :=
  truthy (CRON_SECRET env)
  && negb match authorization req with
          | Some h => String.eqb h ("Bearer " ++ or_empty (CRON_SECRET env))%string
          | None => false
          end.

Definition OFFLINE_THRESHOLD_MINUTES : Z := 10.

Definition rows_or_empty {A} (r : PostgrestResponse (list A)) : list A :=
  match data r with Some l => l | None => [] end.

Section Scheduled.
Context {PF : Platform}.

(** *** [offline-detector/index.ts] *)

(** Create alerts for offline servers (if not already open). *)
Fixpoint open_alerts (now : Millis) (offlineServers : list ServerRow)
         (alertsCreated : nat) : prog nat :=
  match offlineServers with
  | [] => Ret alertsCreated
  | srv :: rest =>
      existingAlert <- query (SelectAlert (srv_id srv) "offline" "open") ;;
      match data existingAlert with
      | None =>
          query (InsertAlert
                   (mkNewAlert (srv_org_id srv) (srv_id srv) now "offline" "critical"
                      ("Server " ++ hostname (srv_facts srv)
                       ++ " is offline (last seen: "
                       ++ pg_show_timestamptz (srv_last_seen srv) ++ ")")%string
                      "open")) ;;;
          open_alerts now rest (S alertsCreated)
      | Some _ => open_alerts now rest alertsCreated
      end
  end.

(** Clear offline alerts for servers that are back online. *)
Fixpoint clear_alerts (onlineServers : list ServerRow) (alertsCleared : nat)
  : prog nat :=
  match onlineServers with
  | [] => Ret alertsCleared
  | srv :: rest =>
      openAlert <- query (SelectAlert (srv_id srv) "offline" "open") ;;
      match data openAlert with
      | Some a =>
          query (UpdateAlertStatus (al_id a) "cleared") ;;;
          clear_alerts rest (S alertsCleared)
      | None => clear_alerts rest alertsCleared
      end
  end.

Definition offline_detector (env : Env) (now : Millis) (req : Request)
  : prog Response :=
  if cron_rejected env req then Ret (errorResponse "Unauthorized" 401)
  else
    match createServiceClient env with
    | Throw message => Ret (internal_error message)
    | Normal _ =>
        let cutoffTime := (now - OFFLINE_THRESHOLD_MINUTES * 60 * 1000)%Z in
        (* Find servers that are offline (last_seen > 10 minutes ago) *)
        offline <- query (SelectServersLastSeenLt cutoffTime) ;;
        match error offline with
        | Some fetchError => Ret (internal_error (pg_code fetchError))
        | None =>
            let offlineServers := rows_or_empty offline in
            alertsCreated <- open_alerts now offlineServers 0 ;;
            (* Find servers that are back online (last_seen < 10 minutes ago) *)
            online <- query (SelectServersLastSeenGte cutoffTime) ;;
            match error online with
            | Some onlineError => Ret (internal_error (pg_code onlineError))
            | None =>
                alertsCleared <- clear_alerts (rows_or_empty online) 0 ;;
                Ret (jsonResponse
                       (BOfflineDetector now (List.length offlineServers)
                                         alertsCreated alertsCleared) 200)
            end
        end
    end.

(** *** [nonce-cleanup/index.ts] *)

Definition nonce_cleanup (env : Env) (now : Millis) (req : Request)
  : prog Response :=
  if cron_rejected env req then Ret (errorResponse "Unauthorized" 401)
  else
    match createServiceClient env with
    | Throw message => Ret (internal_error message)
    | Normal _ =>
        (* Remove nonces older than 10 minutes (beyond replay window) *)
        deletedCount <-! cleanupOldNonces now 10 ;;
        Ret (jsonResponse (BNonceCleanup now deletedCount) 200)
    end.

(** *** [rollup-builder/index.ts] *)

Definition rollup_builder (env : Env) (now : Millis) (req : Request)
  : prog Response :=
  if cron_rejected env req then Ret (errorResponse "Unauthorized" 401)
  else
    match createServiceClient env with
    | Throw message => Ret (internal_error message)
    | Normal _ =>
        (* Compute 1-minute rollups for the last 2 minutes (to handle any lag) *)
        let twoMinutesAgo := (now - 2 * 60 * 1000)%Z in
        let bucket1m := (twoMinutesAgo / (60 * 1000) * (60 * 1000))%Z in
        query (RpcExecSql "exec_sql" rollup1mQuery [bucket1m; now]) ;;;
        (* Compute 1-hour rollups for the last hour: [rollup1hQuery] is
           built and not passed to any call *)
        let oneHourAgo := (now - 60 * 60 * 1000)%Z in
        let bucket1h := (oneHourAgo / (60 * 60 * 1000) * (60 * 60 * 1000))%Z in
        Ret (jsonResponse
               (BRollup now "Rollups computed (1m and 1h buckets)" bucket1m bucket1h)
               200)
    end.

End Scheduled.

(* ===================================================================== *)
(** ** A small concrete platform and sample data *)
(* ===================================================================== *)

(** The properties below hold for every [Platform]; to run the handlers on
    concrete requests one is fixed here, with transparent stand-ins for the
    cryptographic functions and timestamps written as decimal
    milliseconds. *)
Module Sample.

Fixpoint parse_digits (s : string) (acc : Z) : option Z :=
  match s with
  | EmptyString => Some acc
  | String c s' =>
      let n := nat_of_ascii c in
      if Nat.leb 48 n && Nat.leb n 57
      then parse_digits s' (acc * 10 + Z.of_nat (n - 48))%Z
      else None
  end.

Definition parse_decimal (s : string) : option Z :=
  match s with
  | EmptyString => None
  | _ => parse_digits s 0%Z
  end.

Definition Qsum (l : list Q) : Q := fold_right Qplus (Qmake 0 1) l.

Definition hb_json (ts : string) : json :=
  JObj [("ts", JStr ts); ("uptime_s", JNum (Qmake 120 1));
        ("load", JObj [("m1", JNum (Qmake 1 2)); ("m5", JNum (Qmake 1 4)); ("m15", JNum (Qmake 1 8))]);
        ("cpu_pct", JNum (Qmake 25 2));
        ("mem", JObj [("used", JNum (Qmake 1024 1)); ("free", JNum (Qmake 2048 1));
                      ("swap_used", JNum (Qmake 0 1))])].

Definition facts_json (mem_bytes : Z) : list (string * json) :=
  [("hostname", JStr "web-1"); ("machine_id", JStr "F1");
   ("os", JObj [("name", JStr "Ubuntu"); ("version", JStr "22.04")]);
   ("kernel", JStr "6.8.0");
   ("cpu", JObj [("model", JStr "Xeon"); ("cores", JNum (Qmake 8 1))]);
   ("mem_bytes", JNum (Qmake mem_bytes 1)); ("agent_version", JStr "0.1.0")].

Definition proc_json (mem_bytes : Z) : json :=
  JObj [("pid", JNum (Qmake 123 1)); ("cmd", JStr "node"); ("cpu_pct", JNum (Qmake 2 1));
        ("mem_bytes", JNum (Qmake mem_bytes 1)); ("usr", JStr "ubuntu")].

Definition log_json : json :=
  JObj [("ts", JStr "1000000"); ("source", JStr "journal"); ("level", JStr "info");
        ("message", JStr "started")].

Definition batch_members (procs logs : list json) : list (string * json) :=
  [("server", JObj (facts_json 4096)); ("heartbeat", hb_json "1000000");
   ("processes", JArr procs); ("logs", JArr logs)].

Definition batch_json (procs logs : list json) : json :=
  JObj (batch_members procs logs).

(** Bodies are named; [JSON.parse] looks the name up. *)
Definition bodies : list (string * json) :=
  [("batch-ok", batch_json [proc_json 100] [log_json]);
   (* one process whose mem_bytes is 2^63: an integer, not a bigint *)
   ("batch-proc-mem-2e63", batch_json [proc_json 9223372036854775808] [log_json]);
   ("batch-51-procs", batch_json (repeat (proc_json 100) 51) [log_json]);
   ("batch-51-procs-201-logs",
    batch_json (repeat (proc_json 100) 51) (repeat log_json 201));
   ("batch-50-procs", batch_json (repeat (proc_json 100) 50) [log_json]);
   ("enroll-F1",
    JObj [("org_enroll_secret", JStr "0123456789abcdef0123456789abcdef");
          ("host_facts", JObj (facts_json 4096))]);
   (* host facts whose mem_bytes is 2^63 *)
   ("enroll-F1-mem-2e63",
    JObj [("org_enroll_secret", JStr "0123456789abcdef0123456789abcdef");
          ("host_facts", JObj (facts_json 9223372036854775808))])].

(** Tokens are named as well: [tok-H1], and the token /enroll mints for
    agent [H1], are tokens for agent [H1] of organisation [T1] that expire
    at second 5000. *)
Definition tokens : list (string * JwtPayload) :=
  [("tok-H1", mkJwtPayload "H1" "T1" "godseye" "agent" (Some 5000%Z) (Some 1400%Z));
   ("jwt:H1:T1", mkJwtPayload "H1" "T1" "godseye" "agent" (Some 5000%Z) (Some 1400%Z))].

#[export] Instance platform : Platform := {|
  sha256_hex := fun s => ("sha256:" ++ s)%string;
  hmac_sha256_hex := fun k m => ("hmac:" ++ k ++ ":" ++ m)%string;
  Date_parse := parse_decimal;
  JSON_parse := fun s => assoc s bodies;
  gunzip := fun s => Some s;
  jwt_decode := fun key token =>
    if String.eqb key "jwt-key" then assoc token tokens else None;
  jwt_create := fun key p => ("jwt:" ++ sub p ++ ":" ++ jwt_org_id p)%string;
  is_uuid := fun _ => true;
  is_datetime := fun s => isSome (parse_decimal s);
  pg_timestamptz := parse_decimal;
  pg_show_timestamptz := fun _ => "ts";
  pg_avg := fun l => Qred (Qdiv (Qsum l) (inject_Z (Z.of_nat (List.length l))));
  pg_percentile_cont := fun _ l => Qred (Qsum l);
  pg_max := fun l => Qred (Qsum l);
|}.

Definition env : Env :=
  mkEnv (Some "cron-secret") (Some "jwt-key") (Some "https://db") (Some "service-key").

(** The same deployment with [CRON_SECRET] not set. *)
Definition env_no_cron : Env :=
  mkEnv None (Some "jwt-key") (Some "https://db") (Some "service-key").

Definition facts : HostFacts :=
  mkHostFacts "web-1" "F1" (mkOs "Ubuntu" "22.04") "6.8.0" (mkCpu "Xeon" 8) 4096
              "0.1.0" (JObj []).

Definition org_T1 : OrgRow :=
  mkOrgRow "T1" "Acme" "sha256:0123456789abcdef0123456789abcdef".

Definition server_H1 (last_seen : Millis) : ServerRow :=
  mkServerRow 0 "T1" "H1" facts "secret-H1" "refresh-H1" 0 last_seen.

(** One organisation, no host yet. *)
Definition store0 : Store :=
  mkStore [org_T1] [] [] [] [] [] [] [] [] [] [] [] [] 0.

(** One organisation and host [H1], last seen at [last_seen]. *)
Definition store1 (last_seen : Millis) : Store :=
  mkStore [org_T1] [server_H1 last_seen] [] [] [] [] [] [] [] [] [] [] [] 1.

Definition sign (ts nonce body : string) : string :=
  ("hmac:secret-H1:" ++ ts ++ newline ++ nonce ++ newline ++ "sha256:" ++ body)%string.

(** A signed POST /ingest from [H1]. *)
Definition ingest_request (ts nonce body : string) : Request :=
  mkRequest "POST" (Some "Bearer tok-H1") (Some ts) (Some nonce)
            (Some (sign ts nonce body)) None body.

(** The same, signed with another secret. *)
Definition forged_request (ts nonce body : string) : Request :=
  mkRequest "POST" (Some "Bearer tok-H1") (Some ts) (Some nonce)
            (Some ("hmac:guess:" ++ ts ++ newline ++ nonce ++ newline
                   ++ "sha256:" ++ body)%string) None body.

(** A heartbeat stored for [H1] at [ts]. *)
Definition heartbeat_row (ts : Millis) : Row Millis Heartbeat :=
  mkRow "T1" 0 ts
        (mkHeartbeat "1000000" 120 (mkLoad (Qmake 1 2) (Qmake 1 4) (Qmake 1 8))
                     (Qmake 25 2) (mkMem 1024 2048 0)).

(** Host [H1] with one heartbeat on record. *)
Definition store2 (last_seen hb : Millis) : Store :=
  mkStore [org_T1] [server_H1 last_seen] [] [heartbeat_row hb] [] [] [] [] [] []
          [] [] [] 1.

Definition enroll_request (body : string) : Request :=
  mkRequest "POST" None None None None None body.

Definition cron_request (auth : option string) : Request :=
  mkRequest "POST" auth None None None None "".

End Sample.

(* ===================================================================== *)
(** ** Notions used in the statements *)
(* ===================================================================== *)

(** *** Classes of statements and what a program may send *)

Definition stmt_class : Type := forall X : Type, dbE X -> Prop.

(** Every statement a program can send, on any branch, is in the class. *)
Fixpoint all_stmts (P : stmt_class) {A} (p : prog A) : Prop :=
  match p with
  | Ret _ => True
  | Vis e k => P _ e /\ forall x, all_stmts P (k x)
  end.

(** The writes of the commit phase of /ingest. *)
Definition commit_write : stmt_class := fun X e =>
  match e with
  | UpdateServerFacts _ _ _ | InsertHeartbeat _ | InsertDisks _
  | InsertNetworkIfaces _ | InsertProcesses _ | InsertPackages _
  | InsertUpdates _ | InsertLogs _ => True
  | _ => False
  end.

(** The columns of a server row that identify the host and its secret. *)
Record ServerIdent : Type := mkServerIdent {
  i_id : nat;
  i_org_id : string;
  i_agent_id : string;
  i_machine_id : string;
  i_hmac_secret : string;
  i_refresh_token : string;
}.

Definition srv_ident (r : ServerRow) : ServerIdent :=
  mkServerIdent (srv_id r) (srv_org_id r) (srv_agent_id r)
                (machine_id (srv_facts r)) (srv_hmac_secret r)
                (srv_refresh_token r).

(** What the commit phase leaves alone. *)
Record commit_frame (s s' : Store) : Prop := mkCommitFrame {
  cf_orgs : tbl_orgs s' = tbl_orgs s;
  cf_nonces : tbl_api_nonces s' = tbl_api_nonces s;
  cf_alerts : tbl_alerts s' = tbl_alerts s;
  cf_rollup_1m : tbl_rollup_1m s' = tbl_rollup_1m s;
  cf_rollup_1h : tbl_rollup_1h s' = tbl_rollup_1h s;
  cf_next_id : next_id s' = next_id s;
  cf_servers : map srv_ident (tbl_servers s') = map srv_ident (tbl_servers s);
}.

(** The only statement is the 1-minute rollup sent to [exec_sql]. *)
Definition only_rollup_1m : stmt_class := fun X e =>
  match e with
  | RpcExecSql _ sql _ => sql = rollup1mQuery
  | _ => False
  end.

(** *** Rollup rows *)

Definition put (r x : RollupRow) : RollupRow :=
  if same_bucket r x then overwrite r x else x.

(** The bucket of [r] is in the table and carries the aggregates of [r]. *)
Definition settled (r : RollupRow) (tbl : list RollupRow) : Prop :=
  existsb (same_bucket r) tbl = true /\ forall x, In x tbl -> put r x = x.

(** *** Alerts *)

Definition is_open_offline (sid : nat) : AlertRow -> bool :=
  alert_matches sid "offline" "open".

(** The number of open "offline" alerts of a host. *)
Definition open_count (sid : nat) (s : Store) : nat :=
  List.length (filter (is_open_offline sid) (tbl_alerts s)).

Definition one_open_offline (s : Store) : Prop :=
  forall sid, open_count sid s <= 1.

(** [alerts.id] is a key, generated below the counter. *)
Definition alerts_keyed (s : Store) : Prop :=
  NoDup (map al_id (tbl_alerts s))
  /\ forall a, In a (tbl_alerts s) -> al_id a < next_id s.

Definition listed (sid : nat) (l : list ServerRow) : bool :=
  existsb (Nat.eqb sid) (map srv_id l).

(** *** Refused writes *)

(** Whether the answer to a statement carries an error. *)
Definition answer_failed {X} (e : dbE X) : X -> bool :=
  match e in dbE X return X -> bool with
  | SelectNonce _ _ _ => fun r => isSome (error r)
  | InsertNonce _ _ _ _ => fun r => isSome (error r)
  | DeleteNoncesLt _ => fun r => isSome (error r)
  | SelectOrgBySecretHash _ => fun r => isSome (error r)
  | SelectServerByAgentId _ => fun r => isSome (error r)
  | SelectServerByMachineId _ _ => fun r => isSome (error r)
  | UpdateServerFacts _ _ _ => fun r => isSome (error r)
  | InsertServer _ => fun r => isSome (error r)
  | SelectServersLastSeenLt _ => fun r => isSome (error r)
  | SelectServersLastSeenGte _ => fun r => isSome (error r)
  | InsertHeartbeat _ => fun r => isSome (error r)
  | InsertDisks _ => fun r => isSome (error r)
  | InsertNetworkIfaces _ => fun r => isSome (error r)
  | InsertProcesses _ => fun r => isSome (error r)
  | InsertPackages _ => fun r => isSome (error r)
  | InsertUpdates _ => fun r => isSome (error r)
  | InsertLogs _ => fun r => isSome (error r)
  | SelectAlert _ _ _ => fun r => isSome (error r)
  | InsertAlert _ => fun r => isSome (error r)
  | UpdateAlertStatus _ _ => fun r => isSome (error r)
  | RpcExecSql _ _ _ => fun r => isSome (error r)
  end.

Definition is_write {X} (e : dbE X) : bool :=
  match e with
  | SelectNonce _ _ _ | SelectOrgBySecretHash _ | SelectServerByAgentId _
  | SelectServerByMachineId _ _ | SelectServersLastSeenLt _
  | SelectServersLastSeenGte _ | SelectAlert _ _ _ => false
  | _ => true
  end.

(** The writes the database refused while the program ran, in order. *)
Fixpoint refused_writes {PF : Platform} {A} (p : prog A) (s : Store)
  : list {X : Type & dbE X} :=
  match p with
  | Ret _ => []
  | Vis e k =>
      let (x, s') := exec e s in
      if is_write e && answer_failed e x
      then existT _ _ e :: refused_writes (k x) s'
      else refused_writes (k x) s'
  end.

(** *** Requests *)

(** The row of a host: its organisation and its machine id. *)
Definition same_host (org machine : string) (r : ServerRow) : bool :=
  String.eqb (srv_org_id r) org && String.eqb (machine_id (srv_facts r)) machine.


Definition nonce_of (req : Request) : string := or_empty (x_nonce req).
Definition token_of (req : Request) : string :=
  strip_bearer (or_empty (authorization req)).

Definition replay_detected : Response :=
  errorResponse "Nonce already used (replay detected)" 409.

Section Notions.
Context {PF : Platform}.

(** The request passed every check of the Authenticator on store [s]. *)
Record verified_by (env : Env) (now : Millis) (req : Request) (s : Store)
       (v : Verified) : Prop := mkVerifiedBy {
  vb_method : method req = "POST";
  vb_authorization : truthy (authorization req) = true;
  vb_x_timestamp : truthy (x_timestamp req) = true;
  vb_x_nonce : truthy (x_nonce req) = true;
  vb_x_signature : truthy (x_signature req) = true;
  vb_fresh : validateTimestamp now (or_empty (x_timestamp req)) = true;
  vb_token : verifyAgentJWT env now (token_of req) = Normal (v_agentId v, v_orgId v);
  vb_client : createServiceClient env = Normal tt;
  vb_server : filter (fun r => String.eqb (srv_agent_id r) (v_agentId v))
                     (tbl_servers s) = [v_server v];
  vb_org : srv_org_id (v_server v) = v_orgId v;
  vb_unused : existsb (nonce_matches (v_orgId v) (v_agentId v) (nonce_of req))
                      (tbl_api_nonces s) = false;
  vb_signature : verifyHMAC (srv_hmac_secret (v_server v))
                            (or_empty (x_timestamp req)) (nonce_of req)
                            (hashBody (v_bodyText v))
                            (or_empty (x_signature req)) = true;
}.

(** The store once [storeNonce] has recorded the request's nonce. *)
Definition with_nonce (now : Millis) (req : Request) (v : Verified) (s : Store)
  : Store :=
  set_api_nonces
    (tbl_api_nonces s ++ [mkNonceRow (v_orgId v) (v_agentId v) (nonce_of req) now]) s.

(** The token of the request verifies at [now]. *)
Definition accepts_token (env : Env) (now : Millis) (req : Request) : bool :=
  match verifyAgentJWT env now (token_of req) with
  | Normal _ => true
  | Throw _ => false
  end.



End Notions.

(** *** Requests in flight *)

(** One awaited statement of a request reaches the database. *)
Definition step {PF : Platform} {A} (p : prog A) (s : Store) : prog A * Store :=
  match p with
  | Ret _ => (p, s)
  | Vis e k => let (x, s') := exec e s in (k x, s')
  end.

(** Two requests in flight.  Statements are atomic; the schedule says whose
    statement comes next ([true]: the first request's). *)
Fixpoint interleave {PF : Platform} {A} (sched : list bool) (p q : prog A) (s : Store)
  : prog A * prog A * Store :=
  match sched with
  | [] => (p, q, s)
  | true :: rest => let (p', s') := step p s in interleave rest p' q s'
  | false :: rest => let (q', s') := step q s in interleave rest p q' s'
  end.

(** The schedule, then whatever is left of the first request, then of the
    second. *)
Definition concurrently {PF : Platform} {A} (sched : list bool) (p q : prog A)
           (s : Store) : A * A * Store :=
  let '(p', q', s1) := interleave sched p q s in
  let (a, s2) := run p' s1 in
  let (b, s3) := run q' s2 in
  (a, b, s3).










(* ===================================================================== *)
(** ** [_shared/auth.ts]: generateSecret *)
(* ===================================================================== *)

Definition hex_digit (n : N) : ascii :=
  if (n <? 10)%N then ascii_of_N (48 + n) else ascii_of_N (87 + n).

(** [b.toString(16)] on an element of a [Uint8Array]. *)
Definition toString16 (b : Byte.byte) : string :=
  let n := Byte.to_N b in
  if (n <? 16)%N then String (hex_digit n) EmptyString
  else String (hex_digit (n / 16)) (String (hex_digit (n mod 16)) EmptyString).

Fixpoint zeros (n : nat) : string :=
  match n with
  | O => EmptyString
  | S n' => String "0" (zeros n')
  end.

(** [s.padStart(width, "0")] *)
Definition padStart (width : nat) (s : string) : string :=
  (zeros (width - String.length s) ++ s)%string.

(** [generateSecret(length)], given the bytes [crypto.getRandomValues]
    wrote into the array of that length. *)
Definition generateSecret (random : list Byte.byte) : string :=
  String.concat "" (map (fun b => padStart 2 (toString16 b)) random).

Definition is_hex (c : ascii) : bool :=
  let n := nat_of_ascii c in
  (Nat.leb 48 n && Nat.leb n 57) || (Nat.leb 97 n && Nat.leb n 102).

Fixpoint string_forallb (f : ascii -> bool) (s : string) : bool :=
  match s with
  | EmptyString => true
  | String c s' => f c && string_forallb f s'
  end.

(** Reading two hex digits back. *)
Definition hex_value (c : ascii) : N :=
  let n := N_of_ascii c in
  if (n <? 58)%N then (n - 48)%N else (n - 87)%N.

Definition byte_of_hex (hi lo : ascii) : option Byte.byte :=
  Byte.of_N (hex_value hi * 16 + hex_value lo).

(* ===================================================================== *)
(** ** [rotate/index.ts]: POST /rotate *)
(* ===================================================================== *)

Record RotateRequest : Type := mkRotateRequest {
  rr_agent_id : string;
  rr_refresh_token : string;
}.

Definition RotateRequestSchema {PF : Platform} : ZodType RotateRequest := fun p i =>
  z_object p i (fun m =>
    pr_pure mkRotateRequest
      <*> field p m "agent_id" (z_string [sk_regex is_uuid])
      <*> field p m "refresh_token" (z_string [])).

(** What /rotate answers: one of the shared responses, or 200 with
    [{ agent_jwt, refresh_token }]. *)
Inductive RotateResponse : Type :=
| Shared (r : Response)
| Rotated (agent_jwt refresh_token : string).

Definition rotate_status (r : RotateResponse) : nat :=
  match r with
  | Shared r => status r
  | Rotated _ _ => 200
  end.

Definition with_refresh_token (token : string) (last_seen : Millis) (r : ServerRow)
  : ServerRow :=
  mkServerRow (srv_id r) (srv_org_id r) (srv_agent_id r) (srv_facts r)
    (srv_hmac_secret r) token (srv_first_seen r) last_seen.

(** [update servers set refresh_token = .., last_seen = .. where agent_id = ..] *)
Definition update_refresh_token (agent token : string) (last_seen : Millis)
           (s : Store) : PostgrestResponse unit * Store :=
  (pg_done,
   set_servers
     (map (fun r => if String.eqb (srv_agent_id r) agent
                    then with_refresh_token token last_seen r else r)
          (tbl_servers s)) s).

(** The handler, statement after statement on the store; [random] is what
    [generateSecret(64)] draws. *)
Definition rotate {PF : Platform} (env : Env) (now : Millis)
           (random : list Byte.byte) (req : Request) (s : Store)
  : RotateResponse * Store :=
  if String.eqb (method req) "OPTIONS" then (Shared handleCORS, s)
  else if negb (String.eqb (method req) "POST")
  then (Shared (errorResponse "Method not allowed" 405), s)
  else
    (* Parse and validate request body *)
    match JSON_parse (body req) with
    | None => (Shared (internal_error "SyntaxError"), s)
    | Some j =>
        match safeParse RotateRequestSchema j with
        | SafeParseError issues => (Shared (validationErrorResponse issues), s)
        | SafeParseSuccess parsed =>
            (* Get server and validate refresh token *)
            match createServiceClient env with
            | Throw message => (Shared (internal_error message), s)
            | Normal _ =>
                let (found, s1) := run (getServerByAgentId (rr_agent_id parsed)) s in
                match found with
                | Throw message => (Shared (internal_error message), s1)
                | Normal None => (Shared (errorResponse "Invalid agent ID" 403), s1)
                | Normal (Some serverRow) =>
                    if negb (String.eqb (srv_refresh_token serverRow)
                                        (rr_refresh_token parsed))
                    then (Shared (errorResponse "Invalid refresh token" 403), s1)
                    else
                      (* Generate new JWT *)
                      match createAgentJWT env now (rr_agent_id parsed)
                                           (srv_org_id serverRow) with
                      | Throw message => (Shared (internal_error message), s1)
                      | Normal newJwt =>
                          (* Generate new refresh token *)
                          let newRefreshToken := generateSecret random in
                          (* Update refresh token in database *)
                          let (_, s2) :=
                            update_refresh_token (rr_agent_id parsed)
                                                 newRefreshToken now s1 in
                          (Rotated newJwt newRefreshToken, s2)
                      end
                end
            end
        end
    end.

(* ===================================================================== *)
(** ** Further notions *)
(* ===================================================================== *)

(** *** Attribution of telemetry rows *)

Definition tagged (org : string) (sid : nat) {T A} (r : Row T A) : Prop :=
  row_org_id r = org /\ row_server_id r = sid.

(** [new] is [old] followed by rows of host [sid] of organisation [org]. *)
Definition appended_for (org : string) (sid : nat) {A}
           (old new : list (Row Millis A)) : Prop :=
  exists added, new = old ++ added /\ Forall (tagged org sid) added.

Record batch_attributed (org : string) (sid : nat) (s s' : Store) : Prop :=
  mkBatchAttributed {
  ba_heartbeats : appended_for org sid (tbl_heartbeats s) (tbl_heartbeats s');
  ba_disks : appended_for org sid (tbl_disks s) (tbl_disks s');
  ba_network_ifaces :
    appended_for org sid (tbl_network_ifaces s) (tbl_network_ifaces s');
  ba_processes : appended_for org sid (tbl_processes s) (tbl_processes s');
  ba_packages : appended_for org sid (tbl_packages s) (tbl_packages s');
  ba_updates : appended_for org sid (tbl_updates s) (tbl_updates s');
  ba_logs : appended_for org sid (tbl_logs s) (tbl_logs s');
}.

(** The commit writes whose rows all carry [org] and [sid]. *)
Definition tagged_write (org : string) (sid : nat) : stmt_class := fun X e =>
  match e with
  | UpdateServerFacts _ _ _ => True
  | InsertHeartbeat r => tagged org sid r
  | InsertDisks rs => Forall (tagged org sid) rs
  | InsertNetworkIfaces rs => Forall (tagged org sid) rs
  | InsertProcesses rs => Forall (tagged org sid) rs
  | InsertPackages rs => Forall (tagged org sid) rs
  | InsertUpdates r => tagged org sid r
  | InsertLogs rs => Forall (tagged org sid) rs
  | _ => False
  end.

(** The inserts into the seven telemetry tables. *)
Definition telemetry_insert : stmt_class := fun X e =>
  match e with
  | InsertHeartbeat _ | InsertDisks _ | InsertNetworkIfaces _ | InsertProcesses _
  | InsertPackages _ | InsertUpdates _ | InsertLogs _ => True
  | _ => False
  end.

(** *** Row counts of the telemetry tables *)

Record Sizes : Type := mkSizes {
  n_heartbeats : nat;
  n_disks : nat;
  n_network_ifaces : nat;
  n_processes : nat;
  n_packages : nat;
  n_updates : nat;
  n_logs : nat;
}.

Definition sizes (s : Store) : Sizes :=
  mkSizes (List.length (tbl_heartbeats s)) (List.length (tbl_disks s))
    (List.length (tbl_network_ifaces s)) (List.length (tbl_processes s))
    (List.length (tbl_packages s)) (List.length (tbl_updates s))
    (List.length (tbl_logs s)).

Definition add_sizes (a b : Sizes) : Sizes :=
  mkSizes (n_heartbeats a + n_heartbeats b) (n_disks a + n_disks b)
    (n_network_ifaces a + n_network_ifaces b) (n_processes a + n_processes b)
    (n_packages a + n_packages b) (n_updates a + n_updates b)
    (n_logs a + n_logs b).

Definition no_rows : Sizes := mkSizes 0 0 0 0 0 0 0.

(** The rows a statement carries, per table. *)
Definition rows_sent {X} (e : dbE X) : Sizes :=
  match e with
  | InsertHeartbeat _ => mkSizes 1 0 0 0 0 0 0
  | InsertDisks rs => mkSizes 0 (List.length rs) 0 0 0 0 0
  | InsertNetworkIfaces rs => mkSizes 0 0 (List.length rs) 0 0 0 0
  | InsertProcesses rs => mkSizes 0 0 0 (List.length rs) 0 0 0
  | InsertPackages rs => mkSizes 0 0 0 0 (List.length rs) 0 0
  | InsertUpdates _ => mkSizes 0 0 0 0 0 1 0
  | InsertLogs rs => mkSizes 0 0 0 0 0 0 (List.length rs)
  | _ => no_rows
  end.

(** The rows the statements of a run carry. *)
Fixpoint rows_carried {PF : Platform} {A} (p : prog A) (s : Store) : Sizes :=
  match p with
  | Ret _ => no_rows
  | Vis e k =>
      let (x, s') := exec e s in add_sizes (rows_sent e) (rows_carried (k x) s')
  end.

(** The rows of a validated batch, per table. *)
Definition batch_sizes (d : IngestPayload) : Sizes :=
  mkSizes 1 (List.length (disks d)) (List.length (network_ifaces d))
    (List.length (processes d)) (List.length (packages d))
    (match updates d with Some _ => 1 | None => 0 end)
    (List.length (logs d)).

(** *** The history of alerts *)

(** The number of alerts with a given status. *)
Definition status_count (st : string) (s : Store) : nat :=
  List.length (filter (fun a => String.eqb (al_status a) st) (tbl_alerts s)).

(** An alert row is as it was, or as it was with status "cleared". *)
Definition alert_kept (a a' : AlertRow) : Prop :=
  a' = a \/ a' = with_status "cleared" a.

(** A critical "offline" alert raised at [now], open or cleared since. *)
Definition raised_at (now : Millis) (a : AlertRow) : Prop :=
  al_ts a = now /\ al_type a = "offline" /\ al_severity a = "critical"
  /\ (al_status a = "open" \/ al_status a = "cleared").

(** The statements of the offline detector. *)
Definition detector_stmt (now : Millis) : stmt_class := fun X e =>
  match e with
  | SelectServersLastSeenLt _ | SelectServersLastSeenGte _ | SelectAlert _ _ _ => True
  | InsertAlert a =>
      na_ts a = now /\ na_type a = "offline" /\ na_severity a = "critical"
      /\ na_status a = "open"
  | UpdateAlertStatus _ st => st = "cleared"
  | _ => False
  end.

(** Alerts are kept in place, new ones are appended, nothing else moves. *)
Record alert_history (now : Millis) (s s' : Store) : Prop := mkAlertHistory {
  ah_alerts : exists kept added,
      tbl_alerts s' = kept ++ added
      /\ Forall2 alert_kept (tbl_alerts s) kept
      /\ Forall (raised_at now) added;
  ah_orgs : tbl_orgs s' = tbl_orgs s;
  ah_servers : tbl_servers s' = tbl_servers s;
  ah_nonces : tbl_api_nonces s' = tbl_api_nonces s;
  ah_telemetry : telemetry s' = telemetry s;
  ah_rollup_1m : tbl_rollup_1m s' = tbl_rollup_1m s;
  ah_rollup_1h : tbl_rollup_1h s' = tbl_rollup_1h s;
}.

(** The alert is filed under the organisation and the id of the row. *)
Definition alert_of (r : ServerRow) (a : AlertRow) : Prop :=
  al_org_id a = srv_org_id r /\ al_server_id a = srv_id r.

(** The two alerts have the same organisation and host. *)
Definition same_owner (a a' : AlertRow) : Prop :=
  al_org_id a' = al_org_id a /\ al_server_id a' = al_server_id a.

(** *** Rollups *)

Definition in_window (lo hi : Millis) (r : Row Millis Heartbeat) : bool :=
  (lo <=? row_ts r)%Z && (row_ts r <? hi)%Z.

(** Every host reports under one organisation. *)
Definition one_org_per_host (hbs : list (Row Millis Heartbeat)) : Prop :=
  forall a b, In a hbs -> In b hbs ->
              row_server_id a = row_server_id b -> row_org_id a = row_org_id b.

(* ===================================================================== *)
(** ** Sample requests for /rotate *)
(* ===================================================================== *)

Module RotateSample.

Definition bodies : list (string * json) :=
  [("rotate-H1",
    JObj [("agent_id", JStr "H1"); ("refresh_token", JStr "refresh-H1")]);
   ("rotate-H1-next",
    JObj [("agent_id", JStr "H1"); ("refresh_token", JStr "0a10ff")]);
   ("rotate-H1-guess",
    JObj [("agent_id", JStr "H1"); ("refresh_token", JStr "guess")])].

(** The sample platform, with [JSON.parse] knowing these bodies too. *)
Definition platform : Platform := {|
  sha256_hex := @sha256_hex Sample.platform;
  hmac_sha256_hex := @hmac_sha256_hex Sample.platform;
  Date_parse := @Date_parse Sample.platform;
  JSON_parse := fun s => assoc s (bodies ++ Sample.bodies);
  gunzip := @gunzip Sample.platform;
  jwt_decode := @jwt_decode Sample.platform;
  jwt_create := @jwt_create Sample.platform;
  is_uuid := @is_uuid Sample.platform;
  is_datetime := @is_datetime Sample.platform;
  pg_timestamptz := @pg_timestamptz Sample.platform;
  pg_show_timestamptz := @pg_show_timestamptz Sample.platform;
  pg_avg := @pg_avg Sample.platform;
  pg_percentile_cont := @pg_percentile_cont Sample.platform;
  pg_max := @pg_max Sample.platform;
|}.

Definition rotate_request (body : string) : Request :=
  mkRequest "POST" None None None None None body.

(** Three bytes drawn for a new token: it reads "0a10ff". *)
Definition random3 : list Byte.byte := [Byte.x0a; Byte.x10; Byte.xff].

End RotateSample.

(* ===================================================================== *)
(** ** Properties of /ingest *)
(* ===================================================================== *)

Section IngestProperties.
Context {PF : Platform}.

(** *** Programs *)

Lemma run_bind {A B} (m : prog A) (f : A -> prog B) (s : Store) :
  run (bind m f) s = let (a, s') := run m s in run (f a) s'.
Proof.
  revert s. induction m as [a | X e k IH]; intros s; simpl.
  - reflexivity.
  - destruct (exec e s) as [x s']. apply IH.
Qed.

Lemma all_stmts_bind (P : stmt_class) {A B} (m : prog A) (f : A -> prog B) :
  all_stmts P m -> (forall a, all_stmts P (f a)) -> all_stmts P (bind m f).
Proof.
  induction m as [a | X e k IH]; simpl; intros Hm Hf.
  - apply Hf.
  - destruct Hm as [He Hk]. split; [exact He |]. intros x. apply IH; auto.
Qed.

Lemma run_all_stmts (P : stmt_class) (R : Store -> Store -> Prop) :
  (forall s, R s s) ->
  (forall s1 s2 s3, R s1 s2 -> R s2 s3 -> R s1 s3) ->
  (forall X (e : dbE X) s, P X e -> R s (snd (exec e s))) ->
  forall A (p : prog A) s, all_stmts P p -> R s (snd (run p s)).
Proof.
  intros Hrefl Htrans Hstep A p. induction p as [a | X e k IH]; intros s Hp; simpl.
  - apply Hrefl.
  - destruct Hp as [He Hk]. specialize (Hstep X e s He).
    destruct (exec e s) as [x s']. simpl in Hstep.
    eapply Htrans; [exact Hstep | apply IH, Hk].
Qed.

(** *** The commit phase touches telemetry and host facts only *)

Lemma commit_frame_refl s : commit_frame s s.
Proof. constructor; reflexivity. Qed.

Lemma commit_frame_trans s1 s2 s3 :
  commit_frame s1 s2 -> commit_frame s2 s3 -> commit_frame s1 s3.
Proof.
  intros [] []. constructor; congruence.
Qed.

Lemma insert_rows_frame {A} (fits : A -> bool) rs tbl put s :
  (forall v, commit_frame s (put v s)) ->
  commit_frame s (snd (insert_rows fits rs tbl put s)).
Proof.
  intros H. unfold insert_rows. destruct (stored_rows fits rs); simpl.
  - apply H.
  - apply commit_frame_refl.
Qed.

Lemma map_ident_with_facts agent f now l :
  map srv_ident
      (map (fun r => if String.eqb (srv_agent_id r) agent
                     then with_facts f now r else r) l)
  = map srv_ident l.
Proof.
  rewrite map_map. apply map_ext. intros r.
  destruct (String.eqb (srv_agent_id r) agent); reflexivity.
Qed.

Lemma commit_write_frame X (e : dbE X) s :
  commit_write X e -> commit_frame s (snd (exec e s)).
Proof.
  destruct e; simpl; try contradiction; intros _;
    try (apply insert_rows_frame; intros v; constructor; reflexivity).
  destruct (fits_facts f); simpl.
  - constructor; try reflexivity. simpl. apply map_ident_with_facts.
  - apply commit_frame_refl.
Qed.

Lemma insert_if_any_commit {A} (rows : list A) stmt :
  commit_write _ stmt -> all_stmts commit_write (insert_if_any rows stmt).
Proof.
  intros H. destruct rows; simpl; auto.
Qed.

Lemma ingest_commit_writes now orgId agentId srv d :
  all_stmts commit_write (ingest_commit now orgId agentId srv d).
Proof.
  unfold ingest_commit.
  repeat (apply all_stmts_bind; [| intros _]);
    try (apply insert_if_any_commit; exact I);
    try (simpl; tauto).
  destruct (updates d); simpl; tauto.
Qed.

Lemma ingest_process_writes now v :
  all_stmts commit_write (ingest_process now v).
Proof.
  unfold ingest_process.
  destruct (JSON_parse (v_bodyText v)); [| exact I].
  destruct (safeParse IngestPayloadSchema j); [| exact I].
  apply ingest_commit_writes.
Qed.

Lemma ingest_process_frame now v s :
  commit_frame s (snd (run (ingest_process now v) s)).
Proof.
  apply (run_all_stmts commit_write commit_frame).
  - apply commit_frame_refl.
  - apply commit_frame_trans.
  - apply commit_write_frame.
  - apply ingest_process_writes.
Qed.

(** *** Timestamp freshness *)

Lemma minutes_le_5 (d : Z) :
  Qle_bool (inject_Z d / inject_Z (1000 * 60))%Q 5 = (d <=? 300000)%Z.
Proof.
  apply eq_true_iff_eq. rewrite Qle_bool_iff, Z.leb_le.
  unfold Qle, Qdiv, Qmult, Qinv, inject_Z. simpl. lia.
Qed.

Lemma validateTimestamp_spec (now : Millis) (ts : string) :
  validateTimestamp now ts = true <->
  exists t, Date_parse ts = Some t /\ (Z.abs (now - t) <= 5 * 60 * 1000)%Z.
Proof.
  unfold validateTimestamp. destruct (Date_parse ts) as [t |].
  - rewrite minutes_le_5, Z.leb_le. split.
    + intros H. exists t. split; [reflexivity | lia].
    + intros [t' [E H]]. inversion E; subst. lia.
  - split; [discriminate | intros [t [E _]]; discriminate].
Qed.

(** C5: a POST carrying the four signing headers whose X-Timestamp lies
    more than five minutes before or after the server clock is answered
    401 at once: the handler is the constant program returning that
    response, so it verifies no token and sends no statement. *)
Theorem stale_timestamp_rejected (env : Env) (now : Millis) (req : Request)
        (ts : string) (t : Z) :
  method req = "POST" ->
  truthy (authorization req) = true ->
  truthy (x_nonce req) = true ->
  truthy (x_signature req) = true ->
  x_timestamp req = Some ts -> ts <> "" ->
  Date_parse ts = Some t ->
  (now - t > 5 * 60 * 1000 \/ t - now > 5 * 60 * 1000)%Z ->
  ingest env now req = Ret (errorResponse "Invalid or expired timestamp" 401).
Proof.
  intros Hm Ha Hn Hs Ht Hne Hp Hd.
  assert (Hv : validateTimestamp now ts = false).
  { destruct (validateTimestamp now ts) eqn:E; [| reflexivity].
    apply validateTimestamp_spec in E. destruct E as [t' [E1 E2]].
    rewrite Hp in E1. inversion E1; subst. lia. }
  unfold ingest, ingest_verify.
  rewrite Hm, Ha, Hn, Hs, Ht. simpl.
  destruct (String.eqb_spec ts ""); [contradiction |]. simpl.
  rewrite Hv. reflexivity.
Qed.

(** *** Replay *)

Lemma single_cases {A} (l : list A) :
  (exists x, l = [x] /\ single l = pg_rows x) \/
  (single l = pg_fail "PGRST116" /\ forall x, l <> [x]).
Proof.
  destruct l as [| x [| y l]]; simpl.
  - right. split; [reflexivity | discriminate].
  - left. exists x. split; reflexivity.
  - right. split; [reflexivity | discriminate].
Qed.

(** The handler returned before [storeNonce]: the store is as it was and
    the status is neither 200 nor 422. *)
Ltac early_return := simpl; split; [reflexivity | split; discriminate].

(** Every way through the checks: an early response that leaves the store
    alone, or a verified request and the store with its nonce recorded. *)
Lemma ingest_verify_cases env now req s :
  match run (ingest_verify env now req) s with
  | (inl r, s1) => s1 = s /\ status r <> 200 /\ status r <> 422
  | (inr v, s1) => verified_by env now req s v /\ s1 = with_nonce now req v s
  end.
Proof.
  unfold ingest_verify.
  destruct (String.eqb (method req) "OPTIONS") eqn:Hopt.
  { early_return. }
  destruct (String.eqb_spec (method req) "POST") as [Hpost | Hpost]; simpl;
    [| early_return].
  destruct (truthy (authorization req)) eqn:Ha; simpl;
    [| early_return].
  destruct (truthy (x_timestamp req)) eqn:Ht; simpl;
    [| early_return].
  destruct (truthy (x_nonce req)) eqn:Hn; simpl;
    [| early_return].
  destruct (truthy (x_signature req)) eqn:Hs; simpl;
    [| early_return].
  destruct (validateTimestamp now (or_empty (x_timestamp req))) eqn:Hv; simpl;
    [| early_return].
  destruct (verifyAgentJWT env now (strip_bearer (or_empty (authorization req))))
    as [[agentId orgId] | msg] eqn:Hj; simpl;
    [| early_return].
  destruct (createServiceClient env) as [[] | msg] eqn:Hc; simpl;
    [| early_return].
  destruct (single_cases (filter (fun r => String.eqb (srv_agent_id r) agentId)
                                 (tbl_servers s)))
    as [[srv [Hsrv ->]] | [-> _]]; simpl;
    [| early_return].
  destruct (String.eqb_spec (srv_org_id srv) orgId) as [Horg | Horg]; simpl;
    [| early_return].
  destruct (single_cases (filter (nonce_matches orgId agentId (or_empty (x_nonce req)))
                                 (tbl_api_nonces s)))
    as [[nr [Hnr ->]] | [-> Hnone]]; simpl;
    [early_return |].
  destruct (match content_encoding req with
            | Some enc => if String.eqb enc "gzip" then gunzip (body req)
                          else Some (body req)
            | None => Some (body req)
            end) as [bodyText |] eqn:Hbody; simpl;
    [| early_return].
  destruct (verifyHMAC (srv_hmac_secret srv) (or_empty (x_timestamp req))
                       (or_empty (x_nonce req)) (hashBody bodyText)
                       (or_empty (x_signature req))) eqn:Hh; simpl;
    [| early_return].
  destruct (existsb (nonce_matches orgId agentId (or_empty (x_nonce req)))
                    (tbl_api_nonces s)) eqn:Hex; simpl;
    [early_return |].
  split; [| reflexivity].
  constructor; simpl; auto.
Qed.

Lemma verifyAgentJWT_ids env now1 now2 tok a b :
  verifyAgentJWT env now1 tok = Normal a ->
  verifyAgentJWT env now2 tok = Normal b -> a = b.
Proof.
  unfold verifyAgentJWT.
  destruct (negb (truthy (JWT_SECRET env))); [discriminate |].
  destruct (jwt_decode (or_empty (JWT_SECRET env)) tok) as [p |]; [| discriminate].
  destruct (jwt_expired now1 p); [discriminate |].
  destruct (jwt_expired now2 p); [discriminate |].
  destruct (negb (String.eqb (iss p) JWT_ISSUER) || negb (String.eqb (aud p) JWT_AUDIENCE));
    [discriminate |].
  congruence.
Qed.

Lemma existsb_false_filter {A} (f : A -> bool) (l : list A) :
  existsb f l = false -> filter f l = [].
Proof.
  induction l as [| x l IH]; simpl; [reflexivity |].
  destruct (f x); simpl; [discriminate | exact IH].
Qed.

Lemma nonce_matches_self org agent nonce ts :
  nonce_matches org agent nonce (mkNonceRow org agent nonce ts) = true.
Proof.
  unfold nonce_matches. simpl. rewrite !String.eqb_refl. reflexivity.
Qed.

Lemma filter_same_ident {A B} (f : A -> B) (q : B -> bool) (l l' : list A) :
  map f l' = map f l ->
  map f (filter (fun r => q (f r)) l') = map f (filter (fun r => q (f r)) l).
Proof.
  revert l'. induction l as [| x l IH]; intros [| x' l'] H; simpl in *;
    try discriminate; [reflexivity |].
  injection H as Hx Hl. rewrite Hx.
  destruct (q (f x)); simpl; [rewrite Hx; f_equal |]; apply IH; exact Hl.
Qed.

Lemma server_lookup_stable agent s s' srv :
  map srv_ident (tbl_servers s') = map srv_ident (tbl_servers s) ->
  filter (fun r => String.eqb (srv_agent_id r) agent) (tbl_servers s) = [srv] ->
  exists srv',
    filter (fun r => String.eqb (srv_agent_id r) agent) (tbl_servers s') = [srv']
    /\ srv_ident srv' = srv_ident srv.
Proof.
  intros Hmap Hsel.
  pose proof (filter_same_ident srv_ident
                (fun i => String.eqb (i_agent_id i) agent) _ _ Hmap) as H.
  simpl in H. rewrite Hsel in H. simpl in H.
  destruct (filter (fun r => String.eqb (srv_agent_id r) agent) (tbl_servers s'))
    as [| srv' [| y l]]; simpl in H; try discriminate.
  exists srv'. split; [reflexivity |].
  inversion H. unfold srv_ident. congruence.
Qed.

(** A request whose first three checks pass and whose nonce is on record
    is answered 409 and changes nothing. *)
Lemma ingest_replay env now req s agentId orgId srv nr :
  method req = "POST" ->
  truthy (authorization req) = true ->
  truthy (x_timestamp req) = true ->
  truthy (x_nonce req) = true ->
  truthy (x_signature req) = true ->
  validateTimestamp now (or_empty (x_timestamp req)) = true ->
  verifyAgentJWT env now (token_of req) = Normal (agentId, orgId) ->
  createServiceClient env = Normal tt ->
  filter (fun r => String.eqb (srv_agent_id r) agentId) (tbl_servers s) = [srv] ->
  srv_org_id srv = orgId ->
  filter (nonce_matches orgId agentId (nonce_of req)) (tbl_api_nonces s) = [nr] ->
  run (ingest env now req) s = (replay_detected, s).
Proof.
  intros Hm Ha Ht Hn Hs Hv Hj Hc Hsrv Horg Hnr.
  unfold ingest. rewrite run_bind. unfold ingest_verify.
  rewrite Hm, Ha, Ht, Hn, Hs, Hv. simpl.
  unfold token_of in Hj. rewrite Hj, Hc. simpl.
  rewrite Hsrv. simpl. rewrite Horg, String.eqb_refl. simpl.
  unfold nonce_of in Hnr. rewrite Hnr. reflexivity.
Qed.

(** The store an accepted or schema-rejected request leaves behind. *)
Lemma ingest_past_verify env now req s resp s1 :
  run (ingest env now req) s = (resp, s1) ->
  status resp = 200 \/ status resp = 422 ->
  exists v,
    verified_by env now req s v
    /\ run (ingest_verify env now req) s = (inr v, with_nonce now req v s)
    /\ run (ingest_process now v) (with_nonce now req v s) = (resp, s1).
Proof.
  unfold ingest. rewrite run_bind.
  pose proof (ingest_verify_cases env now req s) as Hcases.
  destruct (run (ingest_verify env now req) s) as [[r | v] sm].
  - simpl. intros H Hst. injection H as -> ->. destruct Hcases as [_ [? ?]].
    destruct Hst; contradiction.
  - destruct Hcases as [Hv ->]. intros H _. exists v. auto.
Qed.

Lemma replay_after env now1 now2 req1 req2 s v s1 :
  verified_by env now1 req1 s v ->
  commit_frame (with_nonce now1 req1 v s) s1 ->
  method req2 = "POST" ->
  authorization req2 = authorization req1 ->
  x_nonce req2 = x_nonce req1 ->
  truthy (x_timestamp req2) = true ->
  truthy (x_signature req2) = true ->
  validateTimestamp now2 (or_empty (x_timestamp req2)) = true ->
  accepts_token env now2 req2 = true ->
  run (ingest env now2 req2) s1 = (replay_detected, s1).
Proof.
  intros [_ Hauth1 _ Hnonce1 _ _ Hjwt1 Hclient Hserver Horg1 Hunused _]
         Hframe Hm Ha Hn Ht Hs Hfresh Htok.
  destruct Hframe as [_ Hnonces _ _ _ _ Hservers].
  unfold accepts_token in Htok.
  destruct (verifyAgentJWT env now2 (token_of req2)) as [ids |] eqn:Hj;
    [| discriminate].
  assert (ids = (v_agentId v, v_orgId v)) as ->.
  { symmetry. eapply verifyAgentJWT_ids; [eassumption |].
    unfold token_of in *. rewrite <- Ha. exact Hj. }
  destruct (server_lookup_stable (v_agentId v) _ _ _ Hservers Hserver)
    as [srv' [Hsel Hid]].
  assert (Horg : srv_org_id srv' = srv_org_id (v_server v))
    by (unfold srv_ident in Hid; congruence).
  eapply ingest_replay; try eassumption.
  - rewrite Ha. assumption.
  - rewrite Hn. assumption.
  - congruence.
  - rewrite Hnonces. simpl. rewrite filter_app.
    unfold nonce_of. rewrite Hn. fold (nonce_of req1).
    rewrite (existsb_false_filter _ _ Hunused). simpl.
    rewrite nonce_matches_self. reflexivity.
Qed.

(** C2: once a request has been accepted (200), the identical request,
    whenever it arrives, is not accepted and leaves the store as it is,
    hence adds no telemetry row.  It is answered 409 as long as it still
    passes the two checks that precede the replay check, and 401 by the
    first of them that fails: the timestamp no longer within the skew, or
    the token no longer valid. *)
Theorem replay_of_accepted_request_rejected env now1 now2 req s resp1 s1 :
  run (ingest env now1 req) s = (resp1, s1) ->
  status resp1 = 200 ->
  run (ingest env now2 req) s1
  = (if validateTimestamp now2 (or_empty (x_timestamp req))
     then match verifyAgentJWT env now2 (token_of req) with
          | Normal _ => replay_detected
          | Throw message =>
              errorResponse ("JWT verification failed: " ++ message) 401
          end
     else errorResponse "Invalid or expired timestamp" 401,
     s1).
Proof.
  intros Hrun Hst.
  destruct (ingest_past_verify _ _ _ _ _ _ Hrun (or_introl Hst))
    as [v [Hv [_ Hproc]]].
  pose proof (ingest_process_frame now1 v (with_nonce now1 req v s)) as Hframe.
  rewrite Hproc in Hframe. simpl in Hframe.
  destruct (validateTimestamp now2 (or_empty (x_timestamp req))) eqn:Hfresh.
  - destruct (verifyAgentJWT env now2 (token_of req)) as [ids | msg] eqn:Hj.
    + eapply replay_after; try eassumption; try reflexivity; try apply Hv.
      unfold accepts_token. rewrite Hj. reflexivity.
    + destruct Hv as [Hm Ha Ht Hn Hs _ _ _ _ _ _ _].
      unfold token_of in Hj.
      unfold ingest, ingest_verify. rewrite run_bind.
      rewrite Hm, Ha, Ht, Hn, Hs, Hfresh. simpl. rewrite Hj. reflexivity.
  - destruct Hv as [Hm Ha Ht Hn Hs _ _ _ _ _ _ _].
    unfold ingest, ingest_verify. rewrite run_bind.
    rewrite Hm, Ha, Ht, Hn, Hs, Hfresh. reflexivity.
Qed.

(** X5: whenever it arrives, the replay of an accepted request is
    refused, with 401 or 409, and changes nothing. *)
Lemma replay_never_accepted env now1 now2 req s resp1 s1 :
  run (ingest env now1 req) s = (resp1, s1) ->
  status resp1 = 200 ->
  exists resp2,
    run (ingest env now2 req) s1 = (resp2, s1)
    /\ (status resp2 = 401 \/ status resp2 = 409).
Proof.
  intros Hrun Hst.
  destruct (ingest_past_verify _ _ _ _ _ _ Hrun (or_introl Hst))
    as [v [Hv [_ Hproc]]].
  pose proof (ingest_process_frame now1 v (with_nonce now1 req v s)) as Hframe.
  rewrite Hproc in Hframe. simpl in Hframe.
  destruct (validateTimestamp now2 (or_empty (x_timestamp req))) eqn:Hfresh.
  - destruct (accepts_token env now2 req) eqn:Htok.
    + exists replay_detected. split; [| right; reflexivity].
      eapply replay_after; try eassumption; try reflexivity; apply Hv.
    + destruct Hv as [Hm Ha Ht Hn Hs _ _ _ _ _ _ _].
      unfold accepts_token, token_of in Htok.
      destruct (verifyAgentJWT env now2 _) as [ids | msg] eqn:Hj; [discriminate |].
      exists (errorResponse ("JWT verification failed: " ++ msg)%string 401).
      split; [| left; reflexivity].
      unfold ingest, ingest_verify. rewrite run_bind.
      rewrite Hm, Ha, Ht, Hn, Hs, Hfresh. simpl. rewrite Hj. reflexivity.
  - exists (errorResponse "Invalid or expired timestamp" 401).
    split; [| left; reflexivity].
    destruct Hv as [Hm Ha Ht Hn Hs _ _ _ _ _ _ _].
    unfold ingest, ingest_verify. rewrite run_bind.
    rewrite Hm, Ha, Ht, Hn, Hs, Hfresh. reflexivity.
Qed.

Lemma ingest_commit_response now orgId agentId srv d s :
  fst (run (ingest_commit now orgId agentId srv d) s) = jsonResponse (BIngest now) 200.
Proof.
  unfold ingest_commit.
  repeat (rewrite run_bind; destruct (run _ _)).
  reflexivity.
Qed.









Lemma with_nonce_telemetry now req v s :
  telemetry (with_nonce now req v s) = telemetry s.
Proof. reflexivity. Qed.


End IngestProperties.


(* ===================================================================== *)
(** ** Properties of /enroll *)
(* ===================================================================== *)

Section EnrollProperties.
Context {PF : Platform}.

Lemma host_lookup_stable org machine l l' srv :
  map srv_ident l' = map srv_ident l ->
  filter (same_host org machine) l = [srv] ->
  exists srv', filter (same_host org machine) l' = [srv']
               /\ srv_ident srv' = srv_ident srv.
Proof.
  intros Hmap Hsel.
  pose proof (filter_same_ident srv_ident
                (fun i => String.eqb (i_org_id i) org
                          && String.eqb (i_machine_id i) machine) _ _ Hmap) as H.
  simpl in H. fold (same_host org machine) in H. rewrite Hsel in H. simpl in H.
  destruct (filter (same_host org machine) l') as [| srv' [| y t]]; simpl in H;
    try discriminate.
  exists srv'. split; [reflexivity |].
  inversion H. unfold srv_ident. congruence.
Qed.

(** What /enroll answers when the host is already on record: the stored
    agent id, signing secret and refresh token, and no new row. *)
Lemma enroll_existing env now rnd req s j parsed org srv jwt :
  method req = "POST" ->
  JSON_parse (body req) = Some j ->
  safeParse EnrollRequestSchema j = SafeParseSuccess parsed ->
  createServiceClient env = Normal tt ->
  filter (fun o => String.eqb (enroll_secret_hash o)
                              (hashSecret (org_enroll_secret parsed)))
         (tbl_orgs s) = [org] ->
  filter (same_host (org_id org) (machine_id (host_facts parsed)))
         (tbl_servers s) = [srv] ->
  createAgentJWT env now (srv_agent_id srv) (org_id org) = Normal jwt ->
  fst (run (enroll env now rnd req) s)
  = jsonResponse (BEnroll (srv_agent_id srv) jwt (srv_refresh_token srv)
                          (srv_hmac_secret srv) (org_id org)) 200
  /\ map srv_ident (tbl_servers (snd (run (enroll env now rnd req) s)))
     = map srv_ident (tbl_servers s).
Proof.
  intros Hm Hj Hp Hc Horg Hsrv Hjwt.
  unfold enroll. rewrite Hm. simpl. rewrite Hj, Hp, Hc.
  simpl. rewrite Horg. simpl.
  unfold same_host in Hsrv. rewrite Hsrv. simpl.
  destruct (fits_facts (host_facts parsed)); simpl; rewrite Hjwt; simpl;
    (split; [reflexivity |]); [apply map_ident_with_facts | reflexivity].
Qed.

Lemma createAgentJWT_again env now1 now2 a o j1 a' o' :
  createAgentJWT env now1 a o = Normal j1 ->
  exists j2, createAgentJWT env now2 a' o' = Normal j2.
Proof.
  unfold createAgentJWT. destruct (negb (truthy (JWT_SECRET env)));
    [discriminate | eauto].
Qed.

(** X9: enrollment is idempotent whenever the first call left the host
    on record, that is, unless its [INSERT] was refused: the second call
    returns the same agent id, signing secret and refresh token, and adds
    no row. *)
Lemma reenroll_same_credentials env now1 now2 rnd1 rnd2 req s s1
      agentId jwt1 refreshToken hmacSecret orgId :
  run (enroll env now1 rnd1 req) s
  = (jsonResponse (BEnroll agentId jwt1 refreshToken hmacSecret orgId) 200, s1) ->
  refused_writes (enroll env now1 rnd1 req) s = [] ->
  exists jwt2,
    fst (run (enroll env now2 rnd2 req) s1)
    = jsonResponse (BEnroll agentId jwt2 refreshToken hmacSecret orgId) 200
    /\ map srv_ident (tbl_servers (snd (run (enroll env now2 rnd2 req) s1)))
       = map srv_ident (tbl_servers s1).
Proof.
  intros Hrun Hrefused.
  assert (Hpre : exists j parsed org srv,
             method req = "POST" /\ JSON_parse (body req) = Some j
             /\ safeParse EnrollRequestSchema j = SafeParseSuccess parsed
             /\ createServiceClient env = Normal tt
             /\ filter (fun o => String.eqb (enroll_secret_hash o)
                                   (hashSecret (org_enroll_secret parsed)))
                       (tbl_orgs s1) = [org]
             /\ filter (same_host (org_id org) (machine_id (host_facts parsed)))
                       (tbl_servers s1) = [srv]
             /\ srv_agent_id srv = agentId /\ srv_refresh_token srv = refreshToken
             /\ srv_hmac_secret srv = hmacSecret /\ org_id org = orgId
             /\ createAgentJWT env now1 agentId orgId = Normal jwt1).
  { revert Hrun Hrefused. unfold enroll.
    destruct (String.eqb (method req) "OPTIONS"); [discriminate |].
    destruct (String.eqb_spec (method req) "POST") as [Hm | Hm]; simpl;
      [| discriminate].
    destruct (JSON_parse (body req)) as [j |]; [| discriminate].
    destruct (safeParse EnrollRequestSchema j) as [parsed | issues] eqn:Hp;
      [| discriminate].
    destruct (createServiceClient env) as [[] | msg]; [| discriminate].
    simpl.
    destruct (single_cases
                (filter (fun o => String.eqb (enroll_secret_hash o)
                                    (hashSecret (org_enroll_secret parsed)))
                        (tbl_orgs s)))
      as [[org [Horg ->]] | [-> _]]; simpl; [| discriminate].
    fold (same_host (org_id org) (machine_id (host_facts parsed))).
    destruct (single_cases
                (filter (same_host (org_id org) (machine_id (host_facts parsed)))
                        (tbl_servers s)))
      as [[srv [Hsrv ->]] | [-> Hnone]]; simpl.
    - (* re-enrollment *)
      destruct (createAgentJWT env now1 (srv_agent_id srv) (org_id org))
        as [jwt |] eqn:Hjwt; [| destruct (fits_facts _); discriminate].
      intros Hrun _.
      assert (Hs1 : tbl_orgs s1 = tbl_orgs s
                    /\ map srv_ident (tbl_servers s1) = map srv_ident (tbl_servers s)
                    /\ jsonResponse (BEnroll (srv_agent_id srv) jwt
                                       (srv_refresh_token srv) (srv_hmac_secret srv)
                                       (org_id org)) 200
                       = jsonResponse (BEnroll agentId jwt1 refreshToken hmacSecret
                                               orgId) 200).
      { destruct (fits_facts (host_facts parsed)); simpl in Hrun;
          injection Hrun as <- <- <- <- <- <-; simpl;
          repeat split; try reflexivity. apply map_ident_with_facts. }
      destruct Hs1 as [Ho [Hmap Hresp]].
      injection Hresp as <- <- <- <- <-.
      destruct (host_lookup_stable _ _ _ _ _ Hmap Hsrv) as [srv' [Hsel Hid]].
      exists j, parsed, org, srv'. rewrite Ho.
      unfold srv_ident in Hid. injection Hid as _ _ Ha _ Hh Hr.
      repeat split; auto.
    - (* new enrollment *)
      destruct (createAgentJWT env now1 (randomUUID rnd1) (org_id org))
        as [jwt |] eqn:Hjwt;
        [| intros Hrun; exfalso; revert Hrun;
           repeat match goal with
                  | |- context [if ?c then _ else _] => destruct c
                  end; discriminate].
      destruct (fits_facts (host_facts parsed)); simpl; [| discriminate].
      destruct (existsb _ (tbl_servers s)) eqn:Hex; simpl; [discriminate |].
      destruct (existsb _ (tbl_orgs s)) eqn:Hexo; simpl; [| discriminate].
      intros Hrun _. injection Hrun as <- <- <- <- <- <-.
      exists j, parsed, org.
      eexists. repeat split; try eassumption; try reflexivity.
      simpl. rewrite filter_app.
      assert (Hno : filter (same_host (org_id org) (machine_id (host_facts parsed)))
                           (tbl_servers s) = []).
      { apply existsb_false_filter. 
        rewrite <- not_true_iff_false in *. intros Hc. apply Hex.
        apply existsb_exists in Hc. destruct Hc as [x [Hin Hx]].
        apply existsb_exists. exists x. split; [exact Hin |].
        simpl. unfold same_host in Hx. rewrite Hx. apply orb_true_r. }
      rewrite Hno. simpl. unfold same_host. simpl. rewrite !String.eqb_refl.
      reflexivity.
      all: reflexivity. }
  destruct Hpre as (j & parsed & org & srv & Hm & Hj & Hp & Hc & Horg & Hsrv
                    & <- & <- & <- & <- & Hjwt).
  destruct (createAgentJWT_again env now1 now2 _ _ _ (srv_agent_id srv) (org_id org) Hjwt)
    as [jwt2 Hjwt2].
  exists jwt2. eapply enroll_existing; eassumption.
Qed.

End EnrollProperties.


(* ===================================================================== *)
(** ** Properties of the scheduled functions *)
(* ===================================================================== *)

Section ScheduledProperties.
Context {PF : Platform}.

(** *** The invocation secret *)

Lemma cron_rejected_spec env req :
  cron_rejected env req = true <->
  exists secret, CRON_SECRET env = Some secret /\ secret <> ""
                 /\ authorization req <> Some ("Bearer " ++ secret)%string.
Proof.
  unfold cron_rejected, truthy, or_empty.
  destruct (CRON_SECRET env) as [secret |].
  - destruct (String.eqb_spec secret "") as [-> | Hne].
    + split; [intros H; inversion H |].
      intros (c & E & Hc & _). inversion E; subst. contradiction.
    + destruct (authorization req) as [h |].
      * destruct (String.eqb_spec h ("Bearer " ++ secret)) as [-> | Hh].
        -- split; [intros H; inversion H |].
           intros (c & E & _ & Hc). inversion E; subst. contradiction.
        -- split; [| reflexivity]. intros _. exists secret.
           repeat split; auto. intros E. inversion E. contradiction.
      * split; [| reflexivity]. intros _. exists secret.
        repeat split; auto. discriminate.
  - split; [intros H; inversion H | intros (c & E & _); discriminate].
Qed.

Lemma open_alerts_total now l c s : exists c' s', run (open_alerts now l c) s = (c', s').
Proof. destruct (run (open_alerts now l c) s); eauto. Qed.

(** *** Rollups *)

(** C8: whatever the store, the clock and the request, the rollup builder
    sends at most one statement, the 1-minute one; [rollup1hQuery] is
    never sent, and [heartbeats_rollup_1h] is left as it was.  No hourly
    aggregate row is ever computed, once or twice. *)
Theorem rollup_builder_skips_hourly env now req s :
  all_stmts only_rollup_1m (rollup_builder env now req)
  /\ tbl_rollup_1h (snd (run (rollup_builder env now req) s)) = tbl_rollup_1h s.
Proof.
  unfold rollup_builder.
  destruct (cron_rejected env req); [split; [exact I | reflexivity] |].
  destruct (createServiceClient env); [| split; [exact I | reflexivity]].
  split.
  - simpl. split; [reflexivity | intros _; exact I].
  - simpl. destruct (upsert_all _ _); reflexivity.
Qed.

Lemma same_bucket_refl r : same_bucket r r = true.
Proof. unfold same_bucket. rewrite Nat.eqb_refl, Z.eqb_refl. reflexivity. Qed.

Lemma same_bucket_overwrite r r' x : same_bucket r (overwrite r' x) = same_bucket r x.
Proof. reflexivity. Qed.

Lemma same_bucket_trans_false r r' x :
  same_bucket r r' = false -> same_bucket r' x = true -> same_bucket r x = false.
Proof.
  unfold same_bucket. rewrite !andb_true_iff, !andb_false_iff.
  rewrite !Nat.eqb_eq, !Z.eqb_eq, !Nat.eqb_neq, !Z.eqb_neq.
  intros [H | H] [E1 E2]; [left | right]; congruence.
Qed.

Lemma overwrite_self r : overwrite r r = r.
Proof. destruct r; reflexivity. Qed.

Lemma map_id_on {A} (g : A -> A) (l : list A) :
  (forall x, In x l -> g x = x) -> map g l = l.
Proof.
  induction l as [| a l IH]; simpl; intros H; [reflexivity |].
  rewrite H by auto. rewrite IH by auto. reflexivity.
Qed.

Lemma upsert_settled r tbl : settled r tbl -> upsert r tbl = tbl.
Proof.
  intros [He Hx]. unfold upsert. rewrite He. apply map_id_on, Hx.
Qed.

Lemma existsb_map_put r r' tbl :
  existsb (same_bucket r) (map (put r') tbl) = existsb (same_bucket r) tbl.
Proof.
  induction tbl as [| x l IH]; simpl; [reflexivity |].
  rewrite IH. f_equal. unfold put. destruct (same_bucket r' x); reflexivity.
Qed.

Lemma settled_upsert_self r tbl : settled r (upsert r tbl).
Proof.
  unfold upsert. destruct (existsb (same_bucket r) tbl) eqn:He.
  - split.
    + fold (put r). rewrite existsb_map_put. exact He.
    + intros x Hin. apply in_map_iff in Hin. destruct Hin as [y [<- _]].
      unfold put. destruct (same_bucket r y) eqn:E.
      * rewrite same_bucket_overwrite, E. reflexivity.
      * rewrite E. reflexivity.
  - split.
    + rewrite existsb_app. simpl. rewrite same_bucket_refl.
      rewrite orb_true_r. reflexivity.
    + intros x Hin. apply in_app_iff in Hin. destruct Hin as [Hin | [<- | []]].
      * unfold put. destruct (same_bucket r x) eqn:E; [| reflexivity].
        exfalso. rewrite <- not_true_iff_false in He. apply He.
        apply existsb_exists. eauto.
      * unfold put. rewrite same_bucket_refl. apply overwrite_self.
Qed.

Lemma settled_upsert_other r r' tbl :
  same_bucket r' r = false -> settled r tbl -> settled r (upsert r' tbl).
Proof.
  intros Hd [He Hx]. 
  assert (Hd' : same_bucket r r' = false).
  { unfold same_bucket in *. rewrite (Nat.eqb_sym (ru_server_id r)), (Z.eqb_sym (ru_bucket r)).
    exact Hd. }
  unfold upsert. destruct (existsb (same_bucket r') tbl) eqn:He'.
  - split.
    + fold (put r'). rewrite existsb_map_put. exact He.
    + intros x Hin. apply in_map_iff in Hin. destruct Hin as [y [<- Hy]].
      destruct (same_bucket r' y) eqn:E.
      * unfold put. rewrite same_bucket_overwrite.
        rewrite (same_bucket_trans_false r r' y Hd' E). reflexivity.
      * apply Hx, Hy.
  - split.
    + rewrite existsb_app, He. reflexivity.
    + intros x Hin. apply in_app_iff in Hin. destruct Hin as [Hin | [<- | []]].
      * apply Hx, Hin.
      * unfold put. rewrite Hd'. reflexivity.
Qed.

Lemma settled_fold r rs tbl :
  existsb (same_bucket r) rs = false ->
  settled r tbl -> settled r (fold_left (fun t x => upsert x t) rs tbl).
Proof.
  revert tbl. induction rs as [| r' rs IH]; simpl; intros tbl Hn Hs; [exact Hs |].
  apply orb_false_iff in Hn. destruct Hn as [Hr Hrs].
  apply IH; [exact Hrs |]. apply settled_upsert_other; [| exact Hs].
  unfold same_bucket in *. rewrite (Nat.eqb_sym (ru_server_id r')), (Z.eqb_sym (ru_bucket r')).
  exact Hr.
Qed.

Lemma fold_upsert_settles rs tbl :
  conflict_free rs = true ->
  forall r, In r rs -> settled r (fold_left (fun t x => upsert x t) rs tbl).
Proof.
  revert tbl. induction rs as [| r0 rs IH]; simpl; intros tbl Hcf r Hin; [contradiction |].
  apply andb_true_iff in Hcf. destruct Hcf as [Hn Hcf].
  apply negb_true_iff in Hn.
  destruct Hin as [<- | Hin].
  - apply settled_fold; [exact Hn | apply settled_upsert_self].
  - apply IH; assumption.
Qed.

Lemma fold_upsert_fixed rs tbl :
  (forall r, In r rs -> settled r tbl) ->
  fold_left (fun t x => upsert x t) rs tbl = tbl.
Proof.
  induction rs as [| r rs IH]; simpl; intros H; [reflexivity |].
  rewrite upsert_settled by auto. apply IH. auto.
Qed.

(** Upserting the same rows a second time changes nothing. *)
Lemma upsert_all_idempotent rs tbl tbl' :
  upsert_all rs tbl = Some tbl' -> upsert_all rs tbl' = Some tbl'.
Proof.
  unfold upsert_all. destruct (conflict_free rs) eqn:Hcf; [| discriminate].
  intros H. injection H as <-. f_equal.
  apply fold_upsert_fixed. intros r Hin. apply fold_upsert_settles; assumption.
Qed.

Lemma rollup_window_same width with_max lo hi1 hi2 hbs :
  (hi1 <= hi2)%Z ->
  (forall h, In h hbs -> (row_ts h < hi1 \/ hi2 <= row_ts h)%Z) ->
  rollup_select width with_max lo hi2 hbs = rollup_select width with_max lo hi1 hbs.
Proof.
  intros Hle Hout. unfold rollup_select.
  assert (E : filter (fun r => (lo <=? row_ts r)%Z && (row_ts r <? hi2)%Z) hbs
              = filter (fun r => (lo <=? row_ts r)%Z && (row_ts r <? hi1)%Z) hbs).
  { apply filter_ext_in. intros h Hin. f_equal.
    destruct (Hout h Hin) as [H | H];
      destruct (Z.ltb_spec (row_ts h) hi2), (Z.ltb_spec (row_ts h) hi1);
      try reflexivity; lia. }
  rewrite E. reflexivity.
Qed.

(** X17: running the rollup builder again is harmless within one
    bucket.  After a run answered 200 at [now1], a run at a later clock
    value [now2] whose 1-minute bucket start is the same, over a
    heartbeats table that holds no row stamped from [now1] up to [now2],
    leaves the store exactly as the first run produced it: the window
    selects the same heartbeats and [ON CONFLICT (server_id, bucket) DO
    UPDATE] overwrites with the same aggregates. *)
Theorem rollup_rerun_idempotent env now1 now2 req1 req2 s :
  (now1 <= now2)%Z ->
  ((now1 - 2 * 60 * 1000) / (60 * 1000) = (now2 - 2 * 60 * 1000) / (60 * 1000))%Z ->
  (forall h, In h (tbl_heartbeats s) -> (row_ts h < now1 \/ now2 <= row_ts h)%Z) ->
  status (fst (run (rollup_builder env now1 req1) s)) = 200 ->
  let s1 := snd (run (rollup_builder env now1 req1) s) in
  snd (run (rollup_builder env now2 req2) s1) = s1.
Proof.
  intros Hle Hb Hout. unfold rollup_builder.
  destruct (cron_rejected env req1); [discriminate |].
  destruct (createServiceClient env); [| discriminate].
  intros _.
  destruct (cron_rejected env req2); [reflexivity |].
  rewrite <- Hb.
  cbn [bind query run exec]. rewrite String.eqb_refl. cbn [run_sql].
  destruct (upsert_all _ (tbl_rollup_1m s)) as [t |] eqn:Hu; cbn [fst snd run].
  - cbn [tbl_heartbeats set_rollup_1m tbl_rollup_1m].
    rewrite (rollup_window_same _ _ _ now1 now2 _ Hle Hout).
    rewrite (upsert_all_idempotent _ _ _ Hu). reflexivity.
  - rewrite (rollup_window_same _ _ _ now1 now2 _ Hle Hout), Hu. reflexivity.
Qed.

End ScheduledProperties.

(* ===================================================================== *)
(** ** Properties of the offline detector *)
(* ===================================================================== *)

Section OfflineProperties.
Context {PF : Platform}.

Lemma is_open_offline_server sid a :
  is_open_offline sid a = true -> al_server_id a = sid.
Proof.
  unfold is_open_offline, alert_matches. rewrite !andb_true_iff, Nat.eqb_eq. tauto.
Qed.

Lemma is_open_offline_cleared sid a :
  is_open_offline sid (with_status "cleared" a) = false.
Proof.
  unfold is_open_offline, alert_matches. simpl. apply andb_false_r.
Qed.

Lemma is_open_offline_other sid sid' a :
  is_open_offline sid a = true -> sid' <> sid -> is_open_offline sid' a = false.
Proof.
  intros H Hne. apply is_open_offline_server in H.
  unfold is_open_offline, alert_matches. subst sid.
  destruct (Nat.eqb_spec (al_server_id a) sid'); [congruence | reflexivity].
Qed.

(** Updating by a key changes exactly the one row that carries it. *)
Lemma update_by_key (g : AlertRow -> AlertRow) (a : AlertRow) (l : list AlertRow) :
  NoDup (map al_id l) -> In a l ->
  exists l1 l2,
    l = l1 ++ a :: l2
    /\ map (fun x => if Nat.eqb (al_id x) (al_id a) then g x else x) l
       = l1 ++ g a :: l2.
Proof.
  intros Hnd Hin. destruct (in_split _ _ Hin) as [l1 [l2 ->]].
  exists l1, l2. split; [reflexivity |].
  rewrite map_app in Hnd. simpl in Hnd.
  assert (H1 : forall x, In x l1 -> al_id x <> al_id a).
  { intros x Hx E. apply NoDup_remove_2 in Hnd. apply Hnd.
    apply in_or_app. left. rewrite <- E. apply in_map, Hx. }
  assert (H2 : forall x, In x l2 -> al_id x <> al_id a).
  { intros x Hx E. apply NoDup_remove_2 in Hnd. apply Hnd.
    apply in_or_app. right. rewrite <- E. apply in_map, Hx. }
  rewrite map_app. simpl. rewrite Nat.eqb_refl. f_equal; [| f_equal].
  - apply map_id_on. intros x Hx. apply H1 in Hx.
    apply Nat.eqb_neq in Hx. rewrite Hx. reflexivity.
  - apply map_id_on. intros x Hx. apply H2 in Hx.
    apply Nat.eqb_neq in Hx. rewrite Hx. reflexivity.
Qed.

Lemma filter_singleton_split {A} (p : A -> bool) (l1 l2 : list A) (a : A) :
  p a = true ->
  filter p (l1 ++ a :: l2) = [a] -> filter p l1 = [] /\ filter p l2 = [].
Proof.
  rewrite filter_app. simpl. intros Hp H. rewrite Hp in H.
  assert (Hlen := f_equal (@List.length A) H).
  rewrite length_app in Hlen. simpl in Hlen.
  destruct (filter p l1); [| simpl in Hlen; lia].
  destruct (filter p l2); [auto | simpl in Hlen; lia].
Qed.

Lemma open_count_insert sid s a :
  open_count sid
    (bump_id (set_alerts
       (tbl_alerts s ++
        [mkAlertRow (next_id s) (na_org_id a) (na_server_id a) (na_ts a) "offline"
                    (na_severity a) (na_message a) "open"]) s))
  = open_count sid s + (if Nat.eqb (na_server_id a) sid then 1 else 0).
Proof.
  unfold open_count. simpl. rewrite filter_app, length_app. f_equal.
  simpl. unfold is_open_offline, alert_matches. simpl.
  destruct (Nat.eqb (na_server_id a) sid); reflexivity.
Qed.

Lemma alerts_keyed_insert s r :
  alerts_keyed s ->
  al_id r = next_id s ->
  alerts_keyed (bump_id (set_alerts (tbl_alerts s ++ [r]) s)).
Proof.
  intros [Hnd Hlt] Hid. split; simpl.
  - rewrite map_app. simpl. rewrite Hid.
    apply NoDup_app.
    + exact Hnd.
    + constructor; [intros [] | constructor].
    + intros x Hx [<- | []].
      apply in_map_iff in Hx. destruct Hx as [a [E Ha]].
      apply Hlt in Ha. lia.
  - intros a Ha. apply in_app_iff in Ha. destruct Ha as [Ha | [<- | []]].
    + apply Hlt in Ha. lia.
    + lia.
Qed.

(** The first loop: every listed host ends with exactly one open alert,
    the others keep theirs. *)
Lemma open_alerts_spec now l : forall c s,
  one_open_offline s -> alerts_keyed s ->
  let s' := snd (run (open_alerts now l c) s) in
  tbl_servers s' = tbl_servers s
  /\ alerts_keyed s'
  /\ forall sid, open_count sid s' = if listed sid l then 1 else open_count sid s.
Proof.
  induction l as [| srv rest IH]; intros c s Hone Hkey; simpl.
  - auto.
  - pose proof (Hone (srv_id srv)) as Hle. unfold open_count in Hle.
    fold (is_open_offline (srv_id srv)).
    destruct (filter (is_open_offline (srv_id srv)) (tbl_alerts s))
      as [| a [| b t]] eqn:Hf; simpl in Hle; [| | lia]; simpl.
    + (* no open alert: one is inserted *)
      set (s1 := bump_id (set_alerts _ s)).
      assert (Hc1 : forall sid, open_count sid s1
                                = open_count sid s + (if Nat.eqb (srv_id srv) sid then 1 else 0)).
      { intros sid. apply (open_count_insert sid s
                             (mkNewAlert (srv_org_id srv) (srv_id srv) now "offline"
                                         "critical" _ "open")). }
      assert (Hone1 : one_open_offline s1).
      { intros sid. rewrite Hc1. destruct (Nat.eqb_spec (srv_id srv) sid) as [<- |].
        - unfold open_count. rewrite Hf. simpl. lia.
        - pose proof (Hone sid). lia. }
      assert (Hkey1 : alerts_keyed s1) by (apply alerts_keyed_insert; auto).
      destruct (IH c s1 Hone1 Hkey1) as [Hs [Hk Hcount]].
      specialize (IH (S c) s1 Hone1 Hkey1). destruct IH as [Hs' [Hk' Hcount']].
      split; [exact Hs' | split; [exact Hk' |]].
      intros sid. rewrite Hcount'. unfold listed. simpl.
      fold (listed sid rest). destruct (listed sid rest); [rewrite orb_true_r; reflexivity |].
      rewrite orb_false_r, Hc1. rewrite (Nat.eqb_sym sid).
      destruct (Nat.eqb_spec (srv_id srv) sid) as [<- |]; [| lia].
      unfold open_count. rewrite Hf. reflexivity.
    + (* an open alert exists: nothing is inserted *)
      destruct (IH c s Hone Hkey) as [Hs [Hk Hcount]].
      split; [exact Hs | split; [exact Hk |]].
      intros sid. rewrite Hcount. unfold listed. simpl.
      fold (listed sid rest). destruct (listed sid rest); [rewrite orb_true_r; reflexivity |].
      rewrite orb_false_r.
      destruct (Nat.eqb_spec sid (srv_id srv)) as [-> |]; [| reflexivity].
      unfold open_count. rewrite Hf. reflexivity.
Qed.

Lemma open_count_clear sid0 sid s a :
  alerts_keyed s ->
  filter (is_open_offline sid0) (tbl_alerts s) = [a] ->
  open_count sid
    (set_alerts
       (map (fun x => if Nat.eqb (al_id x) (al_id a) then with_status "cleared" x
                      else x) (tbl_alerts s)) s)
  = if Nat.eqb sid sid0 then 0 else open_count sid s.
Proof.
  intros [Hnd _] Hf.
  assert (Hin : In a (filter (is_open_offline sid0) (tbl_alerts s)))
    by (rewrite Hf; left; reflexivity).
  apply filter_In in Hin. destruct Hin as [Hin Hpa].
  destruct (update_by_key (with_status "cleared") a _ Hnd Hin) as [l1 [l2 [El Em]]].
  unfold open_count. simpl. rewrite Em, El.
  rewrite !filter_app. simpl. rewrite is_open_offline_cleared.
  destruct (Nat.eqb_spec sid sid0) as [-> | Hne].
  - rewrite El in Hf. destruct (filter_singleton_split _ _ _ _ Hpa Hf) as [-> ->].
    reflexivity.
  - rewrite (is_open_offline_other sid0 sid a Hpa Hne). reflexivity.
Qed.

Lemma alerts_keyed_update s g :
  (forall a, al_id (g a) = al_id a) ->
  alerts_keyed s -> alerts_keyed (set_alerts (map g (tbl_alerts s)) s).
Proof.
  intros Hg [Hnd Hlt]. 
  assert (E : map al_id (map g (tbl_alerts s)) = map al_id (tbl_alerts s)).
  { rewrite map_map. apply map_ext. exact Hg. }
  split; simpl.
  - rewrite E. exact Hnd.
  - intros a Ha. apply in_map_iff in Ha. destruct Ha as [x [<- Hx]].
    rewrite Hg. apply Hlt, Hx.
Qed.

(** The second loop: every listed host ends with no open alert, the
    others keep theirs. *)
Lemma clear_alerts_spec l : forall c s,
  one_open_offline s -> alerts_keyed s ->
  let s' := snd (run (clear_alerts l c) s) in
  tbl_servers s' = tbl_servers s
  /\ alerts_keyed s'
  /\ forall sid, open_count sid s' = if listed sid l then 0 else open_count sid s.
Proof.
  induction l as [| srv rest IH]; intros c s Hone Hkey; simpl.
  - auto.
  - pose proof (Hone (srv_id srv)) as Hle. unfold open_count in Hle.
    fold (is_open_offline (srv_id srv)).
    destruct (filter (is_open_offline (srv_id srv)) (tbl_alerts s))
      as [| a [| b t]] eqn:Hf; simpl in Hle; [| | lia]; simpl.
    + (* nothing to clear *)
      destruct (IH c s Hone Hkey) as [Hs [Hk Hcount]].
      split; [exact Hs | split; [exact Hk |]].
      intros sid. rewrite Hcount. unfold listed. simpl.
      fold (listed sid rest). destruct (listed sid rest); [rewrite orb_true_r; reflexivity |].
      rewrite orb_false_r.
      destruct (Nat.eqb_spec sid (srv_id srv)) as [-> |]; [| reflexivity].
      unfold open_count. rewrite Hf. reflexivity.
    + (* the open alert is cleared *)
      set (s1 := set_alerts _ s).
      assert (Hc1 : forall sid, open_count sid s1
                                = if Nat.eqb sid (srv_id srv) then 0 else open_count sid s).
      { intros sid. apply open_count_clear; assumption. }
      assert (Hone1 : one_open_offline s1).
      { intros sid. rewrite Hc1. destruct (Nat.eqb sid (srv_id srv)); [lia | apply Hone]. }
      assert (Hkey1 : alerts_keyed s1).
      { apply alerts_keyed_update; [| exact Hkey].
        intros x. destruct (Nat.eqb (al_id x) (al_id a)); reflexivity. }
      destruct (IH (S c) s1 Hone1 Hkey1) as [Hs [Hk Hcount]].
      split; [exact Hs | split; [exact Hk |]].
      intros sid. rewrite Hcount. unfold listed. simpl.
      fold (listed sid rest). destruct (listed sid rest); [rewrite orb_true_r; reflexivity |].
      rewrite orb_false_r, Hc1. reflexivity.
Qed.

Lemma one_open_offline_of_counts s s' (f : nat -> bool) n :
  n <= 1 -> one_open_offline s ->
  (forall sid, open_count sid s' = if f sid then n else open_count sid s) ->
  one_open_offline s'.
Proof.
  intros Hn Hone H sid. rewrite H. destruct (f sid); [exact Hn | apply Hone].
Qed.

Lemma listed_filter sid (p : ServerRow -> bool) l :
  listed sid (filter p l) = existsb (fun r => Nat.eqb sid (srv_id r) && p r) l.
Proof.
  unfold listed. induction l as [| r l IH]; simpl; [reflexivity |].
  destruct (p r); simpl; rewrite IH.
  - rewrite andb_true_r. reflexivity.
  - rewrite andb_false_r. reflexivity.
Qed.

Lemma keyed_lookup (p : ServerRow -> bool) l srv :
  NoDup (map srv_id l) -> In srv l ->
  existsb (fun r => Nat.eqb (srv_id srv) (srv_id r) && p r) l = p srv.
Proof.
  intros Hnd Hin. destruct (p srv) eqn:Hp.
  - apply existsb_exists. exists srv. rewrite Nat.eqb_refl, Hp. auto.
  - rewrite <- not_true_iff_false. intros H. apply existsb_exists in H.
    destruct H as [r [Hr H]]. apply andb_true_iff in H. destruct H as [E Hpr].
    apply Nat.eqb_eq in E.
    assert (r = srv); [| congruence].
    clear Hp Hpr. induction l as [| x l IH]; [contradiction |].
    simpl in Hnd. inversion Hnd as [| ? ? Hnotin Hnd']; subst.
    destruct Hr as [-> | Hr], Hin as [<- | Hin]; auto.
    + exfalso. apply Hnotin. rewrite <- E. apply in_map, Hin.
    + exfalso. apply Hnotin. rewrite E. apply in_map, Hr.
Qed.

(** What one run of the detector does, and what it preserves. *)
Lemma offline_detector_run env now req s :
  one_open_offline s -> alerts_keyed s ->
  let r := run (offline_detector env now req) s in
  one_open_offline (snd r) /\ alerts_keyed (snd r)
  /\ tbl_servers (snd r) = tbl_servers s
  /\ (status (fst r) = 200 ->
      forall sid,
        open_count sid (snd r)
        = if listed sid (filter (fun r => (now - OFFLINE_THRESHOLD_MINUTES * 60 * 1000
                                           <=? srv_last_seen r)%Z) (tbl_servers s))
          then 0
          else if listed sid (filter (fun r => (srv_last_seen r <?
                                                now - OFFLINE_THRESHOLD_MINUTES * 60 * 1000)%Z)
                                             (tbl_servers s))
               then 1 else open_count sid s).
Proof.
  intros Hone Hkey. unfold offline_detector.
  destruct (cron_rejected env req); [simpl; split; [| split; [| split]]; auto; intros H; discriminate H |].
  destruct (createServiceClient env); [| simpl; split; [| split; [| split]]; auto; intros H; discriminate H].
  simpl. unfold rows_or_empty. simpl.
  set (cutoff := (now - 600000)%Z).
  set (offline := filter (fun r => (srv_last_seen r <? cutoff)%Z) (tbl_servers s)).
  rewrite run_bind.
  destruct (open_alerts_spec now offline 0 s Hone Hkey) as [Hs1 [Hk1 Hc1]].
  destruct (run (open_alerts now offline 0) s) as [created s1]. simpl in Hs1, Hk1, Hc1.
  assert (Hone1 : one_open_offline s1)
    by (apply (one_open_offline_of_counts s s1 (fun sid => listed sid offline) 1);
        [lia | exact Hone | exact Hc1]).
  simpl. rewrite Hs1, run_bind.
  set (online := filter (fun r => (cutoff <=? srv_last_seen r)%Z) (tbl_servers s)).
  destruct (clear_alerts_spec online 0 s1 Hone1 Hk1) as [Hs2 [Hk2 Hc2]].
  destruct (run (clear_alerts online 0) s1) as [cleared s2]. simpl in Hs2, Hk2, Hc2.
  simpl. split; [| split; [exact Hk2 | split; [congruence |]]].
  - apply (one_open_offline_of_counts s1 s2 (fun sid => listed sid online) 0);
      [lia | exact Hone1 | exact Hc2].
  - intros _ sid. rewrite Hc2, Hc1. reflexivity.
Qed.

(** X30: from a store in which no host has two open "offline" alerts (and
    ids are keys), a run of the detector that answers 200 leaves every host
    whose last-seen is more than 10 minutes old with exactly one open
    "offline" alert and every other host, in particular one that has sent
    a heartbeat since, with none; at most one open "offline" alert per
    host holds after the run and after any further run. *)
Theorem offline_detector_alerts env now now2 req req2 s resp s' :
  one_open_offline s -> alerts_keyed s ->
  NoDup (map srv_id (tbl_servers s)) ->
  run (offline_detector env now req) s = (resp, s') ->
  status resp = 200 ->
  one_open_offline s'
  /\ one_open_offline (snd (run (offline_detector env now2 req2) s'))
  /\ forall srv, In srv (tbl_servers s) ->
       open_count (srv_id srv) s'
       = if (10 * 60 * 1000 <? now - srv_last_seen srv)%Z then 1 else 0.
Proof.
  intros Hone Hkey Hnd Hrun Hst.
  destruct (offline_detector_run env now req s Hone Hkey) as [Hone' [Hkey' [_ Hcount]]].
  rewrite Hrun in Hone', Hkey', Hcount. simpl in Hone', Hkey', Hcount.
  split; [exact Hone' | split].
  - apply offline_detector_run; assumption.
  - intros srv Hin. rewrite (Hcount Hst). rewrite !listed_filter.
    rewrite !(keyed_lookup _ _ srv Hnd Hin).
    change (10 * 60 * 1000)%Z with 600000%Z.
    destruct (Z.leb_spec (now - 600000) (srv_last_seen srv)),
             (Z.ltb_spec (srv_last_seen srv) (now - 600000)),
             (Z.ltb_spec 600000 (now - srv_last_seen srv));
      try reflexivity; lia.
Qed.

End OfflineProperties.

(* ===================================================================== *)
(** ** Two requests in flight *)
(* ===================================================================== *)

Section ConcurrencyProperties.
Context {PF : Platform}.



















End ConcurrencyProperties.

(* ===================================================================== *)
(** ** More of /ingest *)
(* ===================================================================== *)

Section MoreIngest.
Context {PF : Platform}.

(** X1: the freshness check as a window on integers: a timestamp the
    [Date] parser reads is accepted exactly when it lies within 300000 ms
    of the server clock, before or after it, both ends included; one it
    cannot read is refused. *)
Theorem timestamp_window (now : Millis) (ts : string) :
  validateTimestamp now ts
  = match Date_parse ts with
    | Some t => ((now - 300000 <=? t) && (t <=? now + 300000))%Z
    | None => false
    end.
Proof.
  unfold validateTimestamp. destruct (Date_parse ts) as [t |]; [| reflexivity].
  rewrite minutes_le_5. apply eq_true_iff_eq.
  rewrite andb_true_iff, !Z.leb_le. lia.
Qed.

(** From [JSON.parse] on: a 422 or 500 that writes nothing, or the commit
    phase and its 200. *)
Lemma ingest_process_cases now v s :
  match run (ingest_process now v) s with
  | (resp, s') =>
      (s' = s /\ (status resp = 422 \/ status resp = 500))
      \/ (resp = jsonResponse (BIngest now) 200
          /\ exists j d, JSON_parse (v_bodyText v) = Some j
                         /\ safeParse IngestPayloadSchema j = SafeParseSuccess d
                         /\ run (ingest_commit now (v_orgId v) (v_agentId v)
                                               (v_server v) d) s = (resp, s'))
  end.
Proof.
  unfold ingest_process.
  destruct (JSON_parse (v_bodyText v)) as [j |]; [| left; simpl; auto].
  destruct (safeParse IngestPayloadSchema j) as [d | issues] eqn:E;
    [| left; simpl; auto].
  pose proof (ingest_commit_response now (v_orgId v) (v_agentId v) (v_server v) d s) as R.
  destruct (run (ingest_commit now (v_orgId v) (v_agentId v) (v_server v) d) s)
    as [resp s'] eqn:Hrun.
  simpl in R. subst resp. right. split; [reflexivity |].
  exists j, d. auto.
Qed.

(** X2: a request that is not answered 200 leaves the store as it found
    it, with one exception: a request that passed every check and then
    failed on its body (422, or 500 for a body that is not JSON) has had
    its nonce recorded, and nothing else. *)
Theorem rejected_request_writes_nothing env now req s resp s' :
  run (ingest env now req) s = (resp, s') ->
  status resp <> 200 ->
  s' = s
  \/ exists v, verified_by env now req s v
               /\ s' = with_nonce now req v s
               /\ (status resp = 422 \/ status resp = 500).
Proof.
  unfold ingest. rewrite run_bind.
  pose proof (ingest_verify_cases env now req s) as Hcases.
  destruct (run (ingest_verify env now req) s) as [[r | v] sm].
  - simpl. intros H _. injection H as _ <-. left. apply Hcases.
  - destruct Hcases as [Hv ->]. intros Hrun Hst.
    pose proof (ingest_process_cases now v (with_nonce now req v s)) as Hp.
    rewrite Hrun in Hp. destruct Hp as [[-> Hs] | [-> _]].
    + right. exists v. auto.
    + simpl in Hst. contradiction.
Qed.

(** *** Attribution of the rows of a batch *)

Lemma appended_for_refl org sid {A} (l : list (Row Millis A)) :
  appended_for org sid l l.
Proof. exists []. split; [symmetry; apply app_nil_r | constructor]. Qed.

Lemma appended_for_trans org sid {A} (l1 l2 l3 : list (Row Millis A)) :
  appended_for org sid l1 l2 -> appended_for org sid l2 l3 ->
  appended_for org sid l1 l3.
Proof.
  intros [a [-> Ha]] [b [-> Hb]]. exists (a ++ b). split.
  - symmetry. apply app_assoc.
  - apply Forall_app. auto.
Qed.

Lemma batch_attributed_refl org sid s : batch_attributed org sid s s.
Proof. constructor; apply appended_for_refl. Qed.

Lemma batch_attributed_trans org sid s1 s2 s3 :
  batch_attributed org sid s1 s2 -> batch_attributed org sid s2 s3 ->
  batch_attributed org sid s1 s3.
Proof.
  intros [] []. constructor; eapply appended_for_trans; eassumption.
Qed.

Lemma stored_rows_tagged org sid {A} (fits : A -> bool) rs out :
  stored_rows fits rs = Some out ->
  Forall (tagged org sid) rs -> Forall (tagged org sid) out.
Proof.
  revert out. induction rs as [| r rs IH]; simpl; intros out H Hall.
  - injection H as <-. constructor.
  - inversion Hall as [| ? ? Hr Hrs]; subst.
    destruct (resolve_ts (row_ts r)); [| discriminate].
    destruct (stored_rows fits rs) as [out' |]; [| discriminate].
    destruct (fits (row_cols r)); [| discriminate].
    injection H as <-. constructor; [exact Hr | apply IH; auto].
Qed.

Lemma insert_rows_attributed org sid {A} (fits : A -> bool) rs tbl put s :
  Forall (tagged org sid) rs ->
  (forall out, Forall (tagged org sid) out ->
               batch_attributed org sid s (put (tbl ++ out) s)) ->
  batch_attributed org sid s (snd (insert_rows fits rs tbl put s)).
Proof.
  intros Hall Hput. unfold insert_rows.
  destruct (stored_rows fits rs) as [out |] eqn:E; simpl.
  - apply Hput. eapply stored_rows_tagged; eassumption.
  - apply batch_attributed_refl.
Qed.

Ltac one_table :=
  let out := fresh "out" in
  let Hout := fresh "Hout" in
  intros out Hout; constructor; simpl; try apply appended_for_refl;
  exists out; auto.

Lemma tagged_write_attributed org sid X (e : dbE X) s :
  tagged_write org sid X e -> batch_attributed org sid s (snd (exec e s)).
Proof.
  destruct e; simpl; try contradiction; intros H;
    try (apply insert_rows_attributed; [exact H | one_table]);
    try (apply insert_rows_attributed;
         [constructor; [exact H | constructor] | one_table]).
  destruct (fits_facts f); simpl; constructor; simpl; apply appended_for_refl.
Qed.

Lemma Forall_map_tag org srv {A B} (ts : A -> TsArg) (g : A -> B) (l : list A) :
  Forall (tagged org (srv_id srv)) (map (fun x => tag org srv (ts x) (g x)) l).
Proof.
  induction l; simpl; constructor; auto. split; reflexivity.
Qed.

Lemma insert_if_any_stmts (P : stmt_class) {A} (rows : list A) stmt :
  P _ stmt -> all_stmts P (insert_if_any rows stmt).
Proof. intros H. destruct rows; simpl; auto. Qed.

Lemma ingest_commit_tagged now orgId agentId srv d :
  all_stmts (tagged_write orgId (srv_id srv)) (ingest_commit now orgId agentId srv d).
Proof.
  unfold ingest_commit.
  repeat (apply all_stmts_bind; [| intros _]);
    try (apply insert_if_any_stmts; simpl);
    try (simpl; split; [| tauto]).
  - exact I.
  - split; reflexivity.
  - apply (Forall_map_tag orgId srv (fun _ => TsIso now) (fun x => x)).
  - apply (Forall_map_tag orgId srv (fun _ => TsIso now) (fun x => x)).
  - apply (Forall_map_tag orgId srv (fun _ => TsIso now)
             (fun proc => mkProcessCols (pid proc) (cmd proc) (proc_cpu_pct proc)
                                        (proc_mem_bytes proc) None)).
  - apply (Forall_map_tag orgId srv (fun _ => TsIso now) (fun x => x)).
  - destruct (updates d); simpl; [| exact I]. split; [split; reflexivity | tauto].
  - apply (Forall_map_tag orgId srv (fun l => TsText (log_ts l)) (fun x => x)).
  - exact I.
Qed.

(** X3: the telemetry tables after an accepted request are the tables
    before it followed by new rows, and every new row carries the
    organisation of the token and the id of the server row that was looked
    up for the token's agent: no existing row is changed or removed, and
    no row is written under another host or tenant. *)
Theorem accepted_batch_attributed env now req s resp s' :
  run (ingest env now req) s = (resp, s') ->
  status resp = 200 ->
  exists v, verified_by env now req s v
            /\ batch_attributed (v_orgId v) (srv_id (v_server v)) s s'.
Proof.
  intros Hrun Hst.
  destruct (ingest_past_verify _ _ _ _ _ _ Hrun (or_introl Hst))
    as [v [Hv [_ Hproc]]].
  exists v. split; [exact Hv |].
  pose proof (ingest_process_cases now v (with_nonce now req v s)) as Hp.
  rewrite Hproc in Hp. destruct Hp as [[_ [H | H]] | [_ [j [d [_ [_ Hc]]]]]];
    [rewrite Hst in H; discriminate | rewrite Hst in H; discriminate |].
  pose proof (run_all_stmts (tagged_write (v_orgId v) (srv_id (v_server v)))
                (batch_attributed (v_orgId v) (srv_id (v_server v)))
                (batch_attributed_refl _ _) (batch_attributed_trans _ _)
                (tagged_write_attributed _ _) _ _ (with_nonce now req v s)
                (ingest_commit_tagged now (v_orgId v) (v_agentId v) (v_server v) d)) as H.
  rewrite Hc in H. simpl in H.
  destruct H as [H1 H2 H3 H4 H5 H6 H7]. constructor; assumption.
Qed.

End MoreIngest.

(** *** Authentication *)

Section Authenticity.
Context {PF : Platform}.

Ltac returned_early := simpl; discriminate.

(** The body the checks hand on is the body of the request, unzipped when
    the request says it is gzip. *)
Lemma ingest_verify_body env now req s v s1 :
  run (ingest_verify env now req) s = (inr v, s1) ->
  match content_encoding req with
  | Some enc => if String.eqb enc "gzip" then gunzip (body req) else Some (body req)
  | None => Some (body req)
  end = Some (v_bodyText v).
Proof.
  unfold ingest_verify.
  destruct (String.eqb (method req) "OPTIONS"); [returned_early |].
  destruct (negb (String.eqb (method req) "POST")); [returned_early |].
  destruct (negb (truthy (authorization req)) || negb (truthy (x_timestamp req))
            || negb (truthy (x_nonce req)) || negb (truthy (x_signature req)));
    [returned_early |].
  destruct (negb (validateTimestamp now (or_empty (x_timestamp req))));
    [returned_early |].
  destruct (verifyAgentJWT env now (strip_bearer (or_empty (authorization req))))
    as [[agentId orgId] | msg]; [| returned_early].
  destruct (createServiceClient env) as [[] | msg]; [| returned_early].
  simpl.
  destruct (single_cases (filter (fun r => String.eqb (srv_agent_id r) agentId)
                                 (tbl_servers s)))
    as [[srv [Hsrv ->]] | [-> _]]; simpl; [| discriminate].
  destruct (negb (String.eqb (srv_org_id srv) orgId)); simpl; [discriminate |].
  destruct (single_cases (filter (nonce_matches orgId agentId (or_empty (x_nonce req)))
                                 (tbl_api_nonces s)))
    as [[nr [Hnr ->]] | [-> Hnone]]; simpl; [discriminate |].
  destruct (match content_encoding req with
            | Some enc => if String.eqb enc "gzip" then gunzip (body req)
                          else Some (body req)
            | None => Some (body req)
            end) as [bodyText |]; simpl; [| discriminate].
  destruct (negb (verifyHMAC (srv_hmac_secret srv) (or_empty (x_timestamp req))
                             (or_empty (x_nonce req)) (hashBody bodyText)
                             (or_empty (x_signature req)))); simpl; [discriminate |].
  destruct (existsb (nonce_matches orgId agentId (or_empty (x_nonce req)))
                    (tbl_api_nonces s)); simpl; [discriminate |].
  intros H. injection H as <- _. reflexivity.
Qed.

Lemma truthy_some o : truthy o = true -> o = Some (or_empty o).
Proof. destruct o; simpl; [reflexivity | discriminate]. Qed.

(** X27: what is accepted was signed.  A request answered 200 carries a
    token that verifies to an agent and an organisation, that agent has a
    row in [servers] under that organisation, the timestamp header is
    within the window, and the signature header is exactly the HMAC, under
    the signing secret of that row, of timestamp, nonce and the SHA-256 of
    the body as received (unzipped if sent as gzip), joined by newlines. *)
Theorem accepted_request_is_signed env now req s resp s' :
  run (ingest env now req) s = (resp, s') ->
  status resp = 200 ->
  exists agentId orgId srv bodyText,
    verifyAgentJWT env now (token_of req) = Normal (agentId, orgId)
    /\ In srv (tbl_servers s)
    /\ srv_agent_id srv = agentId
    /\ srv_org_id srv = orgId
    /\ match content_encoding req with
       | Some enc => if String.eqb enc "gzip" then gunzip (body req)
                     else Some (body req)
       | None => Some (body req)
       end = Some bodyText
    /\ x_signature req
       = Some (hmac_sha256_hex (srv_hmac_secret srv)
                 (or_empty (x_timestamp req) ++ newline ++ nonce_of req ++ newline
                  ++ sha256_hex bodyText)%string)
    /\ validateTimestamp now (or_empty (x_timestamp req)) = true.
Proof.
  intros Hrun Hst.
  destruct (ingest_past_verify _ _ _ _ _ _ Hrun (or_introl Hst))
    as [v [Hv [Hver _]]].
  pose proof (ingest_verify_body _ _ _ _ _ _ Hver) as Hbody.
  destruct Hv as [_ _ _ _ Hsig Hfresh Htok _ Hsrv Horg _ Hmac].
  assert (Hin : In (v_server v)
                   (filter (fun r => String.eqb (srv_agent_id r) (v_agentId v))
                           (tbl_servers s)))
    by (rewrite Hsrv; left; reflexivity).
  apply filter_In in Hin. destruct Hin as [Hin Hag]. apply String.eqb_eq in Hag.
  exists (v_agentId v), (v_orgId v), (v_server v), (v_bodyText v).
  repeat split; auto.
  unfold verifyHMAC, computeHMAC, hashBody in Hmac. apply String.eqb_eq in Hmac.
  rewrite Hmac. apply truthy_some. exact Hsig.
Qed.

(** X28: a request whose token does not verify is answered without any
    statement being sent: the handler is a constant program, and its
    answer is not a 200. *)
Theorem unauthenticated_request_sends_no_statement env now req :
  accepts_token env now req = false ->
  exists r, ingest env now req = Ret r /\ status r <> 200.
Proof.
  unfold accepts_token, token_of, ingest, ingest_verify. intros Htok.
  destruct (String.eqb (method req) "OPTIONS");
    [eexists; split; [reflexivity | discriminate] |].
  destruct (negb (String.eqb (method req) "POST"));
    [eexists; split; [reflexivity | discriminate] |].
  destruct (negb (truthy (authorization req)) || negb (truthy (x_timestamp req))
            || negb (truthy (x_nonce req)) || negb (truthy (x_signature req)));
    [eexists; split; [reflexivity | discriminate] |].
  destruct (negb (validateTimestamp now (or_empty (x_timestamp req))));
    [eexists; split; [reflexivity | discriminate] |].
  destruct (verifyAgentJWT env now (strip_bearer (or_empty (authorization req))))
    as [ids | msg]; [discriminate |].
  eexists; split; [reflexivity | discriminate].
Qed.

End Authenticity.

(* ===================================================================== *)
(** ** The commit phase when nothing is refused *)
(* ===================================================================== *)

Section BatchSizes.
Context {PF : Platform}.

Lemma refused_writes_bind {A B} (m : prog A) (f : A -> prog B) (s : Store) :
  refused_writes (bind m f) s
  = refused_writes m s ++ refused_writes (f (fst (run m s))) (snd (run m s)).
Proof.
  revert s. induction m as [a | X e k IH]; intros s; simpl.
  - reflexivity.
  - destruct (exec e s) as [x s1].
    destruct (is_write e && answer_failed e x); simpl; rewrite IH; reflexivity.
Qed.

Lemma rows_carried_bind {A B} (m : prog A) (f : A -> prog B) (s : Store) :
  rows_carried (bind m f) s
  = add_sizes (rows_carried m s)
              (rows_carried (f (fst (run m s))) (snd (run m s))).
Proof.
  revert s. induction m as [a | X e k IH]; intros s; simpl.
  - destruct (rows_carried (f a) s). reflexivity.
  - destruct (exec e s) as [x s1]. rewrite IH.
    destruct (rows_sent e), (rows_carried (k x) s1),
      (rows_carried (f (fst (run (k x) s1))) (snd (run (k x) s1))).
    unfold add_sizes; simpl. f_equal; lia.
Qed.

Lemma stored_rows_length {A} (fits : A -> bool) rs out :
  stored_rows fits rs = Some out -> List.length out = List.length rs.
Proof.
  revert out. induction rs as [| r rs IH]; simpl; intros out H.
  - injection H as <-. reflexivity.
  - destruct (resolve_ts (row_ts r)); [| discriminate].
    destruct (stored_rows fits rs) as [out' |]; [| discriminate].
    destruct (fits (row_cols r)); [| discriminate].
    injection H as <-. simpl. f_equal. apply IH. reflexivity.
Qed.

Lemma add_sizes_no_rows a : add_sizes a no_rows = a.
Proof. destruct a. unfold add_sizes; simpl. f_equal; lia. Qed.

Lemma add_sizes_assoc a b c : add_sizes (add_sizes a b) c = add_sizes a (add_sizes b c).
Proof. destruct a, b, c. unfold add_sizes; simpl. f_equal; lia. Qed.

(** A commit write that is not refused stores every row it carries. *)
Lemma commit_write_sizes X (e : dbE X) s :
  commit_write X e ->
  answer_failed e (fst (exec e s)) = false ->
  sizes (snd (exec e s)) = add_sizes (sizes s) (rows_sent e).
Proof.
  destruct e; simpl; try contradiction; intros _; unfold insert_rows.
  - destruct (fits_facts f); simpl; intros _;
      unfold sizes, add_sizes; simpl; f_equal; lia.
  - destruct (stored_rows fits_heartbeat [r]) as [out |] eqn:E; simpl;
      [intros _ | discriminate].
    apply stored_rows_length in E.
    unfold sizes, add_sizes; simpl. rewrite length_app, E. simpl. f_equal; lia.
  - destruct (stored_rows fits_disk rs) as [out |] eqn:E; simpl;
      [intros _ | discriminate].
    apply stored_rows_length in E.
    unfold sizes, add_sizes; simpl. rewrite length_app, E. f_equal; lia.
  - destruct (stored_rows fits_iface rs) as [out |] eqn:E; simpl;
      [intros _ | discriminate].
    apply stored_rows_length in E.
    unfold sizes, add_sizes; simpl. rewrite length_app, E. f_equal; lia.
  - destruct (stored_rows fits_process rs) as [out |] eqn:E; simpl;
      [intros _ | discriminate].
    apply stored_rows_length in E.
    unfold sizes, add_sizes; simpl. rewrite length_app, E. f_equal; lia.
  - destruct (stored_rows (fun _ => true) rs) as [out |] eqn:E; simpl;
      [intros _ | discriminate].
    apply stored_rows_length in E.
    unfold sizes, add_sizes; simpl. rewrite length_app, E. f_equal; lia.
  - destruct (stored_rows fits_updates [r]) as [out |] eqn:E; simpl;
      [intros _ | discriminate].
    apply stored_rows_length in E.
    unfold sizes, add_sizes; simpl. rewrite length_app, E. simpl. f_equal; lia.
  - destruct (stored_rows (fun _ => true) rs) as [out |] eqn:E; simpl;
      [intros _ | discriminate].
    apply stored_rows_length in E.
    unfold sizes, add_sizes; simpl. rewrite length_app, E. f_equal; lia.
Qed.

Lemma commit_write_is_write X (e : dbE X) : commit_write X e -> is_write e = true.
Proof. destruct e; simpl; try contradiction; reflexivity. Qed.

(** A run of commit writes none of which is refused stores every row its
    statements carry. *)
Lemma unrefused_run_sizes {A} (p : prog A) : forall s,
  all_stmts commit_write p ->
  refused_writes p s = [] ->
  sizes (snd (run p s)) = add_sizes (sizes s) (rows_carried p s).
Proof.
  induction p as [a | X e k IH]; intros s Hp Href; simpl in *.
  - symmetry. apply add_sizes_no_rows.
  - destruct Hp as [He Hk].
    pose proof (commit_write_sizes X e s He) as Hsz.
    rewrite (commit_write_is_write X e He) in Href.
    destruct (exec e s) as [x s1]. simpl in *.
    destruct (answer_failed e x); [discriminate |].
    rewrite IH; auto. rewrite Hsz; auto. apply add_sizes_assoc.
Qed.


Lemma rows_carried_insert_if_any {A} (rows : list A) stmt s :
  rows_carried (insert_if_any rows stmt) s
  = match rows with [] => no_rows | _ :: _ => rows_sent stmt end.
Proof.
  destruct rows; simpl; [reflexivity |].
  destruct (exec stmt s). apply add_sizes_no_rows.
Qed.

Lemma rows_carried_query {X} (e : dbE X) s : rows_carried (query e) s = rows_sent e.
Proof. simpl. destruct (exec e s). apply add_sizes_no_rows. Qed.

Lemma add_sizes_mk a1 a2 a3 a4 a5 a6 a7 b1 b2 b3 b4 b5 b6 b7 :
  add_sizes (mkSizes a1 a2 a3 a4 a5 a6 a7) (mkSizes b1 b2 b3 b4 b5 b6 b7)
  = mkSizes (a1 + b1) (a2 + b2) (a3 + b3) (a4 + b4) (a5 + b5) (a6 + b6) (a7 + b7).
Proof. reflexivity. Qed.

Lemma rows_carried_ret {A} (a : A) s : rows_carried (Ret a) s = no_rows.
Proof. reflexivity. Qed.

Lemma sent_if_any {A} (rows : list A) (sent : Sizes) (n : Sizes) :
  (rows = [] -> n = no_rows) -> (rows <> [] -> sent = n) ->
  match rows with [] => no_rows | _ :: _ => sent end = n.
Proof.
  destruct rows; intros H1 H2; [symmetry; apply H1; reflexivity |].
  apply H2. discriminate.
Qed.

Lemma ingest_commit_carries now orgId agentId srv d s :
  rows_carried (ingest_commit now orgId agentId srv d) s = batch_sizes d.
Proof.
  unfold ingest_commit.
  rewrite !rows_carried_bind, !rows_carried_insert_if_any, !rows_carried_query,
    rows_carried_ret.
  assert (Hu : forall s0,
             rows_carried (match updates d with
                           | Some u => query (InsertUpdates (tag orgId srv (TsIso now) u)) ;;; Ret tt
                           | None => Ret tt
                           end) s0
             = mkSizes 0 0 0 0 0 (match updates d with Some _ => 1 | None => 0 end) 0).
  { intros s0. destruct (updates d); [| reflexivity].
    rewrite rows_carried_bind, rows_carried_query. reflexivity. }
  rewrite Hu.
  rewrite (sent_if_any (disks d) _ (mkSizes 0 (List.length (disks d)) 0 0 0 0 0));
    [| intros ->; reflexivity
     | intros _; cbn [rows_sent]; rewrite length_map; reflexivity].
  rewrite (sent_if_any (network_ifaces d) _
             (mkSizes 0 0 (List.length (network_ifaces d)) 0 0 0 0));
    [| intros ->; reflexivity
     | intros _; cbn [rows_sent]; rewrite length_map; reflexivity].
  rewrite (sent_if_any (processes d) _
             (mkSizes 0 0 0 (List.length (processes d)) 0 0 0));
    [| intros ->; reflexivity
     | intros _; cbn [rows_sent]; rewrite length_map; reflexivity].
  rewrite (sent_if_any (packages d) _
             (mkSizes 0 0 0 0 (List.length (packages d)) 0 0));
    [| intros ->; reflexivity
     | intros _; cbn [rows_sent]; rewrite length_map; reflexivity].
  rewrite (sent_if_any (logs d) _ (mkSizes 0 0 0 0 0 0 (List.length (logs d))));
    [| intros ->; reflexivity
     | intros _; cbn [rows_sent]; rewrite length_map; reflexivity].
  cbn [rows_sent]. unfold batch_sizes, no_rows.
  rewrite !add_sizes_mk. f_equal; lia.
Qed.

Lemma telemetry_insert_servers X (e : dbE X) s :
  telemetry_insert X e -> tbl_servers (snd (exec e s)) = tbl_servers s.
Proof.
  destruct e; simpl; try contradiction; intros _; unfold insert_rows;
    destruct (stored_rows _ _); reflexivity.
Qed.

(** With the update of the facts not refused, the rows of the agent
    carry the facts of the payload and the clock; the inserts leave
    [servers] alone. *)
Lemma unrefused_commit_servers now orgId agentId srv d s :
  refused_writes (ingest_commit now orgId agentId srv d) s = [] ->
  tbl_servers (snd (run (ingest_commit now orgId agentId srv d) s))
  = map (fun r => if String.eqb (srv_agent_id r) agentId
                  then with_facts (si_facts (server d)) now r else r)
        (tbl_servers s).
Proof.
  unfold ingest_commit.
  rewrite refused_writes_bind, run_bind.
  cbn [query run refused_writes exec is_write answer_failed andb fst snd].
  destruct (fits_facts (si_facts (server d)));
    cbn [fst snd error pg_fail pg_done isSome app]; [| discriminate].
  intros _.
  match goal with
  | |- tbl_servers (snd (run ?p ?s1)) = _ =>
      transitivity (tbl_servers s1); [| reflexivity];
      apply (run_all_stmts telemetry_insert
               (fun a b => tbl_servers b = tbl_servers a))
  end.
  - reflexivity.
  - intros s1 s2 s3 H1 H2. congruence.
  - intros X e s0. apply telemetry_insert_servers.
  - repeat (apply all_stmts_bind; [| intros _]);
      try (apply insert_if_any_stmts; exact I);
      try (simpl; tauto).
    destruct (updates d); simpl; tauto.
Qed.

Lemma refused_seq {A B} (m : prog A) (k : prog B) s :
  refused_writes (m ;;; k) s = [] ->
  refused_writes m s = [] /\ refused_writes k (snd (run m s)) = [].
Proof. rewrite refused_writes_bind. apply app_eq_nil. Qed.

Lemma run_seq_snd {A B} (m : prog A) (k : prog B) s :
  snd (run (m ;;; k) s) = snd (run k (snd (run m s))).
Proof. rewrite run_bind. destruct (run m s). reflexivity. Qed.

Lemma unrefused_query X (e : dbE X) s :
  refused_writes (query e) s = [] ->
  is_write e = true ->
  answer_failed e (fst (exec e s)) = false
  /\ snd (run (query e) s) = snd (exec e s).
Proof.
  intros H Hw. revert H. simpl. destruct (exec e s) as [x s1]. rewrite Hw. simpl.
  destruct (answer_failed e x); [discriminate | auto].
Qed.

Lemma unrefused_insert_if_any {A} (rows : list A) stmt s :
  refused_writes (insert_if_any rows stmt) s = [] ->
  is_write stmt = true ->
  (rows = [] /\ snd (run (insert_if_any rows stmt) s) = s)
  \/ (answer_failed stmt (fst (exec stmt s)) = false
      /\ snd (run (insert_if_any rows stmt) s) = snd (exec stmt s)).
Proof.
  intros H Hw. revert H. destruct rows as [| x rows]; [left; auto |].
  cbn [insert_if_any]. intros H. right.
  apply refused_seq in H. destruct H as [H _].
  destruct (unrefused_query _ stmt s H Hw) as [Ha Hs].
  split; [exact Ha |]. rewrite run_seq_snd, Hs. reflexivity.
Qed.

Lemma insert_rows_ok {A} (fits : A -> bool) rs tbl put s :
  isSome (error (fst (insert_rows fits rs tbl put s))) = false ->
  exists out, stored_rows fits rs = Some out
              /\ snd (insert_rows fits rs tbl put s) = put (tbl ++ out) s.
Proof.
  unfold insert_rows. destruct (stored_rows fits rs) as [out |]; simpl;
    [eauto | discriminate].
Qed.

(** Rows stamped by the handler are stored as they were sent. *)
Lemma stored_rows_iso {A B} (fits : A -> bool) org sid now (f : B -> A) xs out :
  stored_rows fits (map (fun x => mkRow org sid (TsIso now) (f x)) xs) = Some out ->
  out = map (fun x => mkRow org sid now (f x)) xs.
Proof.
  revert out. induction xs as [| x xs IH]; simpl; intros out H.
  - injection H as <-. reflexivity.
  - destruct (stored_rows fits _) as [out' |]; [| discriminate].
    destruct (fits (f x)); [| discriminate].
    injection H as <-. f_equal. apply IH. reflexivity.
Qed.

(** Rows stamped by the agent are stored with the instant its text
    denotes. *)
Lemma stored_rows_text {A B} (fits : A -> bool) org sid (ts : B -> string)
      (f : B -> A) xs out :
  stored_rows fits (map (fun x => mkRow org sid (TsText (ts x)) (f x)) xs) = Some out ->
  Forall2 (fun x r => exists ms, pg_timestamptz (ts x) = Some ms
                                 /\ r = mkRow org sid ms (f x)) xs out.
Proof.
  revert out. induction xs as [| x xs IH]; simpl; intros out H.
  - injection H as <-. constructor.
  - destruct (pg_timestamptz (ts x)) as [ms |] eqn:E; [| discriminate].
    destruct (stored_rows fits _) as [out' |]; [| discriminate].
    destruct (fits (f x)); [| discriminate].
    injection H as <-. constructor; [exists ms; auto | apply IH; reflexivity].
Qed.

Lemma set_same (s : Store) :
  set_disks (tbl_disks s ++ []) s = s
  /\ set_network_ifaces (tbl_network_ifaces s ++ []) s = s
  /\ set_processes (tbl_processes s ++ []) s = s
  /\ set_packages (tbl_packages s ++ []) s = s
  /\ set_updates (tbl_updates s ++ []) s = s
  /\ set_logs (tbl_logs s ++ []) s = s.
Proof. destruct s; cbn; rewrite !app_nil_r; repeat split; reflexivity. Qed.

(** The store the commit phase leaves when no write is refused. *)
Lemma unrefused_commit_store now orgId agentId srv d s :
  refused_writes (ingest_commit now orgId agentId srv d) s = [] ->
  exists hts lrows,
    pg_timestamptz (hb_ts (heartbeat d)) = Some hts
    /\ Forall2 (fun l r => exists ms, pg_timestamptz (log_ts l) = Some ms
                                      /\ r = mkRow orgId (srv_id srv) ms l)
               (logs d) lrows
    /\ snd (run (ingest_commit now orgId agentId srv d) s)
       = let s1 := set_servers
                     (map (fun r => if String.eqb (srv_agent_id r) agentId
                                    then with_facts (si_facts (server d)) now r else r)
                          (tbl_servers s)) s in
         let s2 := set_heartbeats
                     (tbl_heartbeats s1 ++ [mkRow orgId (srv_id srv) hts (heartbeat d)])
                     s1 in
         let s3 := set_disks
                     (tbl_disks s2 ++ map (mkRow orgId (srv_id srv) now) (disks d)) s2 in
         let s4 := set_network_ifaces
                     (tbl_network_ifaces s3
                      ++ map (mkRow orgId (srv_id srv) now) (network_ifaces d)) s3 in
         let s5 := set_processes
                     (tbl_processes s4
                      ++ map (fun proc =>
                                mkRow orgId (srv_id srv) now
                                  (mkProcessCols (pid proc) (cmd proc)
                                     (proc_cpu_pct proc) (proc_mem_bytes proc) None))
                             (processes d)) s4 in
         let s6 := set_packages
                     (tbl_packages s5 ++ map (mkRow orgId (srv_id srv) now) (packages d))
                     s5 in
         let s7 := set_updates
                     (tbl_updates s6
                      ++ match updates d with
                         | Some u => [mkRow orgId (srv_id srv) now u]
                         | None => []
                         end) s6 in
         set_logs (tbl_logs s7 ++ lrows) s7.
Proof.
  unfold ingest_commit, tag. intros H.
  (* 1 *)
  apply refused_seq in H. destruct H as [H1 H]. rewrite run_seq_snd.
  destruct (unrefused_query _ _ _ H1 eq_refl) as [A1 E1]. rewrite E1 in *. clear H1 E1.
  cbn [exec answer_failed] in A1 |- *. revert H.
  cbn [exec]. destruct (fits_facts (si_facts (server d))); [| discriminate A1].
  cbn [fst snd]. clear A1.
  set (s1 := set_servers _ s). intros H.
  (* 2 *)
  apply refused_seq in H. destruct H as [H2 H]. rewrite run_seq_snd.
  destruct (unrefused_query _ _ _ H2 eq_refl) as [A2 E2]. rewrite E2 in *. clear H2 E2.
  cbn [exec answer_failed] in A2.
  destruct (insert_rows_ok _ _ _ _ _ A2) as [out2 [S2 O2]].
  cbn [exec] in H |- *. rewrite O2 in *. clear A2 O2.
  cbn [stored_rows resolve_ts row_ts row_cols row_org_id row_server_id] in S2.
  destruct (pg_timestamptz (hb_ts (heartbeat d))) as [hts |]; [| discriminate].
  destruct (fits_heartbeat (heartbeat d)); [| discriminate].
  injection S2 as <-.
  set (s2 := set_heartbeats _ s1) in *.
  (* 3 *)
  apply refused_seq in H. destruct H as [H3 H]. rewrite run_seq_snd.
  match type of H3 with
  | refused_writes ?p _ = [] =>
      assert (E3 : snd (run p s2)
               = set_disks (tbl_disks s2 ++ map (mkRow orgId (srv_id srv) now) (disks d)) s2)
  end.
  { destruct (unrefused_insert_if_any _ _ _ H3 eq_refl) as [[-> ->] | [A ->]].
    - symmetry. apply set_same.
    - cbn [exec answer_failed] in A |- *.
      destruct (insert_rows_ok _ _ _ _ _ A) as [out [S ->]].
      apply (stored_rows_iso _ _ _ _ (fun x => x)) in S. rewrite S. reflexivity. }
  rewrite E3 in *. clear H3 E3.
  set (s3 := set_disks _ s2) in *.
  (* 4 *)
  apply refused_seq in H. destruct H as [H4 H]. rewrite run_seq_snd.
  match type of H4 with
  | refused_writes ?p _ = [] =>
      assert (E4 : snd (run p s3)
               = set_network_ifaces
                   (tbl_network_ifaces s3
                    ++ map (mkRow orgId (srv_id srv) now) (network_ifaces d)) s3)
  end.
  { destruct (unrefused_insert_if_any _ _ _ H4 eq_refl) as [[-> ->] | [A ->]].
    - symmetry. apply set_same.
    - cbn [exec answer_failed] in A |- *.
      destruct (insert_rows_ok _ _ _ _ _ A) as [out [S ->]].
      apply (stored_rows_iso _ _ _ _ (fun x => x)) in S. rewrite S. reflexivity. }
  rewrite E4 in *. clear H4 E4.
  set (s4 := set_network_ifaces _ s3) in *.
  (* 5 *)
  apply refused_seq in H. destruct H as [H5 H]. rewrite run_seq_snd.
  match type of H5 with
  | refused_writes ?p _ = [] =>
      assert (E5 : snd (run p s4)
                   = set_processes
                       (tbl_processes s4
                        ++ map (fun proc =>
                                  mkRow orgId (srv_id srv) now
                                    (mkProcessCols (pid proc) (cmd proc)
                                       (proc_cpu_pct proc) (proc_mem_bytes proc) None))
                               (processes d)) s4)
  end.
  { destruct (unrefused_insert_if_any _ _ _ H5 eq_refl) as [[-> ->] | [A ->]].
    - symmetry. apply set_same.
    - cbn [exec answer_failed] in A |- *.
      destruct (insert_rows_ok _ _ _ _ _ A) as [out [S ->]].
      apply (stored_rows_iso _ _ _ _
               (fun proc => mkProcessCols (pid proc) (cmd proc) (proc_cpu_pct proc)
                                          (proc_mem_bytes proc) None)) in S.
      rewrite S. reflexivity. }
  rewrite E5 in *. clear H5 E5.
  set (s5 := set_processes _ s4) in *.
  (* 6 *)
  apply refused_seq in H. destruct H as [H6 H]. rewrite run_seq_snd.
  match type of H6 with
  | refused_writes ?p _ = [] =>
      assert (E6 : snd (run p s5)
               = set_packages
                   (tbl_packages s5 ++ map (mkRow orgId (srv_id srv) now) (packages d)) s5)
  end.
  { destruct (unrefused_insert_if_any _ _ _ H6 eq_refl) as [[-> ->] | [A ->]].
    - symmetry. apply set_same.
    - cbn [exec answer_failed] in A |- *.
      destruct (insert_rows_ok _ _ _ _ _ A) as [out [S ->]].
      apply (stored_rows_iso _ _ _ _ (fun x => x)) in S. rewrite S. reflexivity. }
  rewrite E6 in *. clear H6 E6.
  set (s6 := set_packages _ s5) in *.
  (* 7 *)
  apply refused_seq in H. destruct H as [H7 H]. rewrite run_seq_snd.
  match type of H7 with
  | refused_writes ?p _ = [] =>
      assert (E7 : snd (run p s6)
                   = set_updates
                       (tbl_updates s6
                        ++ match updates d with
                           | Some u => [mkRow orgId (srv_id srv) now u]
                           | None => []
                           end) s6)
  end.
  { destruct (updates d) as [u |].
    - apply refused_seq in H7. destruct H7 as [H7 _]. rewrite run_seq_snd.
      destruct (unrefused_query _ _ _ H7 eq_refl) as [A ->].
      cbn [run snd]. cbn [exec answer_failed] in A |- *.
      destruct (insert_rows_ok _ _ _ _ _ A) as [out [S ->]].
      apply (stored_rows_iso _ _ _ _ (fun x => x) [u]) in S. rewrite S. reflexivity.
    - symmetry. apply set_same. }
  rewrite E7 in *. clear H7 E7.
  set (s7 := set_updates _ s6) in *.
  (* 8 *)
  apply refused_seq in H. destruct H as [H8 _]. rewrite run_seq_snd. cbn [run snd].
  exists hts.
  destruct (unrefused_insert_if_any _ _ _ H8 eq_refl) as [[El ->] | [A ->]].
  - exists []. split; [reflexivity |]. rewrite El. split; [constructor |].
    symmetry. apply set_same.
  - cbn [exec answer_failed] in A |- *.
    destruct (insert_rows_ok _ _ _ _ _ A) as [out [S ->]].
    exists out. split; [reflexivity |]. split; [| reflexivity].
    apply (stored_rows_text _ _ _ log_ts (fun l => l)) in S. exact S.
Qed.

(** X4: when none of the writes of the commit phase is refused, every
    table has grown by exactly the rows of the batch, each tagged with
    the organisation and the id of the server row the handler read: one
    heartbeat and one row per log entry, stamped with the instant the
    agent's text denotes; one row per disk, interface, process and
    package and one updates row if the payload has one, stamped with the
    server clock; the process rows carry pid, cmd, cpu_pct and mem_bytes
    and a null [usr].  The rows of the agent in [servers] carry the facts
    of the payload and the server clock as [last_seen]; no other table
    and no counter changes. *)
Theorem complete_batch_stored now orgId agentId srv d s :
  refused_writes (ingest_commit now orgId agentId srv d) s = [] ->
  let s' := snd (run (ingest_commit now orgId agentId srv d) s) in
  exists hts lrows,
    pg_timestamptz (hb_ts (heartbeat d)) = Some hts
    /\ Forall2 (fun l r => exists ms, pg_timestamptz (log_ts l) = Some ms
                                      /\ r = mkRow orgId (srv_id srv) ms l)
               (logs d) lrows
    /\ tbl_heartbeats s'
       = tbl_heartbeats s ++ [mkRow orgId (srv_id srv) hts (heartbeat d)]
    /\ tbl_disks s' = tbl_disks s ++ map (mkRow orgId (srv_id srv) now) (disks d)
    /\ tbl_network_ifaces s'
       = tbl_network_ifaces s ++ map (mkRow orgId (srv_id srv) now) (network_ifaces d)
    /\ tbl_processes s'
       = tbl_processes s
         ++ map (fun proc => mkRow orgId (srv_id srv) now
                               (mkProcessCols (pid proc) (cmd proc) (proc_cpu_pct proc)
                                              (proc_mem_bytes proc) None))
                (processes d)
    /\ tbl_packages s' = tbl_packages s ++ map (mkRow orgId (srv_id srv) now) (packages d)
    /\ tbl_updates s'
       = tbl_updates s ++ match updates d with
                          | Some u => [mkRow orgId (srv_id srv) now u]
                          | None => []
                          end
    /\ tbl_logs s' = tbl_logs s ++ lrows
    /\ tbl_servers s'
       = map (fun r => if String.eqb (srv_agent_id r) agentId
                       then with_facts (si_facts (server d)) now r else r)
             (tbl_servers s)
    /\ tbl_orgs s' = tbl_orgs s
    /\ tbl_api_nonces s' = tbl_api_nonces s
    /\ tbl_alerts s' = tbl_alerts s
    /\ tbl_rollup_1m s' = tbl_rollup_1m s
    /\ tbl_rollup_1h s' = tbl_rollup_1h s
    /\ next_id s' = next_id s
    /\ sizes s' = add_sizes (sizes s) (batch_sizes d).
Proof.
  intros Href s'.
  assert (Hsz : sizes s' = add_sizes (sizes s) (batch_sizes d)).
  { rewrite <- (ingest_commit_carries now orgId agentId srv d s).
    apply unrefused_run_sizes; [apply ingest_commit_writes | exact Href]. }
  destruct (unrefused_commit_store now orgId agentId srv d s Href)
    as (hts & lrows & Hh & Hl & E).
  exists hts, lrows. subst s'. rewrite E in *.
  split; [exact Hh | split; [exact Hl |]].
  repeat (split; [reflexivity |]). exact Hsz.
Qed.

End BatchSizes.

(* ===================================================================== *)
(** ** Nonce retention and replay *)
(* ===================================================================== *)

Section NonceRetention.
Context {PF : Platform}.

(** A request that was verified once, sent again to a store that still
    has its server row and its nonce: 401 or 409, and nothing changes. *)
Lemma replay_on env now1 now2 req s v s2 nr :
  verified_by env now1 req s v ->
  map srv_ident (tbl_servers s2) = map srv_ident (tbl_servers s) ->
  filter (nonce_matches (v_orgId v) (v_agentId v) (nonce_of req)) (tbl_api_nonces s2)
  = [nr] ->
  exists resp,
    run (ingest env now2 req) s2 = (resp, s2)
    /\ (status resp = 401 \/ status resp = 409).
Proof.
  intros Hv Hservers Hnr.
  destruct (validateTimestamp now2 (or_empty (x_timestamp req))) eqn:Hfresh.
  - destruct (verifyAgentJWT env now2 (token_of req)) as [ids | msg] eqn:Hj.
    + exists replay_detected. split; [| right; reflexivity].
      destruct Hv as [Hm Ha Ht Hn Hs _ Hjwt1 Hclient Hserver Horg1 _ _].
      assert (ids = (v_agentId v, v_orgId v)) as ->
          by (symmetry; eapply verifyAgentJWT_ids; eassumption).
      destruct (server_lookup_stable (v_agentId v) _ _ _ Hservers Hserver)
        as [srv' [Hsel Hid]].
      eapply ingest_replay; try eassumption.
      unfold srv_ident in Hid. congruence.
    + destruct Hv as [Hm Ha Ht Hn Hs _ _ _ _ _ _ _].
      exists (errorResponse ("JWT verification failed: " ++ msg)%string 401).
      split; [| left; reflexivity].
      unfold ingest, ingest_verify. rewrite run_bind.
      rewrite Hm, Ha, Ht, Hn, Hs, Hfresh. simpl.
      unfold token_of in Hj. rewrite Hj. reflexivity.
  - exists (errorResponse "Invalid or expired timestamp" 401).
    split; [| left; reflexivity].
    destruct Hv as [Hm Ha Ht Hn Hs _ _ _ _ _ _ _].
    unfold ingest, ingest_verify. rewrite run_bind.
    rewrite Hm, Ha, Ht, Hn, Hs, Hfresh. reflexivity.
Qed.

Lemma stale_on env now req s :
  method req = "POST" ->
  truthy (authorization req) = true ->
  truthy (x_timestamp req) = true ->
  truthy (x_nonce req) = true ->
  truthy (x_signature req) = true ->
  validateTimestamp now (or_empty (x_timestamp req)) = false ->
  run (ingest env now req) s
  = (errorResponse "Invalid or expired timestamp" 401, s).
Proof.
  intros Hm Ha Ht Hn Hs Hfresh.
  unfold ingest, ingest_verify. rewrite run_bind.
  rewrite Hm, Ha, Ht, Hn, Hs, Hfresh. reflexivity.
Qed.

(** What the nonce janitor does to the store. *)
Lemma nonce_cleanup_store env now req s :
  let s' := snd (run (nonce_cleanup env now req) s) in
  s' = s
  \/ s' = set_api_nonces
            (filter (fun r => negb (n_ts r <? now - 10 * 60 * 1000)%Z)
                    (tbl_api_nonces s)) s.
Proof.
  unfold nonce_cleanup.
  destruct (cron_rejected env req); [left; reflexivity |].
  destruct (createServiceClient env); [| left; reflexivity].
  right. reflexivity.
Qed.

Lemma filter_filter_comm {A} (f g : A -> bool) (l : list A) :
  filter f (filter g l) = filter g (filter f l).
Proof.
  induction l as [| x l IH]; simpl; [reflexivity |].
  destruct (f x) eqn:Ef, (g x) eqn:Eg; simpl; rewrite ?Ef, ?Eg, IH; reflexivity.
Qed.

(** X6: the janitor does not reopen a replay.  After a request has been
    accepted and the nonce cleanup has run, the same request sent at any
    later server time is answered 401 or 409 and changes nothing: either
    its nonce is still on record, or it was older than ten minutes and the
    timestamp of the request, which was within five minutes of the clock
    when it was accepted, is stale. *)
Theorem replay_rejected_after_nonce_cleanup
        env now1 now2 now3 req creq s resp1 s1 resp2 s2 :
  run (ingest env now1 req) s = (resp1, s1) ->
  status resp1 = 200 ->
  run (nonce_cleanup env now2 creq) s1 = (resp2, s2) ->
  (now2 <= now3)%Z ->
  exists resp3,
    run (ingest env now3 req) s2 = (resp3, s2)
    /\ (status resp3 = 401 \/ status resp3 = 409).
Proof.
  intros Hrun Hst Hclean Hclock.
  destruct (ingest_past_verify _ _ _ _ _ _ Hrun (or_introl Hst))
    as [v [Hv [_ Hproc]]].
  pose proof (ingest_process_frame now1 v (with_nonce now1 req v s)) as Hframe.
  rewrite Hproc in Hframe. simpl in Hframe.
  destruct Hframe as [_ Hnonces _ _ _ _ Hservers].
  assert (Hsel : filter (nonce_matches (v_orgId v) (v_agentId v) (nonce_of req))
                        (tbl_api_nonces s1)
                 = [mkNonceRow (v_orgId v) (v_agentId v) (nonce_of req) now1]).
  { rewrite Hnonces. simpl. rewrite filter_app.
    rewrite (existsb_false_filter _ _ (vb_unused _ _ _ _ _ Hv)). simpl.
    rewrite nonce_matches_self. reflexivity. }
  pose proof (nonce_cleanup_store env now2 creq s1) as Hs2.
  rewrite Hclean in Hs2. simpl in Hs2.
  destruct Hs2 as [-> | ->].
  - eapply replay_on; eassumption.
  - destruct (now1 <? now2 - 600000)%Z eqn:Hold.
    + (* the nonce is gone: the timestamp is stale by now *)
      exists (errorResponse "Invalid or expired timestamp" 401).
      split; [| left; reflexivity].
      pose proof (vb_fresh _ _ _ _ _ Hv) as Hfresh.
      apply validateTimestamp_spec in Hfresh. destruct Hfresh as [t [Hparse Habs]].
      apply Z.ltb_lt in Hold.
      apply stale_on; try apply Hv.
      destruct (validateTimestamp now3 (or_empty (x_timestamp req))) eqn:E;
        [| reflexivity].
      apply validateTimestamp_spec in E. destruct E as [t' [Hparse' Habs']].
      rewrite Hparse in Hparse'. injection Hparse' as <-. lia.
    + eapply replay_on; [exact Hv | exact Hservers |].
      unfold set_api_nonces; cbn [tbl_api_nonces].
      rewrite filter_filter_comm, Hsel. cbn [filter n_ts]. rewrite Hold.
      reflexivity.
Qed.


End NonceRetention.

(* ===================================================================== *)
(** ** [_shared/db.ts]: the nonce helpers, and /nonce-cleanup *)
(* ===================================================================== *)

Section NonceHelpers.
Context {PF : Platform}.

(** X7: [storeNonce] and [isNonceUsed] agree.  When [storeNonce]
    completes, [isNonceUsed] on the same key answers true and a second
    [storeNonce] throws the unique violation 23505 and leaves the table
    alone; [storeNonce] throws only when the key is on record already, and
    then writes nothing. *)
Theorem storeNonce_then_isNonceUsed now now' org agent nonce s :
  match run (storeNonce now org agent nonce) s with
  | (Normal _, s1) =>
      run (isNonceUsed org agent nonce) s1 = (Normal true, s1)
      /\ run (storeNonce now' org agent nonce) s1 = (Throw "23505", s1)
  | (Throw _, s1) =>
      s1 = s /\ existsb (nonce_matches org agent nonce) (tbl_api_nonces s) = true
  end.
Proof.
  unfold storeNonce, isNonceUsed. simpl.
  destruct (existsb (nonce_matches org agent nonce) (tbl_api_nonces s)) eqn:E; simpl.
  - auto.
  - rewrite filter_app, (existsb_false_filter _ _ E). simpl.
    rewrite nonce_matches_self. simpl.
    rewrite existsb_app. simpl. rewrite nonce_matches_self, orb_true_r. simpl.
    auto.
Qed.

(** X8: the nonce cleanup removes nonces and nothing else, never one
    whose [ts] is within ten minutes of the server clock, and after a 200
    no older one is left.  The count it reports is 0 whatever it removed:
    the [delete] is sent without a [count] option, so the [count] it reads
    is null. *)
Theorem nonce_cleanup_retention env now req s :
  let r := run (nonce_cleanup env now req) s in
  (forall n, In n (tbl_api_nonces (snd r)) -> In n (tbl_api_nonces s))
  /\ (forall n, In n (tbl_api_nonces s) -> (now - 10 * 60 * 1000 <= n_ts n)%Z ->
                In n (tbl_api_nonces (snd r)))
  /\ set_api_nonces (tbl_api_nonces s) (snd r) = s
  /\ (status (fst r) = 200 ->
      fst r = jsonResponse (BNonceCleanup now 0) 200
      /\ forall n, In n (tbl_api_nonces (snd r)) -> (now - 10 * 60 * 1000 <= n_ts n)%Z).
Proof.
  unfold nonce_cleanup.
  destruct (cron_rejected env req).
  { simpl. repeat split; auto; try discriminate. destruct s; reflexivity. }
  destruct (createServiceClient env).
  2:{ simpl. repeat split; auto; try discriminate. destruct s; reflexivity. }
  cbn -[Z.mul Z.sub].
  split; [| split; [| split; [| split]]].
  - intros n Hn. apply filter_In in Hn. tauto.
  - intros n Hn Hts. apply filter_In. split; [exact Hn |].
    apply negb_true_iff, Z.ltb_ge. exact Hts.
  - destruct s; reflexivity.
  - reflexivity.
  - intros n Hn. apply filter_In in Hn. destruct Hn as [_ Hn].
    apply negb_true_iff, Z.ltb_ge in Hn. exact Hn.
Qed.

End NonceHelpers.

(* ===================================================================== *)
(** ** More of /enroll *)
(* ===================================================================== *)

Section MoreEnroll.
Context {PF : Platform}.

(** X10: an enrollment that is refused writes nothing.  Whatever the
    answer other than 200 (204, 405, 422, 403 for an unknown secret, 500
    for a body that is not JSON or a missing client configuration), the
    store is as before.  The one 500 that comes after a write is the one
    [createAgentJWT] throws when [JWT_SECRET] is not set, hence the second
    hypothesis. *)
Theorem enroll_refusal_leaves_store env now rnd req s resp s' :
  run (enroll env now rnd req) s = (resp, s') ->
  status resp <> 200 ->
  status resp <> 500 \/ truthy (JWT_SECRET env) = true ->
  s' = s.
Proof.
  unfold enroll.
  destruct (String.eqb (method req) "OPTIONS");
    [intros H; injection H as _ <-; reflexivity |].
  destruct (negb (String.eqb (method req) "POST"));
    [intros H; injection H as _ <-; reflexivity |].
  destruct (JSON_parse (body req)) as [j |];
    [| intros H; injection H as _ <-; reflexivity].
  destruct (safeParse EnrollRequestSchema j) as [parsed | issues];
    [| intros H; injection H as _ <-; reflexivity].
  destruct (createServiceClient env) as [[] | msg];
    [| intros H; injection H as _ <-; reflexivity].
  simpl.
  destruct (single_cases
              (filter (fun o => String.eqb (enroll_secret_hash o)
                                  (hashSecret (org_enroll_secret parsed)))
                      (tbl_orgs s)))
    as [[org [Horg ->]] | [-> _]]; simpl;
    [| intros H; injection H as _ <-; reflexivity].
  rewrite run_bind.
  match goal with
  | |- context [run (bind ?m ?f) s] => destruct (run (bind m f) s) as [[[a h] r] s1]
  | |- context [run ?m s] => destruct (run m s) as [[[a h] r] s1]
  end.
  unfold createAgentJWT.
  destruct (truthy (JWT_SECRET env)); simpl.
  - intros H Hst _. injection H as <- _. simpl in Hst. contradiction.
  - intros H _ [Hst | Hst]; [| discriminate].
    injection H as <- _. simpl in Hst. contradiction.
Qed.


Lemma filter_unique_key {A} (key : A -> string) (l : list A) (x : A) :
  NoDup (map key l) -> In x l ->
  filter (fun r => String.eqb (key r) (key x)) l = [x].
Proof.
  induction l as [| y l IH]; simpl; intros Hnd Hin; [contradiction |].
  inversion Hnd as [| ? ? Hnot Hnd']; subst.
  destruct Hin as [-> | Hin].
  - rewrite String.eqb_refl. f_equal.
    apply existsb_false_filter. apply not_true_iff_false. intros Hex.
    apply existsb_exists in Hex. destruct Hex as [z [Hz Hk]].
    apply String.eqb_eq in Hk. apply Hnot. rewrite <- Hk. apply in_map. exact Hz.
  - destruct (String.eqb_spec (key y) (key x)) as [E | E].
    + exfalso. apply Hnot. rewrite E. apply in_map. exact Hin.
    + apply IH; assumption.
Qed.

Lemma filter_map_same {A} (p : A -> bool) (g : A -> A) (l : list A) :
  (forall r, p (g r) = p r) -> filter p (map g l) = map g (filter p l).
Proof.
  intros H. induction l as [| x l IH]; simpl; [reflexivity |].
  rewrite H. destruct (p x); simpl; rewrite IH; reflexivity.
Qed.

(** X11: what /enroll returns is what /ingest will find.  After a 200
    none of whose writes was refused, on a store where agent ids are
    unique, [getServerByAgentId] on the returned agent id finds one row,
    and its organisation, signing secret and refresh token are the ones in
    the response; its [last_seen] is the time of the enrollment. *)
Theorem enrolled_host_on_record env now rnd req s s'
        agentId jwt refreshToken hmacSecret orgId :
  run (enroll env now rnd req) s
  = (jsonResponse (BEnroll agentId jwt refreshToken hmacSecret orgId) 200, s') ->
  refused_writes (enroll env now rnd req) s = [] ->
  NoDup (map srv_agent_id (tbl_servers s)) ->
  exists srv,
    run (getServerByAgentId agentId) s' = (Normal (Some srv), s')
    /\ srv_org_id srv = orgId
    /\ srv_hmac_secret srv = hmacSecret
    /\ srv_refresh_token srv = refreshToken
    /\ srv_last_seen srv = now.
Proof.
  unfold enroll.
  destruct (String.eqb (method req) "OPTIONS"); [discriminate |].
  destruct (negb (String.eqb (method req) "POST")); [discriminate |].
  destruct (JSON_parse (body req)) as [j |]; [| discriminate].
  destruct (safeParse EnrollRequestSchema j) as [parsed | issues]; [| discriminate].
  destruct (createServiceClient env) as [[] | msg]; [| discriminate].
  simpl.
  destruct (single_cases
              (filter (fun o => String.eqb (enroll_secret_hash o)
                                  (hashSecret (org_enroll_secret parsed)))
                      (tbl_orgs s)))
    as [[org [Horg ->]] | [-> _]]; simpl; [| discriminate].
  fold (same_host (org_id org) (machine_id (host_facts parsed))).
  destruct (single_cases
              (filter (same_host (org_id org) (machine_id (host_facts parsed)))
                      (tbl_servers s)))
    as [[srv [Hsrv ->]] | [-> Hnone]]; simpl.
  - (* re-enrollment *)
    destruct (fits_facts (host_facts parsed)); simpl; [| discriminate].
    destruct (createAgentJWT env now (srv_agent_id srv) (org_id org))
      as [jwt' |]; [| discriminate].
    intros Hrun _ Hnd. injection Hrun as <- <- <- <- <- <-.
    assert (Hin : In srv (tbl_servers s)).
    { assert (H : In srv [srv]) by (left; reflexivity).
      rewrite <- Hsrv in H. apply filter_In in H. tauto. }
    assert (Horg' : srv_org_id srv = org_id org).
    { assert (H : In srv [srv]) by (left; reflexivity).
      rewrite <- Hsrv in H. apply filter_In in H. destruct H as [_ H].
      unfold same_host in H. apply andb_true_iff in H. destruct H as [H _].
      apply String.eqb_eq in H. exact H. }
    exists (with_facts (host_facts parsed) now srv).
    split; [| repeat split; exact Horg'].
    unfold getServerByAgentId. simpl.
    rewrite (filter_map_same (fun r => String.eqb (srv_agent_id r) (srv_agent_id srv))
               (fun r => if String.eqb (srv_agent_id r) (srv_agent_id srv)
                         then with_facts (host_facts parsed) now r else r)).
    + rewrite (filter_unique_key srv_agent_id _ srv Hnd Hin). simpl.
      rewrite String.eqb_refl. reflexivity.
    + intros r. destruct (String.eqb (srv_agent_id r) (srv_agent_id srv)) eqn:E;
        simpl; rewrite ?E; reflexivity.
  - (* new enrollment *)
    destruct (fits_facts (host_facts parsed)); simpl; [| discriminate].
    destruct (existsb _ (tbl_servers s)) eqn:Hex; simpl; [discriminate |].
    destruct (existsb _ (tbl_orgs s)) eqn:Hexo; simpl; [| discriminate].
    destruct (createAgentJWT env now (randomUUID rnd) (org_id org))
      as [jwt' |]; [| discriminate].
    intros Hrun _ _. injection Hrun as <- <- <- <- <- <-.
    exists (mkServerRow (next_id s) (org_id org) (randomUUID rnd) (host_facts parsed)
                        (secret32 rnd) (secret64 rnd) now now).
    split; [| repeat split; reflexivity].
    unfold getServerByAgentId. simpl. rewrite filter_app.
    assert (Hno : filter (fun r => String.eqb (srv_agent_id r) (randomUUID rnd))
                         (tbl_servers s) = []).
    { apply existsb_false_filter. apply not_true_iff_false. intros Hc.
      rewrite <- not_true_iff_false in Hex. apply Hex.
      apply existsb_exists in Hc. destruct Hc as [x [Hin Hx]].
      apply existsb_exists. exists x. split; [exact Hin |].
      simpl. rewrite Hx. reflexivity. }
    rewrite Hno. simpl. rewrite String.eqb_refl. reflexivity.
Qed.

End MoreEnroll.

(* ===================================================================== *)
(** ** /rotate *)
(* ===================================================================== *)

Section Rotate.
Context {PF : Platform}.

Lemma getServerByAgentId_run agent s :
  run (getServerByAgentId agent) s
  = (match filter (fun r => String.eqb (srv_agent_id r) agent) (tbl_servers s) with
     | [srv] => Normal (Some srv)
     | _ => Normal None
     end, s).
Proof.
  unfold getServerByAgentId. simpl.
  destruct (filter _ (tbl_servers s)) as [| x [| y l]]; reflexivity.
Qed.

(** X12: what a rotation can change.  Any answer other than the 200
    leaves the store as it was.  The 200 returns the token made from the
    bytes drawn and changes the [servers] table only, and there only
    [refresh_token] and [last_seen]: ids, organisation, agent id, facts,
    signing secret and [first_seen] of every row stay. *)
Theorem rotate_refusal_leaves_store env now random req s :
  match rotate env now random req s with
  | (Shared _, s') => s' = s
  | (Rotated _ token, s') =>
      token = generateSecret random
      /\ set_servers (tbl_servers s) s' = s
      /\ map (fun r => (srv_id r, srv_org_id r, srv_agent_id r, srv_facts r,
                        srv_hmac_secret r, srv_first_seen r)) (tbl_servers s')
         = map (fun r => (srv_id r, srv_org_id r, srv_agent_id r, srv_facts r,
                          srv_hmac_secret r, srv_first_seen r)) (tbl_servers s)
  end.
Proof.
  unfold rotate.
  destruct (String.eqb (method req) "OPTIONS"); [reflexivity |].
  destruct (negb (String.eqb (method req) "POST")); [reflexivity |].
  destruct (JSON_parse (body req)) as [j |]; [| reflexivity].
  destruct (safeParse RotateRequestSchema j) as [parsed | issues]; [| reflexivity].
  destruct (createServiceClient env) as [[] | msg]; [| reflexivity].
  rewrite getServerByAgentId_run.
  destruct (filter _ (tbl_servers s)) as [| srv [| y l]]; try reflexivity.
  destruct (negb (String.eqb (srv_refresh_token srv) (rr_refresh_token parsed)));
    [reflexivity |].
  destruct (createAgentJWT env now (rr_agent_id parsed) (srv_org_id srv));
    [| reflexivity].
  simpl. split; [reflexivity | split].
  - destruct s; reflexivity.
  - rewrite map_map. apply map_ext. intros r.
    destruct (String.eqb (srv_agent_id r) (rr_agent_id parsed)); reflexivity.
Qed.

(** The checks a rotation passed. *)
Lemma rotate_ok env now random req s jwt token s' :
  rotate env now random req s = (Rotated jwt token, s') ->
  exists j parsed srv,
    method req = "POST"
    /\ JSON_parse (body req) = Some j
    /\ safeParse RotateRequestSchema j = SafeParseSuccess parsed
    /\ createServiceClient env = Normal tt
    /\ filter (fun r => String.eqb (srv_agent_id r) (rr_agent_id parsed))
              (tbl_servers s) = [srv]
    /\ srv_refresh_token srv = rr_refresh_token parsed
    /\ createAgentJWT env now (rr_agent_id parsed) (srv_org_id srv) = Normal jwt
    /\ token = generateSecret random
    /\ s' = set_servers
              (map (fun r => if String.eqb (srv_agent_id r) (rr_agent_id parsed)
                             then with_refresh_token token now r else r)
                   (tbl_servers s)) s.
Proof.
  unfold rotate.
  destruct (String.eqb (method req) "OPTIONS"); [discriminate |].
  destruct (String.eqb (method req) "POST") eqn:Hm; cbn [negb]; [| discriminate].
  apply String.eqb_eq in Hm.
  destruct (JSON_parse (body req)) as [j |]; [| discriminate].
  destruct (safeParse RotateRequestSchema j) as [parsed | issues] eqn:Hp;
    [| discriminate].
  destruct (createServiceClient env) as [[] | msg]; [| discriminate].
  rewrite getServerByAgentId_run.
  destruct (filter _ (tbl_servers s)) as [| srv [| y l]] eqn:Hsel; try discriminate.
  destruct (String.eqb (srv_refresh_token srv) (rr_refresh_token parsed)) eqn:Htok;
    cbn [negb]; [| discriminate].
  apply String.eqb_eq in Htok.
  destruct (createAgentJWT env now (rr_agent_id parsed) (srv_org_id srv))
    as [jwt' |] eqn:Hjwt; [| discriminate].
  intros H. injection H as <- <- <-.
  exists j, parsed, srv. repeat split; auto.
Qed.

Lemma filter_agent_rotated agent token now l srv :
  filter (fun r => String.eqb (srv_agent_id r) agent) l = [srv] ->
  filter (fun r => String.eqb (srv_agent_id r) agent)
         (map (fun r => if String.eqb (srv_agent_id r) agent
                        then with_refresh_token token now r else r) l)
  = [with_refresh_token token now srv].
Proof.
  intros Hsel.
  rewrite (filter_map_same (fun r => String.eqb (srv_agent_id r) agent)).
  - rewrite Hsel. simpl.
    assert (H : In srv [srv]) by (left; reflexivity).
    rewrite <- Hsel in H. apply filter_In in H. destruct H as [_ H].
    rewrite H. reflexivity.
  - intros r. destruct (String.eqb (srv_agent_id r) agent) eqn:E;
      simpl; rewrite ?E; reflexivity.
Qed.

(** X13: a refresh token is good for one rotation.  After a rotation
    whose new token differs from the one presented, the same request is
    answered 403 "Invalid refresh token", at any time and whatever bytes
    are drawn, and the store stays as the rotation left it. *)
Theorem rotated_token_single_use env now now2 random random2 req s jwt token s'
        j parsed :
  rotate env now random req s = (Rotated jwt token, s') ->
  JSON_parse (body req) = Some j ->
  safeParse RotateRequestSchema j = SafeParseSuccess parsed ->
  rr_refresh_token parsed <> generateSecret random ->
  rotate env now2 random2 req s'
  = (Shared (errorResponse "Invalid refresh token" 403), s').
Proof.
  intros Hrot Hj0 Hp0 Hnew.
  destruct (rotate_ok _ _ _ _ _ _ _ _ Hrot)
    as (j' & parsed' & srv & Hm & Hj & Hp & Hc & Hsel & Htok & Hjwt & Ht & ->).
  rewrite Hj0 in Hj. injection Hj as <-. rewrite Hp0 in Hp. injection Hp as <-.
  subst token.
  unfold rotate. rewrite Hm, Hj0, Hp0, Hc. simpl String.eqb. cbn iota. simpl negb.
  cbn iota. rewrite getServerByAgentId_run. cbn [tbl_servers set_servers].
  rewrite (filter_agent_rotated _ _ _ _ _ Hsel).
  cbn [srv_refresh_token with_refresh_token].
  destruct (String.eqb_spec (generateSecret random) (rr_refresh_token parsed))
    as [E | E]; [symmetry in E; contradiction | reflexivity].
Qed.

(** X14: the token a rotation returns is the one the next rotation
    accepts: a POST whose body presents the same agent id with the new
    token is answered 200 with a further token. *)
Theorem rotated_token_accepted env now now2 random random2 req req2 s jwt token s'
        j parsed j2 :
  rotate env now random req s = (Rotated jwt token, s') ->
  JSON_parse (body req) = Some j ->
  safeParse RotateRequestSchema j = SafeParseSuccess parsed ->
  method req2 = "POST" ->
  JSON_parse (body req2) = Some j2 ->
  safeParse RotateRequestSchema j2
  = SafeParseSuccess (mkRotateRequest (rr_agent_id parsed) token) ->
  exists jwt2 s2,
    rotate env now2 random2 req2 s' = (Rotated jwt2 (generateSecret random2), s2).
Proof.
  intros Hrot Hj0 Hp0 Hm2 Hj2 Hp2.
  destruct (rotate_ok _ _ _ _ _ _ _ _ Hrot)
    as (j' & parsed' & srv & Hm & Hj & Hp & Hc & Hsel & Htok & Hjwt & Ht & ->).
  rewrite Hj0 in Hj. injection Hj as <-. rewrite Hp0 in Hp. injection Hp as <-.
  destruct (createAgentJWT_again env now now2 _ _ _ (rr_agent_id parsed)
              (srv_org_id srv) Hjwt) as [jwt2 Hjwt2].
  unfold rotate. rewrite Hm2, Hj2, Hp2, Hc. simpl String.eqb. cbn iota. simpl negb.
  cbn iota. rewrite getServerByAgentId_run. cbn [tbl_servers set_servers rr_agent_id].
  rewrite (filter_agent_rotated _ _ _ _ _ Hsel).
  cbn [srv_refresh_token with_refresh_token rr_refresh_token srv_org_id].
  rewrite String.eqb_refl. simpl negb. cbn iota. rewrite Hjwt2.
  eexists. eexists. reflexivity.
Qed.

End Rotate.

(* ===================================================================== *)
(** ** More of [_shared/auth.ts] *)
(* ===================================================================== *)

Section GenerateSecret.

Lemma concat_cons (x : string) (l : list string) :
  String.concat "" (x :: l) = (x ++ String.concat "" l)%string.
Proof.
  destruct l as [| y l]; simpl; [| reflexivity].
  induction x as [| c x IH]; simpl; [reflexivity | rewrite <- IH; reflexivity].
Qed.

Lemma byte_hex_form (b : Byte.byte) :
  padStart 2 (toString16 b)
  = String (hex_digit (Byte.to_N b / 16))
           (String (hex_digit (Byte.to_N b mod 16)) EmptyString).
Proof. destruct b; reflexivity. Qed.

Lemma generateSecret_cons b bs :
  generateSecret (b :: bs)
  = String (hex_digit (Byte.to_N b / 16))
           (String (hex_digit (Byte.to_N b mod 16)) (generateSecret bs)).
Proof.
  unfold generateSecret. cbn [map]. rewrite concat_cons, byte_hex_form. reflexivity.
Qed.

Lemma hex_digits_are_hex (b : Byte.byte) :
  is_hex (hex_digit (Byte.to_N b / 16)) = true
  /\ is_hex (hex_digit (Byte.to_N b mod 16)) = true.
Proof. destruct b; split; reflexivity. Qed.

Lemma byte_of_hex_digits (b : Byte.byte) :
  byte_of_hex (hex_digit (Byte.to_N b / 16)) (hex_digit (Byte.to_N b mod 16)) = Some b.
Proof. destruct b; reflexivity. Qed.

(** X15: [generateSecret] writes two lowercase hex digits per byte:
    the secret is twice as long as the array, and every character is one
    of 0-9, a-f. *)
Theorem generateSecret_shape (random : list Byte.byte) :
  String.length (generateSecret random) = 2 * List.length random
  /\ string_forallb is_hex (generateSecret random) = true.
Proof.
  induction random as [| b bs [IHl IHh]]; [split; reflexivity |].
  rewrite generateSecret_cons. cbn [String.length string_forallb List.length].
  destruct (hex_digits_are_hex b) as [H1 H2]. rewrite H1, H2, IHh, IHl.
  split; [lia | reflexivity].
Qed.

(** X16: the encoding loses nothing: two arrays that give the same
    secret are the same array.  ([padStart] is what makes this hold: it
    keeps the bytes below 16 two characters wide.) *)
Theorem generateSecret_injective (a b : list Byte.byte) :
  generateSecret a = generateSecret b -> a = b.
Proof.
  revert b. induction a as [| x a IH]; intros [| y b] H.
  - reflexivity.
  - rewrite generateSecret_cons in H. discriminate H.
  - rewrite generateSecret_cons in H. discriminate H.
  - rewrite !generateSecret_cons in H. injection H as H1 H2 H3.
    pose proof (byte_of_hex_digits x) as Hx. rewrite H1, H2 in Hx.
    rewrite byte_of_hex_digits in Hx. injection Hx as <-.
    f_equal. apply IH. exact H3.
Qed.

End GenerateSecret.

Section Tokens.
Context {PF : Platform}.

(** X24: a token lives one hour.  For a token minted at [now] (a clock
    not before the epoch) that the codec reads back as it was written,
    [verifyAgentJWT] returns the agent and the organisation it was minted
    for at every clock value up to [now] + 3599501 ms, and throws "JWT
    expired" at every clock value after [now] + 3600500 ms; the second in
    between is the rounding of [getNumericDate]. *)
Theorem minted_token_lifetime env now now2 agentId orgId token :
  createAgentJWT env now agentId orgId = Normal token ->
  (0 <= now)%Z ->
  jwt_decode (or_empty (JWT_SECRET env)) token
  = Some (mkJwtPayload agentId orgId JWT_ISSUER JWT_AUDIENCE
            (Some (getNumericDate now (JWT_TTL_MINUTES * 60)))
            (Some (getNumericDate now 0))) ->
  ((now2 <= now + 3599501)%Z ->
   verifyAgentJWT env now2 token = Normal (agentId, orgId))
  /\ ((now + 3600500 < now2)%Z ->
      verifyAgentJWT env now2 token = Throw "JWT verification failed: JWT expired").
Proof.
  unfold createAgentJWT, verifyAgentJWT.
  destruct (negb (truthy (JWT_SECRET env))); [discriminate |].
  intros _ Hnow ->.
  unfold jwt_expired, getNumericDate, JWT_TTL_MINUTES. cbn [exp iss aud sub jwt_org_id].
  change (60 * 60)%Z with 3600%Z.
  pose proof (Z.div_mod (now + 500) 1000 ltac:(lia)) as D.
  pose proof (Z.mod_pos_bound (now + 500) 1000 ltac:(lia)) as B.
  assert (Hnz : (((now + 500) / 1000 + 3600) =? 0)%Z = false)
    by (apply Z.eqb_neq; pose proof (Z.div_pos (now + 500) 1000); lia).
  rewrite Hnz. cbn [negb andb].
  split; intros H.
  - assert (E : ((((now + 500) / 1000 + 3600) * 1000) <? now2)%Z = false)
      by (apply Z.ltb_ge; lia).
    rewrite E. reflexivity.
  - assert (E : ((((now + 500) / 1000 + 3600) * 1000) <? now2)%Z = true)
      by (apply Z.ltb_lt; lia).
    rewrite E. reflexivity.
Qed.

End Tokens.

Section Bearer.

Lemma lower_bearer_length prefix :
  lower_string prefix = "bearer" -> String.length prefix = 6.
Proof.
  destruct prefix as [| c1 [| c2 [| c3 [| c4 [| c5 [| c6 [| c7 p]]]]]]]; simpl;
    intros H; try discriminate H; reflexivity.
Qed.

Lemma substring_prefix (a b : string) :
  substring 0 (String.length a) (a ++ b) = a.
Proof.
  induction a as [| c a IH]; simpl.
  - destruct b; reflexivity.
  - rewrite IH. reflexivity.
Qed.

Lemma substring_suffix (a b : string) :
  substring (String.length a) (String.length b) (a ++ b) = b.
Proof.
  induction a as [| c a IH]; simpl; [| exact IH].
  induction b as [| c b IHb]; simpl; [reflexivity | rewrite IHb; reflexivity].
Qed.

Lemma length_append (a b : string) :
  String.length (a ++ b) = String.length a + String.length b.
Proof. induction a; simpl; auto. Qed.

Lemma drop_spaces_append spaces token :
  string_forallb is_space spaces = true ->
  match token with String c _ => is_space c = false | EmptyString => True end ->
  drop_spaces (spaces ++ token) = token.
Proof.
  intros Hs Ht. induction spaces as [| c sp IH]; simpl in *.
  - destruct token as [| c t]; [reflexivity |]. simpl. rewrite Ht. reflexivity.
  - apply andb_true_iff in Hs. destruct Hs as [Hc Hsp]. rewrite Hc. auto.
Qed.

(** X25: [authHeader.replace(/^Bearer\s+/i, "")]: for a header made of
    the word "bearer" in any letter case, one or more characters that
    [\s] matches in a header value (tab, line feed, vertical tab, form
    feed, carriage return, space, no-break space), and a token that does
    not begin with such a character, what is handed to [verifyAgentJWT]
    is the token. *)
Theorem strip_bearer_token (prefix spaces token : string) :
  lower_string prefix = "bearer" ->
  spaces <> "" ->
  string_forallb is_space spaces = true ->
  match token with String c _ => is_space c = false | EmptyString => True end ->
  strip_bearer (prefix ++ spaces ++ token) = token.
Proof.
  intros Hp Hne Hs Ht.
  unfold strip_bearer.
  pose proof (lower_bearer_length _ Hp) as Hlen.
  assert (E1 : substring 0 6 (prefix ++ spaces ++ token) = prefix)
    by (rewrite <- Hlen; apply substring_prefix).
  assert (E2 : substring 6 (String.length (prefix ++ spaces ++ token) - 6)
                         (prefix ++ spaces ++ token) = (spaces ++ token)%string).
  { rewrite length_append, Hlen.
    replace (6 + String.length (spaces ++ token) - 6)
      with (String.length (spaces ++ token)) by lia.
    rewrite <- Hlen. apply substring_suffix. }
  rewrite E1, E2, Hp, String.eqb_refl.
  destruct spaces as [| c sp]; [contradiction |].
  cbn [string_forallb] in Hs. apply andb_true_iff in Hs. destruct Hs as [Hc Hsp].
  cbn [append drop_spaces andb]. rewrite !Hc.
  apply drop_spaces_append; assumption.
Qed.

(** Without the word, or without a [\s] character after it, the header is
    handed on as it is. *)
Lemma strip_bearer_other (authHeader : string) :
  lower_string (substring 0 6 authHeader) <> "bearer"
  \/ match substring 6 (String.length authHeader - 6) authHeader with
     | String c _ => is_space c = false
     | EmptyString => True
     end ->
  strip_bearer authHeader = authHeader.
Proof.
  unfold strip_bearer. intros [H | H].
  - apply String.eqb_neq in H. rewrite H. reflexivity.
  - destruct (substring 6 _ authHeader) as [| c r].
    + rewrite andb_false_r. reflexivity.
    + rewrite H, andb_false_r. reflexivity.
Qed.

End Bearer.


(* ===================================================================== *)
(** ** More of the rollup builder *)
(* ===================================================================== *)

Section Rollups.
Context {PF : Platform}.

Lemma group_key_eqb_eq (a b : GroupKey) : group_key_eqb a b = true <-> a = b.
Proof.
  destruct a as [[ba oa] sa], b as [[bb ob] sb]. unfold group_key_eqb.
  rewrite !andb_true_iff, Z.eqb_eq, String.eqb_eq, Nat.eqb_eq.
  split; [intros [[-> ->] ->]; reflexivity | intros H; injection H; auto].
Qed.

Lemma group_key_eqb_refl a : group_key_eqb a a = true.
Proof. apply group_key_eqb_eq. reflexivity. Qed.

Lemma existsb_key_in k l : existsb (group_key_eqb k) l = true <-> In k l.
Proof.
  rewrite existsb_exists. split.
  - intros [x [Hin Hx]]. apply group_key_eqb_eq in Hx. subst. exact Hin.
  - intros H. exists k. split; [exact H | apply group_key_eqb_refl].
Qed.

Lemma distinct_keys_in seen ks k :
  In k (distinct_keys seen ks) <-> In k ks /\ ~ In k seen.
Proof.
  revert seen. induction ks as [| x ks IH]; intros seen; simpl.
  - tauto.
  - destruct (existsb (group_key_eqb x) seen) eqn:E.
    + apply existsb_key_in in E. rewrite IH. split.
      * intros [H1 H2]. auto.
      * intros [[-> | H1] H2]; [contradiction | auto].
    + assert (Hx : ~ In x seen).
      { intros H. apply existsb_key_in in H. congruence. }
      simpl. rewrite IH. simpl. split.
      * intros [-> | [H1 H2]]; auto.
      * intros [[-> | H1] H2]; [auto |].
        destruct (group_key_eqb x k) eqn:Exk.
        -- apply group_key_eqb_eq in Exk. auto.
        -- right. split; [exact H1 |]. intros [-> | H]; [| contradiction].
           rewrite group_key_eqb_refl in Exk. discriminate.
Qed.

Lemma distinct_keys_nodup seen ks : NoDup (distinct_keys seen ks).
Proof.
  revert seen. induction ks as [| x ks IH]; intros seen; simpl.
  - constructor.
  - destruct (existsb (group_key_eqb x) seen); [apply IH |].
    constructor; [| apply IH].
    rewrite distinct_keys_in. simpl. tauto.
Qed.

Lemma list_sum_map_add {K} (f g : K -> nat) (ks : list K) :
  list_sum (map (fun k => f k + g k) ks) = list_sum (map f ks) + list_sum (map g ks).
Proof. induction ks as [| k ks IH]; simpl; [reflexivity | rewrite IH; lia]. Qed.

Lemma indicator_sum (k0 : GroupKey) (ks : list GroupKey) :
  NoDup ks ->
  list_sum (map (fun k => if group_key_eqb k0 k then 1 else 0) ks)
  = if existsb (group_key_eqb k0) ks then 1 else 0.
Proof.
  induction ks as [| k ks IH]; intros Hnd; simpl; [reflexivity |].
  inversion Hnd as [| ? ? Hnot Hnd']; subst. rewrite (IH Hnd').
  destruct (group_key_eqb k0 k) eqn:E; simpl; [| reflexivity].
  apply group_key_eqb_eq in E. subst k.
  destruct (existsb (group_key_eqb k0) ks) eqn:Ex; [| reflexivity].
  apply existsb_key_in in Ex. contradiction.
Qed.

(** Over keys that are pairwise distinct and cover the rows, the groups
    partition the rows. *)
Lemma groups_partition {A} (key : A -> GroupKey) (ks : list GroupKey) (l : list A) :
  NoDup ks -> (forall x, In x l -> In (key x) ks) ->
  list_sum (map (fun k => List.length (filter (fun r => group_key_eqb (key r) k) l)) ks)
  = List.length l.
Proof.
  intros Hnd. induction l as [| x l IH]; intros Hcov.
  - clear Hnd Hcov. induction ks as [| k ks IHk]; simpl; auto.
  - assert (Hin : In (key x) ks) by (apply Hcov; left; reflexivity).
    specialize (IH (fun y Hy => Hcov y (or_intror Hy))).
    rewrite (map_ext _ (fun k => (if group_key_eqb (key x) k then 1 else 0)
                                 + List.length
                                     (filter (fun r => group_key_eqb (key r) k) l))).
    + rewrite list_sum_map_add, IH, (indicator_sum _ _ Hnd).
      apply existsb_key_in in Hin. rewrite Hin. reflexivity.
    + intros k. cbn [filter]. destruct (group_key_eqb (key x) k); reflexivity.
Qed.

(** X18: the 1-minute and 1-hour [SELECT ... GROUP BY] count every
    heartbeat of the window exactly once: the [sample_count]s of the rows
    it yields add up to the number of heartbeats with [lo <= ts < hi], and
    no two of its rows have the same (bucket, organisation, host). *)
Theorem rollup_counts_every_heartbeat_once width with_max lo hi hbs :
  list_sum (map (fun r => sample_count (ru_values r))
                (rollup_select width with_max lo hi hbs))
  = List.length (filter (in_window lo hi) hbs)
  /\ NoDup (map (fun r => (ru_bucket r, ru_org_id r, ru_server_id r))
                (rollup_select width with_max lo hi hbs)).
Proof.
  unfold rollup_select. fold (in_window lo hi).
  set (window := filter (in_window lo hi) hbs).
  set (ks := distinct_keys [] (map (group_key width) window)).
  rewrite !map_map. split.
  - rewrite <- (groups_partition (group_key width) ks window).
    + f_equal. apply map_ext. intros [[b o] sv]. reflexivity.
    + apply distinct_keys_nodup.
    + intros x Hx. apply distinct_keys_in. split; [apply in_map; exact Hx | auto].
  - rewrite (map_ext _ (fun k => k)); [rewrite map_id; apply distinct_keys_nodup |].
    intros [[b o] sv]. reflexivity.
Qed.


Lemma conflict_free_map (mk : GroupKey -> RollupRow) (ks : list GroupKey) :
  NoDup ks ->
  (forall k k', In k ks -> In k' ks -> same_bucket (mk k) (mk k') = true -> k = k') ->
  conflict_free (map mk ks) = true.
Proof.
  induction ks as [| k ks IH]; intros Hnd Hinj; simpl; [reflexivity |].
  inversion Hnd as [| ? ? Hnot Hnd']; subst.
  rewrite IH; [| exact Hnd' | intros a b Ha Hb; apply Hinj; right; assumption].
  rewrite andb_true_r. apply negb_true_iff. apply not_true_iff_false.
  intros Hex. apply existsb_exists in Hex. destruct Hex as [x [Hx Hsb]].
  apply in_map_iff in Hx. destruct Hx as [k' [<- Hk']].
  assert (k = k') by (apply Hinj; [left; reflexivity | right; exact Hk' | exact Hsb]).
  subst k'. contradiction.
Qed.

Lemma rollup_select_conflict_free width with_max lo hi hbs :
  one_org_per_host hbs ->
  conflict_free (rollup_select width with_max lo hi hbs) = true.
Proof.
  intros Hone. unfold rollup_select. fold (in_window lo hi).
  apply conflict_free_map; [apply distinct_keys_nodup |].
  intros k k' Hk Hk'.
  apply distinct_keys_in in Hk. destruct Hk as [Hk _].
  apply distinct_keys_in in Hk'. destruct Hk' as [Hk' _].
  apply in_map_iff in Hk. destruct Hk as [a [<- Ha]].
  apply in_map_iff in Hk'. destruct Hk' as [b [<- Hb]].
  apply filter_In in Ha. destruct Ha as [Ha _].
  apply filter_In in Hb. destruct Hb as [Hb _].
  unfold group_key, same_bucket. simpl.
  rewrite andb_true_iff, Nat.eqb_eq, Z.eqb_eq. intros [Hs Hbk].
  rewrite Hbk, Hs, (Hone a b Ha Hb Hs). reflexivity.
Qed.

(** X19: with [exec_sql] running the statement it is given, and every
    host reporting under one organisation, the rollup statement is not
    refused (no two of its rows hit the same
    [(server_id, bucket)]), and after a 200 the 1-minute table holds, for
    every group of the window from the start of the minute two minutes ago
    up to now, a row of that host and bucket with the aggregates of the
    group. *)
Theorem rollup_stores_every_group env now req s resp s' :
  run (rollup_builder env now req) s = (resp, s') ->
  status resp = 200 ->
  one_org_per_host (tbl_heartbeats s) ->
  refused_writes (rollup_builder env now req) s = []
  /\ forall r,
       In r (rollup_select 60000 false ((now - 2 * 60 * 1000) / 60000 * 60000) now
                           (tbl_heartbeats s)) ->
       exists x, In x (tbl_rollup_1m s')
                 /\ ru_server_id x = ru_server_id r
                 /\ ru_bucket x = ru_bucket r
                 /\ ru_values x = ru_values r.
Proof.
  unfold rollup_builder.
  destruct (cron_rejected env req); [intros H; injection H as <- _; discriminate |].
  destruct (createServiceClient env);
    [| intros H; injection H as <- _; discriminate].
  intros Hrun _ Hone. revert Hrun.
  cbn [bind query run refused_writes exec String.eqb Ascii.eqb Bool.eqb run_sql
       is_write answer_failed].
  change (60 * 1000)%Z with 60000%Z.
  unfold upsert_all.
  rewrite (rollup_select_conflict_free 60000 false _ now _ Hone).
  cbn [fst snd error pg_done isSome andb].
  intros H. injection H as _ <-. split; [reflexivity |].
  intros r Hr. cbn [tbl_rollup_1m set_rollup_1m].
  pose proof (fold_upsert_settles _ (tbl_rollup_1m s)
                (rollup_select_conflict_free 60000 false _ now _ Hone) r Hr)
    as [Hex Hput].
  apply existsb_exists in Hex. destruct Hex as [x [Hx Hsb]].
  exists x. split; [exact Hx |].
  specialize (Hput x Hx). unfold put in Hput. rewrite Hsb in Hput.
  unfold same_bucket in Hsb. apply andb_true_iff in Hsb. destruct Hsb as [H1 H2].
  apply Nat.eqb_eq in H1. apply Z.eqb_eq in H2.
  split; [auto | split; [auto |]].
  rewrite <- Hput at 1. reflexivity.
Qed.

(** X20: the buckets the rollup builder reports.  [bucket_1m] is the
    start of the minute that contains the clock minus two minutes,
    [bucket_1h] the start of the hour that contains the clock minus one
    hour: multiples of 60000 and 3600000 ms, at most that far back and
    less than one width further. *)
Theorem rollup_buckets_aligned env now req s timestamp msg b1 b2 s' :
  run (rollup_builder env now req) s
  = (jsonResponse (BRollup timestamp msg b1 b2) 200, s') ->
  (b1 mod 60000 = 0 /\ now - 180000 < b1 <= now - 120000
   /\ b2 mod 3600000 = 0 /\ now - 7200000 < b2 <= now - 3600000)%Z.
Proof.
  unfold rollup_builder.
  destruct (cron_rejected env req); [discriminate |].
  destruct (createServiceClient env); [| discriminate].
  rewrite run_bind. destruct (run (query _) s) as [x s1].
  cbn [run]. intros H. injection H as _ _ <- <- _.
  change (2 * 60 * 1000)%Z with 120000%Z. change (60 * 1000)%Z with 60000%Z.
  change (60 * 60 * 1000)%Z with 3600000%Z.
  pose proof (Z.div_mod (now - 120000) 60000 ltac:(lia)) as D1.
  pose proof (Z.mod_pos_bound (now - 120000) 60000 ltac:(lia)) as B1.
  pose proof (Z.div_mod (now - 3600000) 3600000 ltac:(lia)) as D2.
  pose proof (Z.mod_pos_bound (now - 3600000) 3600000 ltac:(lia)) as B2.
  rewrite !Z.mod_mul by lia. lia.
Qed.

End Rollups.

(* ===================================================================== *)
(** ** More of the offline detector *)
(* ===================================================================== *)

Section AlertHistory.
Context {PF : Platform}.

Lemma Forall2_alert_kept_refl l : Forall2 alert_kept l l.
Proof. induction l; constructor; auto. left. reflexivity. Qed.

Lemma alert_kept_trans a b c : alert_kept a b -> alert_kept b c -> alert_kept a c.
Proof.
  intros [-> | ->] [-> | ->]; [left | right | right | right]; reflexivity.
Qed.

Lemma Forall2_alert_kept_trans l1 l2 l3 :
  Forall2 alert_kept l1 l2 -> Forall2 alert_kept l2 l3 -> Forall2 alert_kept l1 l3.
Proof.
  intros H. revert l3. induction H; intros l3 H3; inversion H3; subst; constructor.
  - eapply alert_kept_trans; eassumption.
  - auto.
Qed.

Lemma raised_at_kept now l l' :
  Forall (raised_at now) l -> Forall2 alert_kept l l' -> Forall (raised_at now) l'.
Proof.
  intros H H2. induction H2; inversion H; subst; constructor; auto.
  match goal with Hk : alert_kept _ _ |- _ => destruct Hk as [-> | ->] end;
    [assumption |].
  match goal with Hr : raised_at _ _ |- _ => destruct Hr as (? & ? & ? & ?) end.
  repeat split; auto.
Qed.

Lemma alert_history_refl now s : alert_history now s s.
Proof.
  constructor; try reflexivity.
  exists (tbl_alerts s), []. rewrite app_nil_r.
  repeat split; [apply Forall2_alert_kept_refl | constructor].
Qed.

Lemma alert_history_trans now s1 s2 s3 :
  alert_history now s1 s2 -> alert_history now s2 s3 -> alert_history now s1 s3.
Proof.
  intros [(k1 & a1 & E1 & K1 & R1) ? ? ? ? ? ?] [(k2 & a2 & E2 & K2 & R2) ? ? ? ? ? ?].
  constructor; try congruence.
  rewrite E1 in K2. apply Forall2_app_inv_l in K2.
  destruct K2 as (k2a & k2b & Ka & Kb & ->).
  exists k2a, (k2b ++ a2). split; [rewrite E2; symmetry; apply app_assoc |].
  split; [eapply Forall2_alert_kept_trans; eassumption |].
  apply Forall_app. split; [apply (raised_at_kept now a1); assumption | assumption].
Qed.

Lemma Forall2_alert_kept_map (g : AlertRow -> AlertRow) l :
  (forall a, alert_kept a (g a)) -> Forall2 alert_kept l (map g l).
Proof. intros H. induction l; simpl; constructor; auto. Qed.

Lemma detector_stmt_history now X (e : dbE X) s :
  detector_stmt now X e -> alert_history now s (snd (exec e s)).
Proof.
  destruct e; simpl; try contradiction; intros H;
    try apply alert_history_refl.
  - destruct H as (Hts & Hty & Hsv & Hst). rewrite Hst, Hsv. simpl.
    constructor; try reflexivity. simpl.
    exists (tbl_alerts s). eexists. split; [reflexivity |].
    split; [apply Forall2_alert_kept_refl |].
    constructor; [| constructor]. repeat split; auto.
  - rewrite H. simpl. constructor; try reflexivity. simpl.
    eexists. exists []. rewrite app_nil_r. split; [reflexivity |].
    split; [| constructor].
    apply Forall2_alert_kept_map. intros x.
    destruct (Nat.eqb (al_id x) id); [right | left]; reflexivity.
Qed.

Lemma open_alerts_stmts now l c : all_stmts (detector_stmt now) (open_alerts now l c).
Proof.
  revert c. induction l as [| srv l IH]; intros c; simpl; [exact I |].
  split; [exact I |]. intros x.
  destruct (data x); [apply IH |].
  simpl. split; [repeat split; reflexivity |]. intros _. apply IH.
Qed.

Lemma clear_alerts_stmts now l c : all_stmts (detector_stmt now) (clear_alerts l c).
Proof.
  revert c. induction l as [| srv l IH]; intros c; simpl; [exact I |].
  split; [exact I |]. intros x.
  destruct (data x); [| apply IH].
  simpl. split; [reflexivity |]. intros _. apply IH.
Qed.

Lemma offline_detector_stmts env now req :
  all_stmts (detector_stmt now) (offline_detector env now req).
Proof.
  unfold offline_detector.
  destruct (cron_rejected env req); [exact I |].
  destruct (createServiceClient env); [| exact I].
  simpl. split; [exact I |]. intros offline.
  destruct (error offline); [exact I |].
  apply all_stmts_bind; [apply open_alerts_stmts |]. intros c.
  simpl. split; [exact I |]. intros online.
  destruct (error online); [exact I |].
  apply all_stmts_bind; [apply clear_alerts_stmts |]. intros k. exact I.
Qed.

(** What the two loops count. *)
Lemma open_alerts_count now l : forall c s,
  List.length (tbl_alerts (snd (run (open_alerts now l c) s))) + c
  = List.length (tbl_alerts s) + fst (run (open_alerts now l c) s).
Proof.
  induction l as [| srv l IH]; intros c s; simpl; [lia |].
  destruct (data (single _)).
  - apply IH.
  - simpl. pose proof (IH (S c)
      (bump_id (set_alerts
         (tbl_alerts s ++
          [mkAlertRow (next_id s) (srv_org_id srv) (srv_id srv) now "offline"
             "critical"
             ("Server " ++ hostname (srv_facts srv) ++ " is offline (last seen: "
              ++ pg_show_timestamptz (srv_last_seen srv) ++ ")")%string "open"]) s)))
      as H.
    simpl in H. rewrite length_app in H. simpl in H. lia.
Qed.

Lemma clear_alerts_length l : forall c s,
  List.length (tbl_alerts (snd (run (clear_alerts l c) s))) = List.length (tbl_alerts s).
Proof.
  induction l as [| srv l IH]; intros c s; simpl; [reflexivity |].
  destruct (data (single _)).
  - simpl. rewrite IH. simpl. apply length_map.
  - apply IH.
Qed.

(** X21: the offline detector keeps the history of alerts.  Whatever it
    answers, every alert that was on record is still there, in place and
    unchanged except that its status may have become "cleared"; what it
    adds comes after them and is a critical "offline" alert stamped with
    the time of the run; no other table changes.  After a 200 the table
    has grown by exactly the [alerts_created] it reports, and
    [offline_servers] is the number of servers last seen before the
    cutoff. *)
Theorem detector_keeps_alert_history env now req s resp s' :
  run (offline_detector env now req) s = (resp, s') ->
  alert_history now s s'
  /\ forall timestamp n c k,
       resp = jsonResponse (BOfflineDetector timestamp n c k) 200 ->
       List.length (tbl_alerts s') = List.length (tbl_alerts s) + c
       /\ n = List.length
                (filter (fun r => (srv_last_seen r <? now - 10 * 60 * 1000)%Z)
                        (tbl_servers s)).
Proof.
  intros Hrun. split.
  - pose proof (run_all_stmts (detector_stmt now) (alert_history now)
                  (alert_history_refl now) (alert_history_trans now)
                  (detector_stmt_history now) _ _ s
                  (offline_detector_stmts env now req)) as H.
    rewrite Hrun in H. exact H.
  - revert Hrun. unfold offline_detector.
    destruct (cron_rejected env req); [intros H; injection H as <- _; discriminate |].
    destruct (createServiceClient env);
      [| intros H; injection H as <- _; discriminate].
    cbn [bind query run exec error pg_rows rows_or_empty data].
    rewrite run_bind.
    pose proof (open_alerts_count now
                  (filter (fun r => (srv_last_seen r <? now - OFFLINE_THRESHOLD_MINUTES * 60 * 1000)%Z)
                          (tbl_servers s)) 0 s) as Hc.
    destruct (run (open_alerts now _ 0) s) as [c0 s1]. cbn [fst snd] in Hc.
    cbn [bind query run exec error pg_rows rows_or_empty data].
    rewrite run_bind.
    pose proof (clear_alerts_length
                  (filter (fun r => (now - OFFLINE_THRESHOLD_MINUTES * 60 * 1000 <=? srv_last_seen r)%Z)
                          (tbl_servers s1)) 0 s1) as Hk.
    destruct (run (clear_alerts _ 0) s1) as [k0 s2]. cbn [fst snd] in Hk.
    cbn [run]. intros H timestamp n c k Hresp.
    injection H as <- <-. injection Hresp as _ <- <- _.
    split; [lia | reflexivity].
Qed.

End AlertHistory.

Section HeartbeatAndDetector.
Context {PF : Platform}.

Lemma listed_in sid l : (exists r, In r l /\ srv_id r = sid) -> listed sid l = true.
Proof.
  intros [r [Hin Hid]]. unfold listed. apply existsb_exists.
  exists (srv_id r). split; [apply in_map; exact Hin |].
  subst sid. apply Nat.eqb_refl.
Qed.

(** An accepted request none of whose writes was refused: the verified
    request, the payload, and the commit phase it ran. *)
Lemma accepted_unrefused env now req s resp s1 :
  run (ingest env now req) s = (resp, s1) ->
  status resp = 200 ->
  refused_writes (ingest env now req) s = [] ->
  exists v d,
    verified_by env now req s v
    /\ run (ingest_commit now (v_orgId v) (v_agentId v) (v_server v) d)
           (with_nonce now req v s) = (resp, s1)
    /\ refused_writes (ingest_commit now (v_orgId v) (v_agentId v) (v_server v) d)
                      (with_nonce now req v s) = [].
Proof.
  intros Hrun Hst Href.
  destruct (ingest_past_verify _ _ _ _ _ _ Hrun (or_introl Hst))
    as [v [Hv [Hver Hproc]]].
  unfold ingest in Href. rewrite refused_writes_bind, Hver in Href.
  apply app_eq_nil in Href. destruct Href as [_ Href]. cbn [fst snd] in Href.
  revert Hproc Href. unfold ingest_process.
  destruct (JSON_parse (v_bodyText v)) as [j |];
    [| intros H; injection H as <- _; discriminate].
  destruct (safeParse IngestPayloadSchema j) as [d | issues];
    [| intros H; injection H as <- _; discriminate].
  intros Hc Hr. exists v, d. auto.
Qed.

(** X26: a heartbeat brings the host back.  After an accepted request
    none of whose writes was refused, a detector run that answers 200 at
    most ten minutes later leaves no open "offline" alert for the host the
    request was verified for. *)
Theorem heartbeat_clears_offline_alert
        env now now2 req creq s resp s1 resp2 s2 :
  run (ingest env now req) s = (resp, s1) ->
  status resp = 200 ->
  refused_writes (ingest env now req) s = [] ->
  one_open_offline s -> alerts_keyed s ->
  run (offline_detector env now2 creq) s1 = (resp2, s2) ->
  status resp2 = 200 ->
  (now2 - now <= 10 * 60 * 1000)%Z ->
  exists v, verified_by env now req s v
            /\ open_count (srv_id (v_server v)) s2 = 0.
Proof.
  intros Hrun Hst Href Hone Hkeyed Hdet Hst2 Hclock.
  destruct (accepted_unrefused _ _ _ _ _ _ Hrun Hst Href) as (v & d & Hv & Hc & Hr).
  exists v. split; [exact Hv |].
  pose proof (unrefused_commit_servers _ _ _ _ _ _ Hr) as Hsrv.
  rewrite Hc in Hsrv. cbn [snd] in Hsrv.
  pose proof (run_all_stmts commit_write commit_frame commit_frame_refl
                commit_frame_trans commit_write_frame _ _
                (with_nonce now req v s)
                (ingest_commit_writes now (v_orgId v) (v_agentId v) (v_server v) d))
    as Hframe.
  rewrite Hc in Hframe. cbn [snd] in Hframe.
  destruct Hframe as [_ _ Halerts _ _ Hnext _].
  assert (Hone1 : one_open_offline s1).
  { intros sid. unfold open_count. rewrite Halerts. apply Hone. }
  assert (Hkeyed1 : alerts_keyed s1).
  { unfold alerts_keyed. rewrite Halerts, Hnext. exact Hkeyed. }
  pose proof (offline_detector_run env now2 creq s1 Hone1 Hkeyed1) as Hd.
  rewrite Hdet in Hd. cbn [fst snd] in Hd.
  destruct Hd as (_ & _ & _ & Hcount). rewrite (Hcount Hst2).
  rewrite listed_in; [reflexivity |].
  exists (with_facts (si_facts (server d)) now (v_server v)).
  split; [| reflexivity].
  apply filter_In. split.
  - rewrite Hsrv. cbn [tbl_servers with_nonce set_api_nonces].
    apply in_map_iff. exists (v_server v).
    assert (Hin : In (v_server v)
                     (filter (fun r => String.eqb (srv_agent_id r) (v_agentId v))
                             (tbl_servers s)))
      by (rewrite (vb_server _ _ _ _ _ Hv); left; reflexivity).
    apply filter_In in Hin. destruct Hin as [Hin Hag]. rewrite Hag. auto.
  - cbn [srv_last_seen with_facts]. apply Z.leb_le.
    unfold OFFLINE_THRESHOLD_MINUTES. lia.
Qed.

End HeartbeatAndDetector.

Section AlertOwners.
Context {PF : Platform}.

Lemma open_alerts_added now (offline : list ServerRow) l : forall c s,
  (forall r, In r l -> In r offline) ->
  exists added,
    tbl_alerts (snd (run (open_alerts now l c) s)) = tbl_alerts s ++ added
    /\ Forall (fun a => exists r, In r offline /\ alert_of r a) added.
Proof.
  induction l as [| srv l IH]; intros c s Hsub; simpl.
  - exists []. split; [symmetry; apply app_nil_r | constructor].
  - assert (Hl : forall r, In r l -> In r offline)
      by (intros r Hr; apply Hsub; right; exact Hr).
    destruct (data (single _)).
    + apply IH. exact Hl.
    + simpl.
      destruct (IH (S c)
                  (bump_id (set_alerts
                     (tbl_alerts s ++
                      [mkAlertRow (next_id s) (srv_org_id srv) (srv_id srv) now
                         "offline" "critical"
                         ("Server " ++ hostname (srv_facts srv)
                          ++ " is offline (last seen: "
                          ++ pg_show_timestamptz (srv_last_seen srv) ++ ")")%string
                         "open"]) s)) Hl) as [added [E F]].
      simpl in E. eexists. split; [rewrite E, <- app_assoc; reflexivity |].
      constructor; [| exact F].
      exists srv. split; [apply Hsub; left; reflexivity | split; reflexivity].
Qed.

Lemma Forall2_same_owner_refl l : Forall2 same_owner l l.
Proof. induction l; constructor; auto. split; reflexivity. Qed.

Lemma Forall2_same_owner_trans l1 l2 l3 :
  Forall2 same_owner l1 l2 -> Forall2 same_owner l2 l3 -> Forall2 same_owner l1 l3.
Proof.
  intros H. revert l3. induction H as [| a b l1 l2 [H1 H2] _ IH];
    intros l3 H3; inversion H3 as [| ? c ? ? [H4 H5] ?]; subst; constructor; auto.
  split; congruence.
Qed.

Lemma clear_alerts_owners l : forall c s,
  Forall2 same_owner (tbl_alerts s) (tbl_alerts (snd (run (clear_alerts l c) s))).
Proof.
  induction l as [| srv l IH]; intros c s; simpl.
  - apply Forall2_same_owner_refl.
  - destruct (data (single _)) as [a |]; [| apply IH].
    simpl. eapply Forall2_same_owner_trans; [| apply IH].
    simpl. clear. induction (tbl_alerts s) as [| x t IHt]; simpl; constructor; auto.
    destruct (Nat.eqb (al_id x) (al_id a)); split; reflexivity.
Qed.

(** X29: the alerts a detector run adds are filed under the right host
    and tenant: every alert row beyond those that were on record carries
    the id and the organisation of a servers row whose [last_seen] is more
    than ten minutes before the clock of the run. *)
Theorem raised_alerts_belong_to_offline_hosts env now req s resp s' :
  run (offline_detector env now req) s = (resp, s') ->
  Forall (fun a => exists r,
              In r (tbl_servers s)
              /\ (srv_last_seen r < now - 10 * 60 * 1000)%Z
              /\ alert_of r a)
         (skipn (List.length (tbl_alerts s)) (tbl_alerts s')).
Proof.
  unfold offline_detector.
  destruct (cron_rejected env req);
    [intros H; injection H as _ <-; rewrite skipn_all; constructor |].
  destruct (createServiceClient env);
    [| intros H; injection H as _ <-; rewrite skipn_all; constructor].
  cbn [bind query run exec error pg_rows rows_or_empty data].
  rewrite run_bind.
  set (offline := filter (fun r => (srv_last_seen r <? now - OFFLINE_THRESHOLD_MINUTES * 60 * 1000)%Z)
                         (tbl_servers s)).
  destruct (open_alerts_added now offline offline 0 s (fun r H => H))
    as [added [E F]].
  destruct (run (open_alerts now offline 0) s) as [c0 s1]. cbn [snd] in E.
  cbn [bind query run exec error pg_rows rows_or_empty data].
  rewrite run_bind.
  pose proof (clear_alerts_owners
                (filter (fun r => (now - OFFLINE_THRESHOLD_MINUTES * 60 * 1000 <=? srv_last_seen r)%Z)
                        (tbl_servers s1)) 0 s1) as Hown.
  destruct (run (clear_alerts _ 0) s1) as [k0 s2]. cbn [snd] in Hown.
  cbn [run]. intros H. injection H as _ <-.
  rewrite E in Hown. apply Forall2_app_inv_l in Hown.
  destruct Hown as (k & a' & Hk & Ha & ->).
  rewrite (Forall2_length Hk), skipn_app, skipn_all, Nat.sub_diag. simpl.
  clear - F Ha. revert a' Ha.
  induction F as [| a added [r (Hin & Ho & Hs)] _ IH]; intros a' Ha;
    inversion Ha as [| ? b ? t [H1 H2] Ht]; subst; constructor; auto.
  exists r. apply filter_In in Hin. destruct Hin as [Hin Hlt].
  apply Z.ltb_lt in Hlt. unfold OFFLINE_THRESHOLD_MINUTES in Hlt.
  repeat split; auto; congruence.
Qed.

End AlertOwners.

(* ===================================================================== *)
(** ** What the scheduled functions answer *)
(* ===================================================================== *)

Section ScheduledSummary.
Context {PF : Platform}.

Lemma open_alerts_keyed now l : forall c s,
  alerts_keyed s -> alerts_keyed (snd (run (open_alerts now l c) s)).
Proof.
  induction l as [| srv l IH]; intros c s Hk; simpl; [exact Hk |].
  destruct (data (single _)); [apply IH; exact Hk |].
  simpl. apply IH. apply alerts_keyed_insert; [exact Hk | reflexivity].
Qed.

Lemma open_alerts_status_count now l : forall c s,
  status_count "cleared" (snd (run (open_alerts now l c) s))
  = status_count "cleared" s.
Proof.
  induction l as [| srv l IH]; intros c s; simpl; [reflexivity |].
  destruct (data (single _)); [apply IH |].
  simpl. rewrite IH. unfold status_count. simpl.
  rewrite filter_app. simpl. rewrite app_nil_r. reflexivity.
Qed.

Lemma single_data {A} (l : list A) a : data (single l) = Some a -> l = [a].
Proof.
  destruct l as [| x [| y l]]; simpl; intros H; try discriminate.
  injection H as ->. reflexivity.
Qed.

(** Clearing the one open alert a lookup found turns one more row
    "cleared". *)
Lemma status_count_clear sid s a :
  alerts_keyed s ->
  filter (alert_matches sid "offline" "open") (tbl_alerts s) = [a] ->
  status_count "cleared"
    (set_alerts
       (map (fun x => if Nat.eqb (al_id x) (al_id a) then with_status "cleared" x
                      else x) (tbl_alerts s)) s)
  = S (status_count "cleared" s).
Proof.
  intros [Hnd _] Hf.
  assert (Hin : In a (filter (alert_matches sid "offline" "open") (tbl_alerts s)))
    by (rewrite Hf; left; reflexivity).
  apply filter_In in Hin. destruct Hin as [Hin Hpa].
  destruct (update_by_key (with_status "cleared") a _ Hnd Hin) as [l1 [l2 [El Em]]].
  unfold status_count. cbn [tbl_alerts set_alerts]. rewrite Em, El.
  rewrite !filter_app, !length_app. cbn [filter al_status with_status].
  unfold alert_matches in Hpa. rewrite !andb_true_iff in Hpa.
  destruct Hpa as [_ Hopen]. apply String.eqb_eq in Hopen. rewrite Hopen.
  cbn. lia.
Qed.

Lemma clear_alerts_status_count l : forall c s,
  alerts_keyed s ->
  status_count "cleared" (snd (run (clear_alerts l c) s)) + c
  = status_count "cleared" s + fst (run (clear_alerts l c) s).
Proof.
  induction l as [| srv l IH]; intros c s Hk; simpl; [lia |].
  destruct (data (single _)) as [a |] eqn:Ha; [| apply IH; exact Hk].
  apply single_data in Ha. simpl.
  set (s1 := set_alerts _ s).
  assert (Hk1 : alerts_keyed s1).
  { apply alerts_keyed_update; [| exact Hk].
    intros x. destruct (Nat.eqb (al_id x) (al_id a)); reflexivity. }
  pose proof (IH (S c) s1 Hk1) as H.
  pose proof (status_count_clear (srv_id srv) s a Hk Ha) as Hc.
  fold s1 in Hc. lia.
Qed.

Lemma open_alerts_servers now l : forall c s,
  tbl_servers (snd (run (open_alerts now l c) s)) = tbl_servers s.
Proof.
  induction l as [| srv l IH]; intros c s; simpl; [reflexivity |].
  destruct (data (single _)); [apply IH |].
  simpl. rewrite IH. reflexivity.
Qed.

Lemma not_listed sid l : ~ In sid (map srv_id l) -> listed sid l = false.
Proof.
  intros H. unfold listed. rewrite <- not_true_iff_false. intros E.
  apply existsb_exists in E. destruct E as [x [Hx E]].
  apply Nat.eqb_eq in E. subst x. contradiction.
Qed.

Lemma NoDup_map_filter {A B} (f : A -> B) (p : A -> bool) l :
  NoDup (map f l) -> NoDup (map f (filter p l)).
Proof.
  induction l as [| x l IH]; simpl; intros H; [constructor |].
  inversion H as [| ? ? Hn Hl]; subst.
  destruct (p x); simpl; [| auto].
  constructor; [| auto].
  intros Hin. apply Hn. apply in_map_iff in Hin. destruct Hin as [y [E Hy]].
  apply filter_In in Hy. rewrite <- E. apply in_map. tauto.
Qed.

(** The first loop, whatever the alerts on record: a listed host with
    exactly one open alert keeps it, any other listed host gets one
    more. *)
Lemma open_alerts_counts now l : forall c s,
  NoDup (map srv_id l) ->
  forall sid,
    open_count sid (snd (run (open_alerts now l c) s))
    = if listed sid l
      then (if Nat.eqb (open_count sid s) 1 then 1 else S (open_count sid s))
      else open_count sid s.
Proof.
  induction l as [| srv rest IH]; intros c s Hnd sid; [reflexivity |].
  cbn [map] in Hnd. inversion Hnd as [| ? ? Hnot Hrest]; subst.
  pose proof (not_listed _ _ Hnot) as Hnl.
  assert (Hl : listed sid (srv :: rest)
               = Nat.eqb sid (srv_id srv) || listed sid rest) by reflexivity.
  rewrite Hl. clear Hl.
  simpl run. fold (is_open_offline (srv_id srv)).
  destruct (filter (is_open_offline (srv_id srv)) (tbl_alerts s))
    as [| a [| b t]] eqn:Hf; simpl.
  - set (s1 := bump_id (set_alerts _ s)).
    assert (Hc1 : forall x, open_count x s1
                            = open_count x s + (if Nat.eqb (srv_id srv) x then 1 else 0)).
    { intros x. apply (open_count_insert x s
                         (mkNewAlert (srv_org_id srv) (srv_id srv) now "offline"
                                     "critical" _ "open")). }
    rewrite (IH (S c) s1 Hrest sid), Hc1.
    destruct (Nat.eqb_spec sid (srv_id srv)) as [-> | Hne]; cbn [orb].
    + rewrite Hnl, Nat.eqb_refl. unfold open_count. rewrite Hf. reflexivity.
    + assert (E : Nat.eqb (srv_id srv) sid = false)
        by (apply Nat.eqb_neq; congruence).
      rewrite E, Nat.add_0_r. reflexivity.
  - rewrite (IH c s Hrest sid).
    destruct (Nat.eqb_spec sid (srv_id srv)) as [-> | Hne]; cbn [orb].
    + rewrite Hnl. unfold open_count. rewrite Hf. reflexivity.
    + reflexivity.
  - set (s1 := bump_id (set_alerts _ s)).
    assert (Hc1 : forall x, open_count x s1
                            = open_count x s + (if Nat.eqb (srv_id srv) x then 1 else 0)).
    { intros x. apply (open_count_insert x s
                         (mkNewAlert (srv_org_id srv) (srv_id srv) now "offline"
                                     "critical" _ "open")). }
    rewrite (IH (S c) s1 Hrest sid), Hc1.
    destruct (Nat.eqb_spec sid (srv_id srv)) as [-> | Hne]; cbn [orb].
    + rewrite Hnl, Nat.eqb_refl. unfold open_count. rewrite Hf.
      cbn [List.length]. rewrite Nat.add_1_r. reflexivity.
    + assert (E : Nat.eqb (srv_id srv) sid = false)
        by (apply Nat.eqb_neq; congruence).
      rewrite E, Nat.add_0_r. reflexivity.
Qed.

(** The second loop: a listed host with exactly one open alert ends with
    none, every other host keeps its alerts. *)
Lemma clear_alerts_counts l : forall c s,
  NoDup (map srv_id l) -> alerts_keyed s ->
  forall sid,
    open_count sid (snd (run (clear_alerts l c) s))
    = if listed sid l
      then (if Nat.eqb (open_count sid s) 1 then 0 else open_count sid s)
      else open_count sid s.
Proof.
  induction l as [| srv rest IH]; intros c s Hnd Hkey sid; [reflexivity |].
  cbn [map] in Hnd. inversion Hnd as [| ? ? Hnot Hrest]; subst.
  assert (Hl : forall x, listed x (srv :: rest)
                         = Nat.eqb x (srv_id srv) || listed x rest) by reflexivity.
  rewrite Hl. pose proof (not_listed _ _ Hnot) as Hnl.
  simpl run. fold (is_open_offline (srv_id srv)).
  destruct (filter (is_open_offline (srv_id srv)) (tbl_alerts s))
    as [| a [| b t]] eqn:Hf; simpl.
  - rewrite (IH c s Hrest Hkey sid).
    destruct (Nat.eqb_spec sid (srv_id srv)) as [-> | Hne]; cbn [orb].
    + rewrite Hnl. unfold open_count. rewrite Hf. reflexivity.
    + reflexivity.
  - set (s1 := set_alerts _ s).
    assert (Hc1 : forall x, open_count x s1
                            = if Nat.eqb x (srv_id srv) then 0 else open_count x s).
    { intros x. apply open_count_clear; assumption. }
    assert (Hkey1 : alerts_keyed s1).
    { apply alerts_keyed_update; [| exact Hkey].
      intros x. destruct (Nat.eqb (al_id x) (al_id a)); reflexivity. }
    rewrite (IH (S c) s1 Hrest Hkey1 sid), !Hc1.
    destruct (Nat.eqb_spec sid (srv_id srv)) as [-> | Hne]; cbn [orb].
    + rewrite Hnl. unfold open_count. rewrite Hf. reflexivity.
    + reflexivity.
  - rewrite (IH c s Hrest Hkey sid).
    destruct (Nat.eqb_spec sid (srv_id srv)) as [-> | Hne]; cbn [orb].
    + rewrite Hnl. unfold open_count. rewrite Hf. reflexivity.
    + reflexivity.
Qed.
(** C9: each of the three scheduled functions compares the Authorization
    header with [Bearer <CRON_SECRET>] only when [CRON_SECRET] is set and
    not empty.  With the service client configured: when that comparison
    fails (header absent or different) the answer is 401 and the store is
    as before; in every other case, which includes a deployment without
    [CRON_SECRET] whatever the header, the answer is 200 with the summary
    of the function.  The detector reports the number of servers last
    seen before the cutoff, the number of rows it added to [alerts] and,
    alert ids being keys, the number of rows it turned "cleared"; with
    server ids keys as well, a host last seen before the cutoff keeps its
    open "offline" alert if it has exactly one and gets one more
    otherwise, and any other host loses its open alert if it has exactly
    one.  The rollup builder reports the starts of the 1-minute and 1-hour
    buckets after sending the 1-minute statement.  The nonce cleanup
    deletes the nonces older than ten minutes and reports
    [nonces_deleted]. *)
Theorem scheduled_jobs_authorization env now req s :
  createServiceClient env = Normal tt ->
  (cron_rejected env req = true <->
   exists secret, CRON_SECRET env = Some secret /\ secret <> ""
                  /\ authorization req <> Some ("Bearer " ++ secret)%string)
  /\ (if cron_rejected env req
      then run (offline_detector env now req) s = (errorResponse "Unauthorized" 401, s)
           /\ run (nonce_cleanup env now req) s = (errorResponse "Unauthorized" 401, s)
           /\ run (rollup_builder env now req) s = (errorResponse "Unauthorized" 401, s)
      else
        (exists created cleared s',
            run (offline_detector env now req) s
            = (jsonResponse
                 (BOfflineDetector now
                    (List.length
                       (filter (fun r => (srv_last_seen r <? now - 10 * 60 * 1000)%Z)
                               (tbl_servers s)))
                    created cleared) 200, s')
            /\ List.length (tbl_alerts s') = List.length (tbl_alerts s) + created
            /\ (alerts_keyed s ->
                status_count "cleared" s' = status_count "cleared" s + cleared)
            /\ (alerts_keyed s -> NoDup (map srv_id (tbl_servers s)) ->
                forall srv, In srv (tbl_servers s) ->
                  open_count (srv_id srv) s'
                  = if (srv_last_seen srv <? now - 10 * 60 * 1000)%Z
                    then (if Nat.eqb (open_count (srv_id srv) s) 1 then 1
                          else S (open_count (srv_id srv) s))
                    else (if Nat.eqb (open_count (srv_id srv) s) 1 then 0
                          else open_count (srv_id srv) s)))
        /\ run (nonce_cleanup env now req) s
           = (jsonResponse (BNonceCleanup now 0) 200,
              set_api_nonces
                (filter (fun r => negb (n_ts r <? now - 10 * 60 * 1000)%Z)
                        (tbl_api_nonces s)) s)
        /\ run (rollup_builder env now req) s
           = (jsonResponse
                (BRollup now "Rollups computed (1m and 1h buckets)"
                   ((now - 2 * 60 * 1000) / (60 * 1000) * (60 * 1000))%Z
                   ((now - 60 * 60 * 1000) / (60 * 60 * 1000) * (60 * 60 * 1000))%Z)
                200,
              snd (exec (RpcExecSql "exec_sql" rollup1mQuery
                           [((now - 2 * 60 * 1000) / (60 * 1000) * (60 * 1000))%Z; now])
                        s))).
Proof.
  intros Hc. split; [apply cron_rejected_spec |].
  unfold offline_detector, nonce_cleanup, rollup_builder.
  destruct (cron_rejected env req); [repeat split; reflexivity |].
  rewrite Hc. split; [| split].
  - cbn [bind query run exec error pg_rows rows_or_empty data].
    rewrite run_bind.
    set (offline := filter (fun r => (srv_last_seen r <? now - OFFLINE_THRESHOLD_MINUTES * 60 * 1000)%Z)
                           (tbl_servers s)).
    pose proof (open_alerts_count now offline 0 s) as Hn.
    pose proof (open_alerts_keyed now offline 0 s) as Hk.
    pose proof (open_alerts_status_count now offline 0 s) as Hs.
    pose proof (open_alerts_servers now offline 0 s) as Hsrv.
    pose proof (open_alerts_counts now offline 0 s) as Ho.
    destruct (run (open_alerts now offline 0) s) as [c0 s1].
    cbn [fst snd] in Hn, Hk, Hs, Hsrv, Ho.
    cbn [bind query run exec error pg_rows rows_or_empty data].
    rewrite run_bind. rewrite Hsrv.
    set (online := filter (fun r => (now - OFFLINE_THRESHOLD_MINUTES * 60 * 1000 <=? srv_last_seen r)%Z)
                          (tbl_servers s)).
    pose proof (clear_alerts_length online 0 s1) as Hl.
    pose proof (clear_alerts_status_count online 0 s1) as Hcl.
    pose proof (clear_alerts_counts online 0 s1) as Hcc.
    destruct (run (clear_alerts online 0) s1) as [k0 s2].
    cbn [fst snd] in Hl, Hcl, Hcc.
    cbn [run]. exists c0, k0, s2.
    split; [reflexivity | split; [lia | split]].
    + intros Hkey. specialize (Hcl (Hk Hkey)). lia.
    + intros Hkey Hnd srv Hin.
      rewrite (Hcc (NoDup_map_filter _ _ _ Hnd) (Hk Hkey)).
      rewrite (Ho (NoDup_map_filter _ _ _ Hnd)).
      unfold online, offline. rewrite !listed_filter.
      rewrite !(keyed_lookup _ _ srv Hnd Hin).
      change (OFFLINE_THRESHOLD_MINUTES * 60 * 1000)%Z with 600000%Z.
      change (10 * 60 * 1000)%Z with 600000%Z.
      destruct (Z.leb_spec (now - 600000) (srv_last_seen srv)),
               (Z.ltb_spec (srv_last_seen srv) (now - 600000));
        try reflexivity; lia.
  - reflexivity.
  - cbn [bind query run]. destruct (exec _ s). reflexivity.
Qed.

End ScheduledSummary.

(* ===================================================================== *)
(** ** What the schemas let through *)
(* ===================================================================== *)

Section SchemaSoundness.
Context {PF : Platform}.

Lemma pr_ap_ok {A B} (f : ParseReturn (A -> B)) (x : ParseReturn A) (b : B) :
  f <*> x = ([], Some b) ->
  exists g a, f = ([], Some g) /\ x = ([], Some a) /\ b = g a.
Proof.
  destruct f as [fi [g |]], x as [xi [a |]]; unfold pr_ap; simpl;
    intros H; try discriminate H; injection H as Hi Hv.
  apply app_eq_nil in Hi. destruct Hi as [-> ->].
  exists g, a. subst b. auto.
Qed.

Lemma safeParse_ok {A} (t : ZodType A) (j : json) (d : A) :
  safeParse t j = SafeParseSuccess d -> t [] (Some j) = ([], Some d).
Proof.
  unfold safeParse. destruct (t [] (Some j)) as [[| i rest] [v |]];
    intros H; try discriminate. injection H as <-. reflexivity.
Qed.

Lemma z_object_ok {A} p i (shape : list (string * json) -> ParseReturn A) d :
  z_object p i shape = ([], Some d) ->
  exists m, i = Some (JObj m) /\ shape m = ([], Some d).
Proof.
  unfold z_object. destruct i as [[| | | | | m] |]; try discriminate.
  intros H. exists m. auto.
Qed.

Lemma parse_items_length {A} (elem : ZodType A) p i l out :
  snd (parse_items elem p i l) = Some out -> List.length out = List.length l.
Proof.
  revert i out. induction l as [| x l IH]; intros i out; simpl.
  - intros H. injection H as <-. reflexivity.
  - destruct (snd (elem (p ++ [PIndex i]) (Some x))); [| discriminate].
    destruct (snd (parse_items elem p (S i) l)) eqn:E; [| discriminate].
    intros H. injection H as <-. simpl. f_equal. eapply IH. exact E.
Qed.

Lemma capped_array_ok {A} (elem : ZodType A) (cap : nat) p i out :
  z_default (z_array elem (Some cap)) [] p i = ([], Some out) ->
  List.length out <= cap.
Proof.
  unfold z_default, z_array. destruct i as [[| | | | items |] |]; try discriminate.
  - destruct (Nat.ltb cap (List.length items)) eqn:E; [discriminate |].
    simpl. intros H. injection H as _ Hs.
    apply parse_items_length in Hs. apply Nat.ltb_ge in E. lia.
  - intros H. injection H as <-. simpl. lia.
Qed.

Lemma percent_ok p i x :
  z_number [nk_min 0 true; nk_max 100 true] p i = ([], Some x) ->
  (0 <= x)%Q /\ (x <= 100)%Q.
Proof.
  unfold z_number. destruct i as [[| | y | | |] |]; try discriminate.
  unfold check_issues. simpl.
  destruct (Qle_bool 0 y) eqn:E1; simpl; [| discriminate].
  destruct (Qle_bool y 100) eqn:E2; simpl; [| discriminate].
  intros H. injection H as <-.
  split; apply Qle_bool_iff; assumption.
Qed.

Lemma datetime_ok p i x :
  z_string [sk_regex is_datetime] p i = ([], Some x) -> is_datetime x = true.
Proof.
  unfold z_string. destruct i as [[| | | y | |] |]; try discriminate.
  unfold check_issues. simpl.
  destruct (is_datetime y) eqn:E; simpl; [| discriminate].
  intros H. injection H as <-. exact E.
Qed.

Ltac split_ap H :=
  repeat (let g := fresh "g" in
          let a := fresh "a" in
          let Hx := fresh "Hx" in
          apply pr_ap_ok in H; destruct H as (g & a & H & Hx & ->)).

(** X22: what the ingest schema lets through.  A payload that
    [safeParse] accepts has at most 50 processes and at most 200 log
    entries, a [cpu_pct] between 0 and 100, and a heartbeat timestamp that
    matches zod's datetime pattern. *)
Theorem accepted_payload_within_bounds (j : json) (d : IngestPayload) :
  safeParse IngestPayloadSchema j = SafeParseSuccess d ->
  List.length (processes d) <= 50
  /\ List.length (logs d) <= 200
  /\ (0 <= cpu_pct (heartbeat d))%Q /\ (cpu_pct (heartbeat d) <= 100)%Q
  /\ is_datetime (hb_ts (heartbeat d)) = true.
Proof.
  intros H. apply safeParse_ok in H. unfold IngestPayloadSchema in H.
  apply z_object_ok in H. destruct H as (m & _ & H).
  split_ap H. unfold pr_pure in H. injection H as <-. simpl.
  unfold field in *.
  match goal with
  | Hp : z_default (z_array ProcessSchema _) _ _ _ = _ |- _ =>
      apply capped_array_ok in Hp
  end.
  match goal with
  | Hl : z_default (z_array LogSchema _) _ _ _ = _ |- _ =>
      apply capped_array_ok in Hl
  end.
  match goal with
  | Hb : HeartbeatSchema _ _ = _ |- _ =>
      unfold HeartbeatSchema in Hb; apply z_object_ok in Hb;
      destruct Hb as (mh & _ & Hh)
  end.
  split_ap Hh. unfold pr_pure in Hh. injection Hh as <-. simpl.
  unfold field in *.
  match goal with
  | Hc : z_number _ _ _ = _ |- _ => apply percent_ok in Hc
  end.
  match goal with
  | Ht : z_string [sk_regex is_datetime] _ _ = _ |- _ => apply datetime_ok in Ht
  end.
  tauto.
Qed.


Lemma min_length_ok n p i x :
  z_string [sk_min n] p i = ([], Some x) -> n <= String.length x.
Proof.
  unfold z_string. destruct i as [[| | | y | |] |]; try discriminate.
  unfold check_issues. simpl.
  destruct (Nat.ltb (String.length y) n) eqn:E; simpl; [discriminate |].
  intros H. injection H as <-. apply Nat.ltb_ge in E. exact E.
Qed.

Lemma positive_int_ok p i z :
  z_int [nk_positive] p i = ([], Some z) -> (0 < z)%Z.
Proof.
  unfold z_int, z_number, pr_map. destruct i as [[| | y | | |] |]; try discriminate.
  unfold check_issues. simpl.
  destruct (Q_is_integer y); simpl; [| discriminate].
  destruct (Qle_bool y 0) eqn:E; simpl; [discriminate |].
  intros H. injection H as <-.
  assert (Hpos : (0 < y)%Q).
  { apply Qnot_le_lt. intros Hle. apply Qle_bool_iff in Hle. congruence. }
  rewrite <- (Qred_correct y) in Hpos. unfold Q_to_Z.
  unfold Qlt in Hpos. simpl in Hpos. lia.
Qed.

(** X23: what the enrollment schema lets through: a secret of at least
    32 characters, a host name and a machine id that are not empty, and
    positive numbers of cores and of bytes of memory. *)
Theorem accepted_enrollment_within_bounds (j : json) (r : EnrollRequest) :
  safeParse EnrollRequestSchema j = SafeParseSuccess r ->
  32 <= String.length (org_enroll_secret r)
  /\ 1 <= String.length (hostname (host_facts r))
  /\ 1 <= String.length (machine_id (host_facts r))
  /\ (0 < cpu_cores (cpu (host_facts r)))%Z
  /\ (0 < mem_bytes (host_facts r))%Z.
Proof.
  intros H. apply safeParse_ok in H. unfold EnrollRequestSchema in H.
  apply z_object_ok in H. destruct H as (m & _ & H).
  split_ap H. unfold pr_pure in H. injection H as <-. simpl.
  unfold field in *.
  match goal with
  | Hs : z_string [sk_min 32] _ _ = _ |- _ => apply min_length_ok in Hs
  end.
  match goal with
  | Hf : HostFactsSchema _ _ = _ |- _ =>
      unfold HostFactsSchema in Hf; apply z_object_ok in Hf;
      destruct Hf as (mf & _ & Hfacts); unfold host_facts_shape in Hfacts
  end.
  split_ap Hfacts. unfold pr_pure in Hfacts. injection Hfacts as <-. simpl.
  unfold field in *.
  repeat match goal with
         | Hs : z_string [sk_min 1] _ _ = _ |- _ => apply min_length_ok in Hs
         end.
  match goal with
  | Hm : z_int [nk_positive] _ _ = _ |- _ => apply positive_int_ok in Hm
  end.
  match goal with
  | Hc : CpuSchema _ _ = _ |- _ =>
      unfold CpuSchema in Hc; apply z_object_ok in Hc;
      destruct Hc as (mc & _ & Hcpu)
  end.
  split_ap Hcpu. unfold pr_pure in Hcpu. injection Hcpu as <-. simpl.
  unfold field in *.
  match goal with
  | Hn : z_int [nk_positive] _ _ = _ |- _ => apply positive_int_ok in Hn
  end.
  tauto.
Qed.

End SchemaSoundness.

(* ===================================================================== *)
(** ** The handlers at concrete requests *)
(* ===================================================================== *)

Section Examples.
#[local] Existing Instance Sample.platform.

(** C1: the eight writes of the commit phase are separate statements whose
    answers are not inspected.  A batch with one process whose [mem_bytes]
    is 2^63 passes the schema; its [INSERT INTO processes] is refused by
    the [bigint] column, after the host's facts and last-seen were updated
    and the heartbeat inserted, and before the log row is inserted.  The
    request is answered 200 and part of the batch is stored. *)
Theorem ingest_commit_not_atomic :
  let req := Sample.ingest_request "1500000" "n1" "batch-proc-mem-2e63" in
  let s := Sample.store1 0 in
  let p := ingest Sample.env 1500000 req in
  let s' := snd (run p s) in
  List.length (refused_writes p s) = 1
  /\ status (fst (run p s)) = 200
  /\ map srv_last_seen (tbl_servers s') = [1500000%Z]
  /\ List.length (tbl_heartbeats s') = 1
  /\ List.length (tbl_logs s') = 1
  /\ tbl_processes s' = []
  /\ telemetry s' <> telemetry s.
Proof. vm_compute. repeat split; try reflexivity. discriminate. Qed.


(** C4: the handler does not look at the answer to its [INSERT INTO
    servers].  Host facts whose [mem_bytes] is 2^63 pass the schema (an
    integer, positive) and are refused by the [bigint] column; the call
    still answers 200 with the credentials it generated.  No host row
    exists afterwards, so the second, identical call generates and
    returns another agent id and another signing secret. *)
Theorem enroll_not_idempotent_when_insert_refused :
  let req := Sample.enroll_request "enroll-F1-mem-2e63" in
  let first := run
                   (enroll Sample.env 1500000 (mkEntropy "uuid-1" "hmac-1" "refresh-1") req)
                   Sample.store0 in
  let second := run
                    (enroll Sample.env 1500001 (mkEntropy "uuid-2" "hmac-2" "refresh-2") req)
                    (snd first) in
  fst first = jsonResponse (BEnroll "uuid-1" "jwt:uuid-1:T1" "refresh-1" "hmac-1" "T1") 200
  /\ fst second
     = jsonResponse (BEnroll "uuid-2" "jwt:uuid-2:T1" "refresh-2" "hmac-2" "T1") 200
  /\ tbl_servers (snd second) = []
  /\ List.length
       (refused_writes
          (enroll Sample.env 1500000 (mkEntropy "uuid-1" "hmac-1" "refresh-1") req)
          Sample.store0) = 1.
Proof. vm_compute. repeat split; reflexivity. Qed.

(** *** Instances of the general properties *)

(** A request stamped 1000000 ms arriving at 1500000 ms, more than five
    minutes later. *)
Lemma stale_timestamp_rejected_witness :
  let req := Sample.ingest_request "1000000" "n1" "batch-ok" in
  (1500000 - 1000000 > 5 * 60 * 1000 \/ 1000000 - 1500000 > 5 * 60 * 1000)%Z
  /\ ingest Sample.env 1500000 req
     = Ret (errorResponse "Invalid or expired timestamp" 401).
Proof.
  split; [left; lia |].
  apply (stale_timestamp_rejected Sample.env 1500000
           (Sample.ingest_request "1000000" "n1" "batch-ok") "1000000" 1000000);
    try reflexivity; [discriminate | left; lia].
Defined.

(** The batch accepted at 1500000 ms, sent again 100 seconds later (409)
    and, stamped as before, at 1800001 ms (401). *)
Lemma replay_of_accepted_request_rejected_witness :
  let req := Sample.ingest_request "1500000" "n1" "batch-ok" in
  let first := run (ingest Sample.env 1500000 req) (Sample.store1 0) in
  status (fst first) = 200
  /\ run (ingest Sample.env 1600000 req) (snd first) = (replay_detected, snd first)
  /\ run (ingest Sample.env 1800001 req) (snd first)
     = (errorResponse "Invalid or expired timestamp" 401, snd first).
Proof.
  split; [vm_compute; reflexivity |].
  split.
  - refine (eq_trans
              (replay_of_accepted_request_rejected Sample.env 1500000 1600000
                 (Sample.ingest_request "1500000" "n1" "batch-ok") (Sample.store1 0)
                 (fst (run (ingest Sample.env 1500000
                              (Sample.ingest_request "1500000" "n1" "batch-ok"))
                           (Sample.store1 0)))
                 (snd (run (ingest Sample.env 1500000
                              (Sample.ingest_request "1500000" "n1" "batch-ok"))
                           (Sample.store1 0))) _ _) _);
      [apply surjective_pairing | vm_compute; reflexivity | vm_compute; reflexivity].
  - refine (eq_trans
              (replay_of_accepted_request_rejected Sample.env 1500000 1800001
                 (Sample.ingest_request "1500000" "n1" "batch-ok") (Sample.store1 0)
                 (fst (run (ingest Sample.env 1500000
                              (Sample.ingest_request "1500000" "n1" "batch-ok"))
                           (Sample.store1 0)))
                 (snd (run (ingest Sample.env 1500000
                              (Sample.ingest_request "1500000" "n1" "batch-ok"))
                           (Sample.store1 0))) _ _) _);
      [apply surjective_pairing | vm_compute; reflexivity | vm_compute; reflexivity].
Defined.

(** C2, counterexample: the replay of an accepted batch is not always
    answered 409.  Sent five minutes and one millisecond after its
    timestamp it is answered 401 by the timestamp check. *)
Lemma stale_replay_answered_401 :
  let req := Sample.ingest_request "1500000" "n1" "batch-ok" in
  let first := run (ingest Sample.env 1500000 req) (Sample.store1 0) in
  let second := run (ingest Sample.env 1800001 req) (snd first) in
  status (fst first) = 200
  /\ status (fst second) = 401
  /\ status (fst second) <> 409.
Proof. vm_compute. repeat split; try reflexivity. discriminate. Qed.




(** *** Scheduled functions *)

(** A deployment with [CRON_SECRET] set, called without the header and
    with it. *)
Lemma scheduled_jobs_authorization_witness :
  let s := Sample.store1 0 in
  createServiceClient Sample.env = Normal tt
  /\ run (offline_detector Sample.env 1500000 (Sample.cron_request None)) s
     = (errorResponse "Unauthorized" 401, s)
  /\ run (nonce_cleanup Sample.env 1500000
            (Sample.cron_request (Some "Bearer cron-secret"))) s
     = (jsonResponse (BNonceCleanup 1500000 0) 200, s)
  /\ fst (run (rollup_builder Sample.env 1500000
                 (Sample.cron_request (Some "Bearer cron-secret"))) s)
     = jsonResponse (BRollup 1500000 "Rollups computed (1m and 1h buckets)"
                             1380000 (-3600000)) 200.
Proof.
  split; [reflexivity |].
  split.
  - exact (proj1 (proj2 (scheduled_jobs_authorization Sample.env 1500000
                           (Sample.cron_request None) (Sample.store1 0) eq_refl))).
  - destruct (proj2 (scheduled_jobs_authorization Sample.env 1500000
                       (Sample.cron_request (Some "Bearer cron-secret"))
                       (Sample.store1 0) eq_refl)) as [_ [Hn Hr]].
    split; [apply (eq_trans Hn); vm_compute; reflexivity
           | rewrite Hr; vm_compute; reflexivity].
Defined.

(** C9, counterexample.  With [CRON_SECRET] not set the check is skipped:
    a call that carries no Authorization header is answered 200 by each of
    the three functions, and the detector has run (the alert is there).
    With the right header and no [SUPABASE_URL] the answer is 500.  The
    200 of the rollup builder carries two bucket starts and no count of
    the row it wrote; that of the nonce cleanup reports 0 after deleting
    a nonce. *)
Lemma scheduled_jobs_not_as_claimed :
  let req := Sample.cron_request None in
  let auth := Sample.cron_request (Some "Bearer cron-secret") in
  let s := Sample.store1 0 in
  let unconfigured :=
    mkEnv (Some "cron-secret") (Some "jwt-key") None (Some "service-key") in
  let rollup := run (rollup_builder Sample.env 1060000 auth) (Sample.store2 0 1000000) in
  let first := run (ingest Sample.env 1500000
                      (Sample.ingest_request "1500000" "n1" "batch-ok")) s in
  let cleanup := run (nonce_cleanup Sample.env 2200000 auth) (snd first) in
  authorization req = None
  /\ status (fst (run (offline_detector Sample.env_no_cron 1500000 req) s)) = 200
  /\ status (fst (run (nonce_cleanup Sample.env_no_cron 1500000 req) s)) = 200
  /\ status (fst (run (rollup_builder Sample.env_no_cron 1500000 req) s)) = 200
  /\ open_count 0 (snd (run (offline_detector Sample.env_no_cron 1500000 req) s)) = 1
  /\ status (fst (run (offline_detector unconfigured 1500000 auth) s)) = 500
  /\ status (fst (run (nonce_cleanup unconfigured 1500000 auth) s)) = 500
  /\ status (fst (run (rollup_builder unconfigured 1500000 auth) s)) = 500
  /\ fst rollup = jsonResponse (BRollup 1060000 "Rollups computed (1m and 1h buckets)"
                                        900000 (-3600000)) 200
  /\ List.length (tbl_rollup_1m (snd rollup)) = 1
  /\ List.length (tbl_api_nonces (snd first)) = 1
  /\ tbl_api_nonces (snd cleanup) = []
  /\ fst cleanup = jsonResponse (BNonceCleanup 2200000 0) 200.
Proof. vm_compute. repeat split; reflexivity. Qed.

(** The hourly table stays empty though a heartbeat of the last hour is
    on record; the 1-minute table gets its row; the answer announces
    both. *)
Lemma rollup_hourly_bucket_missing :
  let r := run (rollup_builder Sample.env 1060000
                  (Sample.cron_request (Some "Bearer cron-secret")))
               (Sample.store2 0 1000000) in
  fst r = jsonResponse (BRollup 1060000 "Rollups computed (1m and 1h buckets)"
                                900000 (-3600000)) 200
  /\ map ru_bucket (tbl_rollup_1m (snd r)) = [960000%Z]
  /\ tbl_rollup_1h (snd r) = [].
Proof. vm_compute. repeat split; reflexivity. Qed.

(** *** Offline detection *)

(** Host [H1] last seen at 0, the detector run 700000 ms later. *)
Lemma offline_detector_alerts_witness :
  let req := Sample.cron_request (Some "Bearer cron-secret") in
  let s := Sample.store1 0 in
  let s' := snd (run (offline_detector Sample.env 700000 req) s) in
  one_open_offline s /\ alerts_keyed s
  /\ NoDup (map srv_id (tbl_servers s))
  /\ status (fst (run (offline_detector Sample.env 700000 req) s)) = 200
  /\ one_open_offline s'
  /\ one_open_offline (snd (run (offline_detector Sample.env 900000 req) s'))
  /\ open_count 0 s' = 1.
Proof.
  assert (H1 : one_open_offline (Sample.store1 0)).
  { intros sid. vm_compute. lia. }
  assert (H2 : alerts_keyed (Sample.store1 0)).
  { split; [constructor | intros a []]. }
  assert (H3 : NoDup (map srv_id (tbl_servers (Sample.store1 0)))).
  { simpl. constructor; [intros [] | constructor]. }
  assert (H4 : status (fst (run (offline_detector Sample.env 700000
                                   (Sample.cron_request (Some "Bearer cron-secret")))
                                (Sample.store1 0))) = 200).
  { vm_compute. reflexivity. }
  destruct (offline_detector_alerts Sample.env 700000 900000
              (Sample.cron_request (Some "Bearer cron-secret"))
              (Sample.cron_request (Some "Bearer cron-secret"))
              (Sample.store1 0) _ _ H1 H2 H3 (surjective_pairing _) H4)
    as [Ha [Hb Hc]].
  repeat (split; [assumption |]).
  apply (Hc (Sample.server_H1 0)). left. reflexivity.
Defined.

(** Host [H1] was last seen at 0 and the detector runs at 600000, ten
    minutes later to the millisecond.  The host has had no heartbeat for
    at least 10 minutes and gets no alert: the query is
    [last_seen < cutoff]. *)
Lemma offline_detector_boundary :
  let req := Sample.cron_request (Some "Bearer cron-secret") in
  let r := run (offline_detector Sample.env 600000 req) (Sample.store1 0) in
  (600000 - srv_last_seen (Sample.server_H1 0) >= 10 * 60 * 1000)%Z
  /\ status (fst r) = 200
  /\ open_count 0 (snd r) = 0
  /\ tbl_alerts (snd r) = [].
Proof. vm_compute. repeat split; try reflexivity. discriminate. Qed.

(** C7: two runs of the detector in flight at once on a host last seen
    at 0 that has no alert.  Each reads that [H1] has no open alert before
    either inserts one; both insert, both answer 200 with one alert
    created, and the host has two open "offline" alerts.  The same two
    runs one after the other leave one.  With two open alerts [.single()]
    answers no row: the next run adds a third, and after a fresh heartbeat
    a run clears none of them. *)
Theorem overlapping_detector_runs :
  let cron := Sample.cron_request (Some "Bearer cron-secret") in
  let d := offline_detector Sample.env 700000 cron in
  let '(r1, r2, s1) := concurrently [true; true; false; false] d d (Sample.store1 0) in
  let s2 := snd (run (offline_detector Sample.env 800000 cron) s1) in
  let s3 := snd (run (ingest Sample.env 900000
                        (Sample.ingest_request "900000" "n1" "batch-ok")) s2) in
  let s4 := snd (run (offline_detector Sample.env 1000000 cron) s3) in
  tbl_alerts (Sample.store1 0) = []
  /\ r1 = jsonResponse (BOfflineDetector 700000 1 1 0) 200
  /\ r2 = jsonResponse (BOfflineDetector 700000 1 1 0) 200
  /\ open_count 0 s1 = 2
  /\ open_count 0 (snd (run d (snd (run d (Sample.store1 0))))) = 1
  /\ open_count 0 s2 = 3
  /\ map srv_last_seen (tbl_servers s3) = [900000%Z]
  /\ open_count 0 s4 = 3.
Proof. vm_compute. repeat split; reflexivity. Qed.

(** *** Two identical requests in flight *)


(** *** The scenario of the specification *)

(** Enroll [F1]; ingest with nonce [n1]; replay it; ingest with a new nonce
    and a signature made with another secret; run the detector 11 minutes
    after the heartbeat; send a fresh heartbeat; run the detector again. *)
Lemma scenario :
  let cron := Sample.cron_request (Some "Bearer cron-secret") in
  let t0 := 1500000%Z in
  let e := run (enroll Sample.env t0 (mkEntropy "H1" "secret-H1" "refresh-H1")
                       (Sample.enroll_request "enroll-F1")) Sample.store0 in
  let i1 := run (ingest Sample.env t0 (Sample.ingest_request "1500000" "n1" "batch-ok"))
                (snd e) in
  let i2 := run (ingest Sample.env t0 (Sample.ingest_request "1500000" "n1" "batch-ok"))
                (snd i1) in
  let i3 := run (ingest Sample.env t0 (Sample.forged_request "1500000" "n2" "batch-ok"))
                (snd i2) in
  let d1 := run (offline_detector Sample.env (t0 + 11 * 60 * 1000) cron) (snd i3) in
  let i4 := run (ingest Sample.env 2200000
                        (Sample.ingest_request "2200000" "n3" "batch-ok")) (snd d1) in
  let d2 := run (offline_detector Sample.env 2300000 cron) (snd i4) in
  fst e = jsonResponse (BEnroll "H1" "jwt:H1:T1" "refresh-H1" "secret-H1" "T1") 200
  /\ status (fst i1) = 200
  /\ status (fst i2) = 409
  /\ status (fst i3) = 403
  /\ map al_status (tbl_alerts (snd d1)) = ["open"]
  /\ status (fst i4) = 200
  /\ map al_status (tbl_alerts (snd d2)) = ["cleared"]
  /\ List.length (tbl_heartbeats (snd d2)) = 2.
Proof. vm_compute. repeat split; reflexivity. Qed.

End Examples.

(* ===================================================================== *)
(** ** Instances of the further properties *)
(* ===================================================================== *)

Section MoreExamples.
#[local] Existing Instance Sample.platform.

(** A request signed with a wrong secret: 403, and the store as it was. *)
Lemma rejected_request_writes_nothing_witness :
  let req := Sample.forged_request "1500000" "n1" "batch-ok" in
  let s := Sample.store1 0 in
  let r := run (ingest Sample.env 1500000 req) s in
  status (fst r) <> 200
  /\ (snd r = s
      \/ exists v, verified_by Sample.env 1500000 req s v
                   /\ snd r = with_nonce 1500000 req v s
                   /\ (status (fst r) = 422 \/ status (fst r) = 500)).
Proof.
  split; [vm_compute; discriminate |].
  apply (rejected_request_writes_nothing Sample.env 1500000
           (Sample.forged_request "1500000" "n1" "batch-ok") (Sample.store1 0)).
  - apply surjective_pairing.
  - vm_compute. discriminate.
Defined.

(** The sample batch of host [H1], accepted. *)
Lemma accepted_batch_attributed_witness :
  let req := Sample.ingest_request "1500000" "n1" "batch-ok" in
  let s := Sample.store1 0 in
  let r := run (ingest Sample.env 1500000 req) s in
  status (fst r) = 200
  /\ exists v, verified_by Sample.env 1500000 req s v
               /\ batch_attributed (v_orgId v) (srv_id (v_server v)) s (snd r).
Proof.
  split; [vm_compute; reflexivity |].
  apply (accepted_batch_attributed Sample.env 1500000
           (Sample.ingest_request "1500000" "n1" "batch-ok") (Sample.store1 0)
           (fst (run (ingest Sample.env 1500000
                        (Sample.ingest_request "1500000" "n1" "batch-ok"))
                     (Sample.store1 0)))).
  - apply surjective_pairing.
  - vm_compute. reflexivity.
Defined.

(** A payload with one process and one log entry, committed for [H1]:
    the process row is stored without its user. *)
Lemma complete_batch_stored_witness :
  let d := mkIngestPayload (mkServerIdentity None Sample.facts)
             (row_cols (Sample.heartbeat_row 0)) [] []
             [mkProcess 123 "node" (Qmake 2 1) 100 "ubuntu"] [] None
             [mkLog "1000000" "journal" "info" "started" (JObj [])] in
  let s := Sample.store1 0 in
  let p := ingest_commit 1500000 "T1" "H1" (Sample.server_H1 0) d in
  refused_writes p s = []
  /\ tbl_processes (snd (run p s))
     = [mkRow "T1" 0 1500000%Z (mkProcessCols 123 "node" (Qmake 2 1) 100 None)]
  /\ tbl_logs (snd (run p s))
     = [mkRow "T1" 0 1000000%Z (mkLog "1000000" "journal" "info" "started" (JObj []))]
  /\ List.length (tbl_heartbeats (snd (run p s))) = 1.
Proof.
  split; [vm_compute; reflexivity |].
  destruct (complete_batch_stored 1500000 "T1" "H1" (Sample.server_H1 0)
              (mkIngestPayload (mkServerIdentity None Sample.facts)
                 (row_cols (Sample.heartbeat_row 0)) [] []
                 [mkProcess 123 "node" (Qmake 2 1) 100 "ubuntu"] [] None
                 [mkLog "1000000" "journal" "info" "started" (JObj [])])
              (Sample.store1 0))
    as (hts & lrows & _ & Hl & Hhb & _ & _ & Hp & _ & _ & Hlog & _);
    [vm_compute; reflexivity |].
  split; [exact Hp |].
  split.
  - rewrite Hlog. inversion Hl as [| l r ls rs [ms [Hms ->]] Hrest]; subst.
    inversion Hrest; subst. vm_compute in Hms. injection Hms as <-. reflexivity.
  - rewrite Hhb. reflexivity.
Defined.

(** The builder at 1005000 and again ten seconds later, over one
    heartbeat stamped 1000000: bucket 960000 keeps its one sample. *)
Lemma rollup_rerun_idempotent_witness :
  let cron := Sample.cron_request (Some "Bearer cron-secret") in
  let s := Sample.store2 0 1000000 in
  let s1 := snd (run (rollup_builder Sample.env 1005000 cron) s) in
  map ru_bucket (tbl_rollup_1m s1) = [960000%Z]
  /\ snd (run (rollup_builder Sample.env 1015000 cron) s1) = s1.
Proof.
  split; [vm_compute; reflexivity |].
  apply (rollup_rerun_idempotent Sample.env 1005000 1015000
           (Sample.cron_request (Some "Bearer cron-secret"))
           (Sample.cron_request (Some "Bearer cron-secret"))
           (Sample.store2 0 1000000)).
  - lia.
  - vm_compute. reflexivity.
  - intros h [<- | []]. left. vm_compute. reflexivity.
  - vm_compute. reflexivity.
Defined.

(** The accepted sample batch, sent again much later. *)
Lemma replay_never_accepted_witness :
  let req := Sample.ingest_request "1500000" "n1" "batch-ok" in
  let first := run (ingest Sample.env 1500000 req) (Sample.store1 0) in
  status (fst first) = 200
  /\ exists resp2,
       run (ingest Sample.env 9000000 req) (snd first) = (resp2, snd first)
       /\ (status resp2 = 401 \/ status resp2 = 409).
Proof.
  split; [vm_compute; reflexivity |].
  apply (replay_never_accepted Sample.env 1500000 9000000
           (Sample.ingest_request "1500000" "n1" "batch-ok") (Sample.store1 0)
           (fst (run (ingest Sample.env 1500000
                        (Sample.ingest_request "1500000" "n1" "batch-ok"))
                     (Sample.store1 0)))).
  - apply surjective_pairing.
  - vm_compute. reflexivity.
Defined.

(** The accepted sample batch, the cleanup 700 s later (the nonce is
    removed), and the batch again. *)
Lemma replay_rejected_after_nonce_cleanup_witness :
  let req := Sample.ingest_request "1500000" "n1" "batch-ok" in
  let cron := Sample.cron_request (Some "Bearer cron-secret") in
  let first := run (ingest Sample.env 1500000 req) (Sample.store1 0) in
  let cleaned := run (nonce_cleanup Sample.env 2200000 cron) (snd first) in
  status (fst first) = 200
  /\ tbl_api_nonces (snd cleaned) = []
  /\ (2200000 <= 2200000)%Z
  /\ exists resp3,
       run (ingest Sample.env 2200000 req) (snd cleaned) = (resp3, snd cleaned)
       /\ (status resp3 = 401 \/ status resp3 = 409).
Proof.
  split; [vm_compute; reflexivity |].
  split; [vm_compute; reflexivity |].
  split; [lia |].
  apply (replay_rejected_after_nonce_cleanup Sample.env 1500000 2200000 2200000
           (Sample.ingest_request "1500000" "n1" "batch-ok")
           (Sample.cron_request (Some "Bearer cron-secret"))
           (Sample.store1 0)
           (fst (run (ingest Sample.env 1500000
                        (Sample.ingest_request "1500000" "n1" "batch-ok"))
                     (Sample.store1 0)))
           (snd (run (ingest Sample.env 1500000
                        (Sample.ingest_request "1500000" "n1" "batch-ok"))
                     (Sample.store1 0)))
           (fst (run (nonce_cleanup Sample.env 2200000
                        (Sample.cron_request (Some "Bearer cron-secret")))
                     (snd (run (ingest Sample.env 1500000
                                  (Sample.ingest_request "1500000" "n1" "batch-ok"))
                               (Sample.store1 0)))))).
  - apply surjective_pairing.
  - vm_compute. reflexivity.
  - apply surjective_pairing.
  - lia.
Defined.

(** The accepted sample batch. *)
Lemma accepted_request_is_signed_witness :
  let req := Sample.ingest_request "1500000" "n1" "batch-ok" in
  let s := Sample.store1 0 in
  status (fst (run (ingest Sample.env 1500000 req) s)) = 200
  /\ exists agentId orgId srv bodyText,
       verifyAgentJWT Sample.env 1500000 (token_of req) = Normal (agentId, orgId)
       /\ In srv (tbl_servers s)
       /\ srv_agent_id srv = agentId
       /\ srv_org_id srv = orgId
       /\ match content_encoding req with
          | Some enc => if String.eqb enc "gzip" then gunzip (body req)
                        else Some (body req)
          | None => Some (body req)
          end = Some bodyText
       /\ x_signature req
          = Some (hmac_sha256_hex (srv_hmac_secret srv)
                    (or_empty (x_timestamp req) ++ newline ++ nonce_of req ++ newline
                     ++ sha256_hex bodyText)%string)
       /\ validateTimestamp 1500000 (or_empty (x_timestamp req)) = true.
Proof.
  split; [vm_compute; reflexivity |].
  apply (accepted_request_is_signed Sample.env 1500000
           (Sample.ingest_request "1500000" "n1" "batch-ok") (Sample.store1 0)
           (fst (run (ingest Sample.env 1500000
                        (Sample.ingest_request "1500000" "n1" "batch-ok"))
                     (Sample.store1 0)))
           (snd (run (ingest Sample.env 1500000
                        (Sample.ingest_request "1500000" "n1" "batch-ok"))
                     (Sample.store1 0)))).
  - apply surjective_pairing.
  - vm_compute. reflexivity.
Defined.

(** A request under a token the codec does not know. *)
Lemma unauthenticated_request_sends_no_statement_witness :
  let req := mkRequest "POST" (Some "Bearer nope") (Some "1500000") (Some "n1")
                       (Some "sig") None "batch-ok" in
  accepts_token Sample.env 1500000 req = false
  /\ exists r, ingest Sample.env 1500000 req = Ret r /\ status r <> 200.
Proof.
  split; [vm_compute; reflexivity |].
  apply (unauthenticated_request_sends_no_statement Sample.env 1500000
           (mkRequest "POST" (Some "Bearer nope") (Some "1500000") (Some "n1")
                      (Some "sig") None "batch-ok")).
  vm_compute. reflexivity.
Defined.

(** Host [F1] enrolled twice. *)
Lemma reenroll_same_credentials_witness :
  let req := Sample.enroll_request "enroll-F1" in
  let first := enroll Sample.env 1500000 (mkEntropy "uuid-1" "hmac-1" "refresh-1") req in
  let s1 := snd (run first Sample.store0) in
  let second := enroll Sample.env 1600000 (mkEntropy "uuid-2" "hmac-2" "refresh-2") req in
  refused_writes first Sample.store0 = []
  /\ exists jwt2,
       fst (run second s1)
       = jsonResponse (BEnroll "uuid-1" jwt2 "refresh-1" "hmac-1" "T1") 200
       /\ map srv_ident (tbl_servers (snd (run second s1)))
          = map srv_ident (tbl_servers s1).
Proof.
  split; [vm_compute; reflexivity |].
  apply (reenroll_same_credentials Sample.env 1500000 1600000
           (mkEntropy "uuid-1" "hmac-1" "refresh-1")
           (mkEntropy "uuid-2" "hmac-2" "refresh-2")
           (Sample.enroll_request "enroll-F1") Sample.store0 _
           "uuid-1" "jwt:uuid-1:T1" "refresh-1" "hmac-1" "T1").
  - vm_compute. reflexivity.
  - vm_compute. reflexivity.
Defined.

(** An enrollment where no organisation has the secret. *)
Lemma enroll_refusal_leaves_store_witness :
  let req := Sample.enroll_request "enroll-F1" in
  let r := run (enroll Sample.env 1500000 (mkEntropy "uuid-1" "hmac-1" "refresh-1") req)
               empty_store in
  status (fst r) = 403 /\ snd r = empty_store.
Proof.
  split; [vm_compute; reflexivity |].
  apply (enroll_refusal_leaves_store Sample.env 1500000
           (mkEntropy "uuid-1" "hmac-1" "refresh-1")
           (Sample.enroll_request "enroll-F1") empty_store
           (fst (run (enroll Sample.env 1500000
                        (mkEntropy "uuid-1" "hmac-1" "refresh-1")
                        (Sample.enroll_request "enroll-F1")) empty_store))).
  - apply surjective_pairing.
  - vm_compute. discriminate.
  - left. vm_compute. discriminate.
Defined.

(** Host [F1] enrolled on a store without hosts. *)
Lemma enrolled_host_on_record_witness :
  let req := Sample.enroll_request "enroll-F1" in
  let p := enroll Sample.env 1500000 (mkEntropy "uuid-1" "hmac-1" "refresh-1") req in
  let s' := snd (run p Sample.store0) in
  refused_writes p Sample.store0 = []
  /\ NoDup (map srv_agent_id (tbl_servers Sample.store0))
  /\ exists srv,
       run (getServerByAgentId "uuid-1") s' = (Normal (Some srv), s')
       /\ srv_org_id srv = "T1"
       /\ srv_hmac_secret srv = "hmac-1"
       /\ srv_refresh_token srv = "refresh-1"
       /\ srv_last_seen srv = 1500000%Z.
Proof.
  split; [vm_compute; reflexivity |].
  split; [constructor |].
  apply (enrolled_host_on_record Sample.env 1500000
           (mkEntropy "uuid-1" "hmac-1" "refresh-1")
           (Sample.enroll_request "enroll-F1") Sample.store0 _
           "uuid-1" "jwt:uuid-1:T1" "refresh-1" "hmac-1" "T1").
  - vm_compute. reflexivity.
  - vm_compute. reflexivity.
  - constructor.
Defined.

(** Host [H1] rotates its token; the bytes drawn read "0a10ff". *)
Lemma rotated_token_single_use_witness :
  let req := RotateSample.rotate_request "rotate-H1" in
  let r := rotate (PF := RotateSample.platform) Sample.env 1500000
                  RotateSample.random3 req (Sample.store1 0) in
  fst r = Rotated "jwt:H1:T1" "0a10ff"
  /\ rotate (PF := RotateSample.platform) Sample.env 1600000 [Byte.x01] req (snd r)
     = (Shared (errorResponse "Invalid refresh token" 403), snd r).
Proof.
  split; [vm_compute; reflexivity |].
  apply (rotated_token_single_use (PF := RotateSample.platform) Sample.env
           1500000 1600000 RotateSample.random3 [Byte.x01]
           (RotateSample.rotate_request "rotate-H1") (Sample.store1 0)
           "jwt:H1:T1" "0a10ff" _
           (JObj [("agent_id", JStr "H1"); ("refresh_token", JStr "refresh-H1")])
           (mkRotateRequest "H1" "refresh-H1")).
  - vm_compute. reflexivity.
  - vm_compute. reflexivity.
  - vm_compute. reflexivity.
  - vm_compute. discriminate.
Defined.

Lemma rotated_token_accepted_witness :
  let req := RotateSample.rotate_request "rotate-H1" in
  let req2 := RotateSample.rotate_request "rotate-H1-next" in
  let r := rotate (PF := RotateSample.platform) Sample.env 1500000
                  RotateSample.random3 req (Sample.store1 0) in
  fst r = Rotated "jwt:H1:T1" "0a10ff"
  /\ exists jwt2 s2,
       rotate (PF := RotateSample.platform) Sample.env 1600000 [Byte.x01] req2 (snd r)
       = (Rotated jwt2 (generateSecret [Byte.x01]), s2).
Proof.
  split; [vm_compute; reflexivity |].
  apply (rotated_token_accepted (PF := RotateSample.platform) Sample.env
           1500000 1600000 RotateSample.random3 [Byte.x01]
           (RotateSample.rotate_request "rotate-H1")
           (RotateSample.rotate_request "rotate-H1-next") (Sample.store1 0)
           "jwt:H1:T1" "0a10ff" _
           (JObj [("agent_id", JStr "H1"); ("refresh_token", JStr "refresh-H1")])
           (mkRotateRequest "H1" "refresh-H1")
           (JObj [("agent_id", JStr "H1"); ("refresh_token", JStr "0a10ff")])).
  - vm_compute. reflexivity.
  - vm_compute. reflexivity.
  - vm_compute. reflexivity.
  - reflexivity.
  - vm_compute. reflexivity.
  - vm_compute. reflexivity.
Defined.

Lemma generateSecret_injective_witness :
  generateSecret [Byte.x0a; Byte.x10] = "0a10"
  /\ [Byte.x0a; Byte.x10] = [Byte.x0a; Byte.x10].
Proof.
  split; [reflexivity |].
  apply (generateSecret_injective [Byte.x0a; Byte.x10] [Byte.x0a; Byte.x10]).
  reflexivity.
Defined.

(** One heartbeat of [H1] at 1000000, the rollup builder at 1060000. *)
Lemma rollup_stores_every_group_witness :
  let cron := Sample.cron_request (Some "Bearer cron-secret") in
  let s := Sample.store2 0 1000000 in
  let r := run (rollup_builder Sample.env 1060000 cron) s in
  status (fst r) = 200
  /\ one_org_per_host (tbl_heartbeats s)
  /\ map (fun x => (ru_server_id x, ru_bucket x, sample_count (ru_values x)))
         (tbl_rollup_1m (snd r)) = [(0, 960000%Z, 1)]
  /\ refused_writes (rollup_builder Sample.env 1060000 cron) s = [].
Proof.
  assert (H1 : one_org_per_host (tbl_heartbeats (Sample.store2 0 1000000))).
  { intros a b [<- | []] [<- | []] _. reflexivity. }
  split; [vm_compute; reflexivity |].
  split; [exact H1 |].
  split; [vm_compute; reflexivity |].
  apply (rollup_stores_every_group Sample.env 1060000
           (Sample.cron_request (Some "Bearer cron-secret"))
           (Sample.store2 0 1000000)
           (fst (run (rollup_builder Sample.env 1060000
                        (Sample.cron_request (Some "Bearer cron-secret")))
                     (Sample.store2 0 1000000)))
           (snd (run (rollup_builder Sample.env 1060000
                        (Sample.cron_request (Some "Bearer cron-secret")))
                     (Sample.store2 0 1000000)))).
  - apply surjective_pairing.
  - vm_compute. reflexivity.
  - exact H1.
Defined.

Lemma rollup_buckets_aligned_witness :
  let cron := Sample.cron_request (Some "Bearer cron-secret") in
  let r := run (rollup_builder Sample.env 1060000 cron) (Sample.store2 0 1000000) in
  fst r = jsonResponse (BRollup 1060000 "Rollups computed (1m and 1h buckets)"
                                900000 (-3600000)) 200
  /\ (900000 mod 60000 = 0 /\ 1060000 - 180000 < 900000 <= 1060000 - 120000
      /\ (-3600000) mod 3600000 = 0
      /\ 1060000 - 7200000 < -3600000 <= 1060000 - 3600000)%Z.
Proof.
  split; [vm_compute; reflexivity |].
  apply (rollup_buckets_aligned Sample.env 1060000
           (Sample.cron_request (Some "Bearer cron-secret"))
           (Sample.store2 0 1000000) 1060000
           "Rollups computed (1m and 1h buckets)" 900000 (-3600000)
           (snd (run (rollup_builder Sample.env 1060000
                        (Sample.cron_request (Some "Bearer cron-secret")))
                     (Sample.store2 0 1000000)))).
  vm_compute. reflexivity.
Defined.

(** Host [H1] last seen at 0, the detector at 700000. *)
Lemma detector_keeps_alert_history_witness :
  let cron := Sample.cron_request (Some "Bearer cron-secret") in
  let s := Sample.store1 0 in
  let r := run (offline_detector Sample.env 700000 cron) s in
  fst r = jsonResponse (BOfflineDetector 700000 1 1 0) 200
  /\ alert_history 700000 s (snd r)
  /\ List.length (tbl_alerts (snd r)) = List.length (tbl_alerts s) + 1.
Proof.
  assert (E : fst (run (offline_detector Sample.env 700000
                          (Sample.cron_request (Some "Bearer cron-secret")))
                       (Sample.store1 0))
              = jsonResponse (BOfflineDetector 700000 1 1 0) 200)
    by (vm_compute; reflexivity).
  destruct (detector_keeps_alert_history Sample.env 700000
              (Sample.cron_request (Some "Bearer cron-secret")) (Sample.store1 0)
              _ _ (surjective_pairing _)) as [Hh Hc].
  split; [exact E |]. split; [exact Hh |].
  apply (Hc 700000%Z 1 1 0 E).
Defined.

(** The sample batch and the sample enrollment. *)
Lemma accepted_payload_within_bounds_witness :
  match safeParse IngestPayloadSchema (Sample.batch_json [Sample.proc_json 100]
                                                         [Sample.log_json]) with
  | SafeParseSuccess d =>
      List.length (processes d) <= 50
      /\ List.length (logs d) <= 200
      /\ (0 <= cpu_pct (heartbeat d))%Q /\ (cpu_pct (heartbeat d) <= 100)%Q
      /\ is_datetime (hb_ts (heartbeat d)) = true
  | SafeParseError _ => False
  end.
Proof.
  destruct (safeParse IngestPayloadSchema
              (Sample.batch_json [Sample.proc_json 100] [Sample.log_json]))
    as [d | issues] eqn:E.
  - apply (accepted_payload_within_bounds _ d E).
  - vm_compute in E. discriminate E.
Defined.

Lemma accepted_enrollment_within_bounds_witness :
  match safeParse EnrollRequestSchema
          (JObj [("org_enroll_secret", JStr "0123456789abcdef0123456789abcdef");
                 ("host_facts", JObj (Sample.facts_json 4096))]) with
  | SafeParseSuccess r =>
      32 <= String.length (org_enroll_secret r)
      /\ 1 <= String.length (hostname (host_facts r))
      /\ 1 <= String.length (machine_id (host_facts r))
      /\ (0 < cpu_cores (cpu (host_facts r)))%Z
      /\ (0 < mem_bytes (host_facts r))%Z
  | SafeParseError _ => False
  end.
Proof.
  destruct (safeParse EnrollRequestSchema
              (JObj [("org_enroll_secret", JStr "0123456789abcdef0123456789abcdef");
                     ("host_facts", JObj (Sample.facts_json 4096))]))
    as [r | issues] eqn:E.
  - apply (accepted_enrollment_within_bounds _ r E).
  - vm_compute in E. discriminate E.
Defined.

(** The token minted for [H1] at 1400000 ms: good until second 5000. *)
Lemma minted_token_lifetime_witness :
  createAgentJWT Sample.env 1400000 "H1" "T1" = Normal "jwt:H1:T1"
  /\ verifyAgentJWT Sample.env 4999501 "jwt:H1:T1" = Normal ("H1", "T1")
  /\ verifyAgentJWT Sample.env 5000501 "jwt:H1:T1"
     = Throw "JWT verification failed: JWT expired".
Proof.
  destruct (minted_token_lifetime Sample.env 1400000 4999501 "H1" "T1" "jwt:H1:T1")
    as [Hok _]; [reflexivity | lia | reflexivity |].
  destruct (minted_token_lifetime Sample.env 1400000 5000501 "H1" "T1" "jwt:H1:T1")
    as [_ Hexp]; [reflexivity | lia | reflexivity |].
  split; [reflexivity |].
  split; [apply Hok; lia | apply Hexp; lia].
Defined.

Lemma strip_bearer_token_witness :
  strip_bearer ("BeArEr" ++ String "160"%char "  " ++ "tok-H1") = "tok-H1".
Proof.
  apply (strip_bearer_token "BeArEr" (String "160"%char "  ") "tok-H1").
  - reflexivity.
  - discriminate.
  - reflexivity.
  - reflexivity.
Defined.

(** [H1], offline with an open alert, sends a batch at 900000; the
    detector runs at 1000000. *)
Lemma heartbeat_clears_offline_alert_witness :
  let cron := Sample.cron_request (Some "Bearer cron-secret") in
  let req := Sample.ingest_request "900000" "n1" "batch-ok" in
  let s := snd (run (offline_detector Sample.env 700000 cron) (Sample.store1 0)) in
  let s1 := snd (run (ingest Sample.env 900000 req) s) in
  let s2 := snd (run (offline_detector Sample.env 1000000 cron) s1) in
  open_count 0 s = 1
  /\ refused_writes (ingest Sample.env 900000 req) s = []
  /\ (1000000 - 900000 <= 10 * 60 * 1000)%Z
  /\ exists v, verified_by Sample.env 900000 req s v
               /\ open_count (srv_id (v_server v)) s2 = 0.
Proof.
  assert (H1 : one_open_offline (Sample.store1 0)).
  { intros sid. vm_compute. lia. }
  assert (H2 : alerts_keyed (Sample.store1 0)).
  { split; [constructor | intros a []]. }
  destruct (offline_detector_run Sample.env 700000
              (Sample.cron_request (Some "Bearer cron-secret")) (Sample.store1 0)
              H1 H2) as (Hone & Hkeyed & _ & _).
  split; [vm_compute; reflexivity |].
  split; [vm_compute; reflexivity |].
  split; [lia |].
  apply (heartbeat_clears_offline_alert Sample.env 900000 1000000
           (Sample.ingest_request "900000" "n1" "batch-ok")
           (Sample.cron_request (Some "Bearer cron-secret"))
           (snd (run (offline_detector Sample.env 700000
                        (Sample.cron_request (Some "Bearer cron-secret")))
                     (Sample.store1 0)))
           (fst (run (ingest Sample.env 900000
                        (Sample.ingest_request "900000" "n1" "batch-ok"))
                     (snd (run (offline_detector Sample.env 700000
                                  (Sample.cron_request (Some "Bearer cron-secret")))
                               (Sample.store1 0)))))
           (snd (run (ingest Sample.env 900000
                        (Sample.ingest_request "900000" "n1" "batch-ok"))
                     (snd (run (offline_detector Sample.env 700000
                                  (Sample.cron_request (Some "Bearer cron-secret")))
                               (Sample.store1 0)))))
           (fst (run (offline_detector Sample.env 1000000
                        (Sample.cron_request (Some "Bearer cron-secret")))
                     (snd (run (ingest Sample.env 900000
                                  (Sample.ingest_request "900000" "n1" "batch-ok"))
                               (snd (run (offline_detector Sample.env 700000
                                            (Sample.cron_request
                                               (Some "Bearer cron-secret")))
                                         (Sample.store1 0)))))))).
  - apply surjective_pairing.
  - vm_compute. reflexivity.
  - vm_compute. reflexivity.
  - exact Hone.
  - exact Hkeyed.
  - apply surjective_pairing.
  - vm_compute. reflexivity.
  - lia.
Defined.

Lemma raised_alerts_belong_to_offline_hosts_witness :
  let cron := Sample.cron_request (Some "Bearer cron-secret") in
  let s := Sample.store1 0 in
  let s' := snd (run (offline_detector Sample.env 700000 cron) s) in
  List.length (tbl_alerts s') = 1
  /\ Forall (fun a => exists r,
                 In r (tbl_servers s)
                 /\ (srv_last_seen r < 700000 - 10 * 60 * 1000)%Z
                 /\ alert_of r a)
            (skipn (List.length (tbl_alerts s)) (tbl_alerts s')).
Proof.
  split; [vm_compute; reflexivity |].
  apply (raised_alerts_belong_to_offline_hosts Sample.env 700000
           (Sample.cron_request (Some "Bearer cron-secret")) (Sample.store1 0)
           (fst (run (offline_detector Sample.env 700000
                        (Sample.cron_request (Some "Bearer cron-secret")))
                     (Sample.store1 0)))).
  apply surjective_pairing.
Defined.

End MoreExamples.
